(** * abs_plqy_gui: the measurement and PLQY pipeline of [abs_plqy_gui.py]

    A shallow embedding of the numeric core of the program: subrun
    averaging ([collect_intensities]), calibrated conversion and table
    assembly ([CollectDataFrame.collect_multi]), the persisted artifact
    ([collect_blank] / [collect_sample] and the two [read_csv] calls),
    region integration ([AnalyzeDataFrame.counts_region]) and the yield
    with its propagated deviation ([calculate_plqy], [calculate_plqy_std]).

    Numbers are IEEE 754 binary64 values, as numpy's [float64] is: the
    type is the standard library's [spec_float] with its correctly
    rounded operations at precision 53 and maximal exponent 1024.  NaN,
    the two infinities and the two zeros are values of the type, so the
    behaviour of the code at a zero divisor or on an undefined deviation
    is part of the model.  Sums follow numpy's order of additions, which
    is pairwise on long contiguous arrays.  Python exceptions are the
    [Err] results of an error monad.  The C library's [pow] and the plot
    drawn at the end of an analysis are parameters of the model; the
    widgets and the file dialogs are not modelled. *)

From Stdlib Require Import ZArith List String Ascii Bool Arith Lia.
From Stdlib Require Import Sorting.Permutation.
From Stdlib Require Import Floats.SpecFloat.
From Stdlib Require Import Numbers.DecimalString Numbers.DecimalNat.
Import ListNotations.
Local Open Scope string_scope.
Local Open Scope list_scope.

(** ** Binary64 arithmetic *)

Module F64.

Definition prec : Z := 53.
Definition emax : Z := 1024.

Definition float : Type := spec_float.

Definition add : float -> float -> float := SFadd prec emax.
Definition sub : float -> float -> float := SFsub prec emax.
Definition mul : float -> float -> float := SFmul prec emax.
Definition div : float -> float -> float := SFdiv prec emax.
Definition sqrt : float -> float := SFsqrt prec emax.
Definition ltb : float -> float -> bool := SFltb.
Definition eqb : float -> float -> bool := SFeqb.
Definition abs : float -> float := SFabs.

(** An integer literal, or an [int] operand that Python converts to
    [float64] before a mixed operation: rounded to nearest, ties to even. *)
Definition of_Z (z : Z) : float := binary_normalize prec emax z 0 false.
Definition of_nat (n : nat) : float := of_Z (Z.of_nat n).

Definition zero : float := S754_zero false.
Definition nan : float := S754_nan.

Definition is_nan (x : float) : bool :=
  match x with S754_nan => true | _ => false end.
Definition is_zero (x : float) : bool :=
  match x with S754_zero _ => true | _ => false end.
Definition is_infinity (x : float) : bool :=
  match x with S754_infinity _ => true | _ => false end.
(** [numpy.isfinite]: neither NaN nor an infinity. *)
Definition is_finite (x : float) : bool :=
  match x with S754_zero _ | S754_finite _ _ _ => true | _ => false end.

(** [x ** 2] on a float64: the square, correctly rounded. *)
Definition square (x : float) : float := mul x x.

(** The strict order of two floats: the comparison exists and says [Lt]
    (so no NaN is below or above anything). *)
Definition lt (x y : float) : Prop := SFcompare x y = Some Lt.

(** Agreement within an absolute tolerance: [|x - y| < tol]. *)
Definition within (tol x y : float) : bool := ltb (abs (sub x y)) tol.

(** The same value, bit for bit (NaN is the same as NaN, and the two
    zeros are not the same). *)
Definition same (x y : float) : bool :=
  match x, y with
  | S754_nan, S754_nan => true
  | S754_zero a, S754_zero b => Bool.eqb a b
  | S754_infinity a, S754_infinity b => Bool.eqb a b
  | S754_finite a m e, S754_finite b m' e' =>
      Bool.eqb a b && Pos.eqb m m' && Z.eqb e e'
  | _, _ => false
  end.

End F64.

Abbreviation float := F64.float.

Declare Scope f64_scope.
Delimit Scope f64_scope with f64.
Infix "+" := F64.add : f64_scope.
Infix "-" := F64.sub : f64_scope.
Infix "*" := F64.mul : f64_scope.
Infix "/" := F64.div : f64_scope.
Infix "<?" := F64.ltb : f64_scope.

(** ** Exceptions as results *)

Inductive exn : Type :=
| ValueError   (* numpy / pandas: shapes that do not fit, too few points *)
| KeyError.    (* pandas: a label that is not in the index *)

Inductive result (A : Type) : Type :=
| Ok (a : A)
| Err (e : exn).
Arguments Ok {A} a.
Arguments Err {A} e.

Definition bind {A B} (r : result A) (k : A -> result B) : result B :=
  match r with
  | Ok a => k a
  | Err e => Err e
  end.

Declare Scope result_scope.
Delimit Scope result_scope with result.
Notation "'let*' x ':=' r 'in' k" := (bind r (fun x => k))
  (at level 10, x pattern, r at level 100, k at level 200) : result_scope.
Local Open Scope result_scope.

(** ** numpy on one-dimensional arrays *)

Module Np.

(** A reduction by addition starts from the identity of the addition,
    [0.0].  Along the outer axis of a stacked array numpy then adds the
    elements one after the other. *)
Definition serial_sum (xs : list float) : float :=
  fold_left F64.add xs F64.zero.

(** [DOUBLE_pairwise_sum], the loop behind [ndarray.sum()] and
    [np.add.reduce] on a contiguous one-dimensional array.  Fewer than
    eight elements are added one after the other, starting from [-0.0].
    Up to [PW_BLOCKSIZE] elements: the first eight start eight running
    sums, every further block of eight is added to them, one element to
    each, the eight sums are added in pairs, and the elements left over
    are added one by one. *)
Definition PW_BLOCKSIZE : nat := 128.

Fixpoint unrolled (r0 r1 r2 r3 r4 r5 r6 r7 : float) (a : list float) : float :=
  match a with
  | a0 :: a1 :: a2 :: a3 :: a4 :: a5 :: a6 :: a7 :: a' =>
      unrolled (F64.add r0 a0) (F64.add r1 a1) (F64.add r2 a2) (F64.add r3 a3)
               (F64.add r4 a4) (F64.add r5 a5) (F64.add r6 a6) (F64.add r7 a7)
               a'
  | _ =>
      fold_left F64.add a
                (F64.add (F64.add (F64.add r0 r1) (F64.add r2 r3))
                         (F64.add (F64.add r4 r5) (F64.add r6 r7)))
  end.

Definition pairwise_block (a : list float) : float :=
  match a with
  | a0 :: a1 :: a2 :: a3 :: a4 :: a5 :: a6 :: a7 :: a' =>
      unrolled a0 a1 a2 a3 a4 a5 a6 a7 a'
  | _ => fold_left F64.add a (S754_zero true)
  end.

(** More than [PW_BLOCKSIZE] elements are cut in two at a multiple of
    eight near the middle, and the sums of the two parts are added.  The
    recursion is on [depth]; a depth of the length of the array is never
    used up (see [pairwise_sum_depth]). *)
Fixpoint pairwise_sum (depth : nat) (a : list float) : float :=
  match depth with
  | O => pairwise_block a
  | S depth' =>
      let n := List.length a in
      if (n <=? PW_BLOCKSIZE)%nat then pairwise_block a
      else
        let n2 := (n / 2 - (n / 2) mod 8)%nat in
        F64.add (pairwise_sum depth' (firstn n2 a))
                (pairwise_sum depth' (skipn n2 a))
  end.

(** [ndarray.sum()] of a one-dimensional array: the pairwise sum, added
    to the identity. *)
Definition sum (xs : list float) : float :=
  F64.add F64.zero (pairwise_sum (List.length xs) xs).

(** [np.mean(xs)] for a one-dimensional [xs]: the sum over the count
    ([0.0 / 0] is NaN for an empty array, with a warning only). *)
Definition mean (xs : list float) : float :=
  (sum xs / F64.of_nat (List.length xs))%f64.

(** Element-wise binary operation of two arrays of one length; arrays of
    different lengths do not fit. *)
Fixpoint map2 (op : float -> float -> float) (xs ys : list float)
  : result (list float) :=
  match xs, ys with
  | [], [] => Ok []
  | x :: xs', y :: ys' =>
      let* r := map2 op xs' ys' in Ok (op x y :: r)
  | _, _ => Err ValueError
  end.

(** What [np.mean(rows, axis=0)] returns: an array, or the scalar NaN
    when there is nothing to average. *)
Inductive ndarray : Type :=
| Scalar (x : float)
| Array (xs : list float).

(** [np.mean(rows, axis=0)] of a list of arrays: the rows are stacked
    (they must have one length), added row after row to an array of
    [0.0], and every entry of the sum is divided by the number of rows.
    Rows of a single entry make one contiguous array, which numpy adds
    as [sum] does. *)
Fixpoint sum_rows (acc : list float) (rows : list (list float))
  : result (list float) :=
  match rows with
  | [] => Ok acc
  | r :: rows' => let* acc' := map2 F64.add acc r in sum_rows acc' rows'
  end.

Definition mean_axis0 (rows : list (list float)) : result ndarray :=
  match rows with
  | [] => Ok (Scalar F64.nan)
  | r :: _ =>
      let* s := sum_rows (repeat F64.zero (List.length r)) rows in
      let s := match s with
               | [_] => [sum (map (fun row => nth 0 row F64.nan) rows)]
               | _ => s
               end in
      Ok (Array (map (fun x => (x / F64.of_nat (List.length rows))%f64) s))
  end.

(** [np.gradient(f)] with unit spacing and [edge_order=1]: one-sided
    differences at the two ends, centered differences inside, and a
    [ValueError] when [f] has fewer than two elements. *)
Fixpoint gradient_from (prev cur : float) (rest : list float) : list float :=
  match rest with
  | [] => [((cur - prev) / F64.of_Z 1)%f64]
  | nxt :: rest' =>
      ((nxt - prev) / (F64.of_Z 2 * F64.of_Z 1))%f64 :: gradient_from cur nxt rest'
  end.

Definition gradient (f : list float) : result (list float) :=
  match f with
  | f0 :: f1 :: rest =>
      Ok (((f1 - f0) / F64.of_Z 1)%f64 :: gradient_from f0 f1 rest)
  | _ => Err ValueError
  end.

End Np.

(** ** pandas: labelled series and column-labelled tables

    A [DataFrame] is the ordered list of its labelled columns; all columns
    of a frame have one length, its number of rows.  A [Series] that came
    out of a column-wise reduction is the ordered list of its labelled
    values.  The tables of this program carry distinct labels (the
    wavelength, one column per measurement, the mean), so a label names
    one column; the look-ups below return the first match. *)

Module Pd.

Definition Series : Type := list (string * float).
Definition DataFrame : Type := list (string * list float).

Definition labels {A} (t : list (string * A)) : list string := map fst t.

(** [df[name]] and [s[name]]: the entry under a label, [KeyError] when
    the label is absent. *)
Fixpoint get {A} (t : list (string * A)) (name : string) : result A :=
  match t with
  | [] => Err KeyError
  | (n, v) :: t' => if String.eqb n name then Ok v else get t' name
  end.

(** [df.loc[0].array]: the values of the row labelled 0, one per column;
    a frame without rows has no such label. *)
Fixpoint first_row (df : DataFrame) : result (list float) :=
  match df with
  | [] => Ok []
  | (_, []) :: _ => Err KeyError
  | (_, v :: _) :: df' => let* r := first_row df' in Ok (v :: r)
  end.

Definition loc0 (df : DataFrame) : result (list float) :=
  match df with
  | [] => Err KeyError
  | _ => first_row df
  end.

(** [xs[mask]]: the entries at the positions where the mask holds. *)
Fixpoint select {A} (mask : list bool) (xs : list A) : list A :=
  match mask, xs with
  | b :: mask', x :: xs' =>
      if b then x :: select mask' xs' else select mask' xs'
  | _, _ => []
  end.

(** [df[mask]]: the rows where the boolean series holds, in every column. *)
Definition select_rows (mask : list bool) (df : DataFrame) : DataFrame :=
  map (fun c => (fst c, select mask (snd c))) df.

(** [df.mul(arr, axis=0)]: every column multiplied entry by entry with an
    array that has one value per row. *)
Fixpoint mul_axis0 (df : DataFrame) (arr : list float) : result DataFrame :=
  match df with
  | [] => Ok []
  | (n, c) :: df' =>
      let* c' := Np.map2 F64.mul c arr in
      let* r := mul_axis0 df' arr in
      Ok ((n, c') :: r)
  end.

(** Reductions skip NaN ([skipna=True]): pandas puts [0] at the masked
    positions and sums. *)
Definition nan_to_zero (x : float) : float :=
  if F64.is_nan x then F64.zero else x.

Definition nansum (xs : list float) : float := Np.sum (map nan_to_zero xs).

(** [df.sum()]: the sum of every column, labelled by the column. *)
Definition sum (df : DataFrame) : Series :=
  map (fun c => (fst c, nansum (snd c))) df.

(** [s.drop(label)]: the series without the entries under the label,
    [KeyError] when there is none. *)
Definition drop (label : string) (s : Series) : result Series :=
  if existsb (fun e => String.eqb (fst e) label) s
  then Ok (filter (fun e => negb (String.eqb (fst e) label)) s)
  else Err KeyError.

(** [s / arr] for an array of values: position by position when the
    lengths agree, the single value against every entry when the array
    has length one, a [ValueError] otherwise. *)
Fixpoint div_zip (s : Series) (arr : list float) : result Series :=
  match s, arr with
  | [], [] => Ok []
  | (n, v) :: s', p :: arr' =>
      let* r := div_zip s' arr' in Ok ((n, (v / p)%f64) :: r)
  | _, _ => Err ValueError
  end.

Definition div_array (s : Series) (arr : list float) : result Series :=
  match arr with
  | [p] => Ok (map (fun e => (fst e, (snd e / p)%f64)) s)
  | _ => div_zip s arr
  end.

(** [nanops.nanvar]: the two-pass variance over the entries that are not
    NaN, with [ddof] delta degrees of freedom; when the count does not
    exceed [ddof] both the count and the divisor are NaN. *)
Definition nanvar (ddof : nat) (values : list float) : float :=
  let count := List.length (filter (fun v => negb (F64.is_nan v)) values) in
  let cnt := if (count <=? ddof)%nat then F64.nan else F64.of_nat count in
  let d := if (count <=? ddof)%nat then F64.nan
           else (F64.of_nat count - F64.of_nat ddof)%f64 in
  let avg := (nansum values / cnt)%f64 in
  let sqr := map (fun v => if F64.is_nan v then F64.zero
                           else F64.square (avg - v)%f64) values in
  (Np.sum sqr / d)%f64.

(** [s.std()]: the sample standard deviation ([ddof=1]). *)
Definition std (s : Series) : float := F64.sqrt (nanvar 1 (map snd s)).

End Pd.

(** ** Acquisition: [collect_intensities] and [measure_34410a_current_average] *)

(** [measure_34410a_current_average], once its loop has ended: every
    reading of [multimeter.current_dc] (in A) was scaled to uA and
    appended, and the mean of the readings is left in [current_uA_mean]. *)
Definition current_uA_mean (readings : list float) : float :=
  Np.mean (map (fun current_dc => (current_dc * F64.of_Z 1000000)%f64) readings).

Section Acquisition.

(** The two instruments and the light they see.  One exposure is the
    blocking call [spec.intensities(correct_dark_counts=True)] together
    with the readings of [multimeter.current_dc] that the polling thread
    takes while it runs: [expose] gives the intensities, those readings,
    and the instruments afterwards.  The thread is taken to have ended,
    and to have stored its mean, when the 0.2 s after [e.set()] are over;
    the model does not follow the two threads step by step. *)
Variable Instr : Type.
Variable expose : Instr -> (list float * list float) * Instr.

(** One pass of the loop body: the exposure and the power that the main
    thread reads back from [initialize_frame.current_uA_mean]. *)
Definition subrun (instr : Instr) : (list float * float) * Instr :=
  let '((data, readings), instr') := expose instr in
  ((data, current_uA_mean readings), instr').

(** [for n in range(0, number_of_subruns)]: the remaining passes, with
    the two arrays the loop appends to. *)
Fixpoint subrun_loop (remaining : nat) (instr : Instr)
    (data_array : list (list float)) (power_mean_array : list float)
  : (list (list float) * list float) * Instr :=
  match remaining with
  | O => ((data_array, power_mean_array), instr)
  | S remaining' =>
      let '((data, power), instr') := subrun instr in
      subrun_loop remaining' instr'
                  (data_array ++ [data]) (power_mean_array ++ [power])
  end.

(** [collect_intensities()]: the averaged spectrum and the averaged
    power, or the [ValueError] of [np.mean] on spectra of unequal
    lengths; the instruments have moved on in either case.  (The copy of
    the spectrum put on the plotting queue is left out.) *)
Definition collect_intensities (number_of_subruns : nat) (instr : Instr)
  : result (Np.ndarray * float) * Instr :=
  let '((data_array, power_mean_array), instr') :=
    subrun_loop number_of_subruns instr [] [] in
  (let* data_average := Np.mean_axis0 data_array in
   let power_average := Np.mean power_mean_array in
   Ok (data_average, power_average),
   instr').

End Acquisition.

Arguments subrun {Instr} expose instr.
Arguments subrun_loop {Instr} expose remaining instr data_array power_mean_array.
Arguments collect_intensities {Instr} expose number_of_subruns instr.

(** ** Calibrated conversion: [init_spec] and the loop body of [collect_multi] *)

(** [init_spec]: the frame with the instrument's wavelengths and their
    spacing, the gradient of the axis. *)
Definition init_spec (wavelengths : list float) : result Pd.DataFrame :=
  let* delta_x := Np.gradient wavelengths in
  Ok [("wavelength", wavelengths); ("delta_x", delta_x)].

(** [df[name] = array]: the column replaced in place or appended; the
    array must have one value per row, unless the frame is still empty. *)
Fixpoint replace_column (df : Pd.DataFrame) (name : string) (col : list float)
  : option Pd.DataFrame :=
  match df with
  | [] => None
  | (n, c) :: df' =>
      if String.eqb n name then Some ((n, col) :: df')
      else match replace_column df' name col with
           | Some r => Some ((n, c) :: r)
           | None => None
           end
  end.

Definition nrows (df : Pd.DataFrame) : nat :=
  match df with
  | [] => 0
  | c :: _ => List.length (snd c)
  end.

Definition set_column (df : Pd.DataFrame) (name : string) (col : list float)
  : result Pd.DataFrame :=
  match df with
  | [] => Ok [(name, col)]
  | _ =>
      if Nat.eqb (List.length col) (nrows df) then
        match replace_column df name col with
        | Some r => Ok r
        | None => Ok (df ++ [(name, col)])
        end
      else Err ValueError
  end.

(** [dark_spec]: the averaged dark spectrum stored under ["dark"]; a
    scalar fills the column. *)
Definition dark_spec (df : Pd.DataFrame) (data_average : Np.ndarray)
  : result Pd.DataFrame :=
  match data_average with
  | Np.Scalar x => set_column df "dark" (repeat x (nrows df))
  | Np.Array xs => set_column df "dark" xs
  end.

(** [calibration_file]: the factors read from the file, stored under
    ["irradcal"]; the assignment of a frame aligns it on the row index,
    cutting what is beyond the last row and filling what is missing
    with NaN. *)
Definition reindex (n : nat) (col : list float) : list float :=
  firstn n col ++ repeat F64.nan (n - List.length col).

Definition calibration_file (df : Pd.DataFrame) (factors : list float)
  : result Pd.DataFrame :=
  set_column df "irradcal" (reindex (nrows df) factors).

(** An array against a column of the frame, [arr op df[name]]: entry by
    entry when the lengths agree; a scalar, or an array of one value, is
    stretched over the column as numpy broadcasts it. *)
Definition array_op (op : float -> float -> float) (arr : Np.ndarray)
    (col : list float) : result (list float) :=
  match arr with
  | Np.Scalar x => Ok (map (op x) col)
  | Np.Array [x] => Ok (map (op x) col)
  | Np.Array xs => Np.map2 op xs col
  end.

(** The right-hand side of [inten_dict["meas_" + str(n)] = ...]:
    [(intensities - df["dark"]) * df["irradcal"] / df["delta_x"]
     * df["wavelength"] / 1000], evaluated from the left as Python does. *)
Definition convert (df : Pd.DataFrame) (intensities : Np.ndarray)
  : result (list float) :=
  let* dark := Pd.get df "dark" in
  let* subtracted := array_op F64.sub intensities dark in
  let* irradcal := Pd.get df "irradcal" in
  let* calibrated := Np.map2 F64.mul subtracted irradcal in
  let* delta_x := Pd.get df "delta_x" in
  let* per_nm := Np.map2 F64.div calibrated delta_x in
  let* wavelength := Pd.get df "wavelength" in
  let* photons := Np.map2 F64.mul per_nm wavelength in
  Ok (map (fun x => (x / F64.of_Z 1000)%f64) photons).

(** ** Table assembly: [collect_multi] *)

(** [str(n)] of a non-negative integer. *)
Definition str (n : nat) : string := NilEmpty.string_of_uint (Nat.to_uint n).

(** One row of [df.mean(axis=1)] with [skipna=True]: the sum of the
    entries that are not NaN over their count, NaN when there is none.
    The additions run across the columns of the table: column after
    column, except that the only row of a table of one row is one
    contiguous array, which numpy adds as [Np.sum] does. *)
Definition nanmean (only_row : bool) (xs : list float) : float :=
  let count := List.length (filter (fun v => negb (F64.is_nan v)) xs) in
  if Nat.eqb count 0 then F64.nan
  else ((if only_row then Pd.nansum xs
         else Np.serial_sum (map Pd.nan_to_zero xs))
        / F64.of_nat count)%f64.

(** [df.mean(axis=1)]: the mean of every row over the columns. *)
Definition mean_axis1 (df : Pd.DataFrame) : list float :=
  map (fun i => nanmean (Nat.eqb (nrows df) 1)
                        (map (fun c => nth i (snd c) F64.nan) df))
      (seq 0 (nrows df)).

Section CollectMulti.

Variable Instr : Type.
Variable expose : Instr -> (list float * list float) * Instr.

(** [for n in range(number_of_meas)], from measurement [n] on, with the
    two dictionaries the loop fills (in insertion order). *)
Fixpoint measure_loop (remaining n : nat) (number_of_subruns : nat)
    (init_df : Pd.DataFrame) (instr : Instr)
    (inten_dict : Pd.DataFrame) (power_dict : Pd.DataFrame)
  : result (Pd.DataFrame * Pd.DataFrame) * Instr :=
  match remaining with
  | O => (Ok (inten_dict, power_dict), instr)
  | S remaining' =>
      match collect_intensities expose number_of_subruns instr with
      | (Err e, instr') => (Err e, instr')
      | (Ok (intensities, power_meas), instr') =>
          match convert init_df intensities with
          | Err e => (Err e, instr')
          | Ok photon_counts =>
              measure_loop remaining' (S n) number_of_subruns init_df instr'
                (inten_dict ++ [(("meas_" ++ str n)%string, photon_counts)])
                (power_dict ++ [(("meas" ++ str n ++ "_power")%string, [power_meas])])
          end
      end
  end.

(** [collect_multi()]: the spectrum table and the power table.
    [pd.concat] of no column raises a [ValueError]. *)
Definition collect_multi (number_of_meas number_of_subruns : nat)
    (init_df : Pd.DataFrame) (instr : Instr)
  : result (Pd.DataFrame * Pd.DataFrame) * Instr :=
  match measure_loop number_of_meas 0 number_of_subruns init_df instr [] [] with
  | (Err e, instr') => (Err e, instr')
  | (Ok (inten_dict, power_dict), instr') =>
      (match inten_dict with
       | [] => Err ValueError
       | _ =>
           let df_multi :=
             inten_dict ++ [("mean_photon_counts", mean_axis1 inten_dict)] in
           let* wavelength := Pd.get init_df "wavelength" in
           let df_multi := ("wavelength", wavelength) :: df_multi in
           let df_power :=
             power_dict ++ [("laser_power_mean_uA", mean_axis1 power_dict)] in
           Ok (df_multi, df_power)
       end, instr')
  end.

End CollectMulti.

Arguments measure_loop {Instr} expose remaining n number_of_subruns init_df instr inten_dict power_dict.
Arguments collect_multi {Instr} expose number_of_meas number_of_subruns init_df instr.

(** ** The persisted artifact: [to_csv], [read_csv], [collect_blank] *)

(** A text file is the list of its lines and a line the list of its
    comma-separated fields; the empty line has no field. *)
Definition Line : Type := list string.
Definition File : Type := list Line.

Definition is_blank (line : Line) : bool :=
  match line with
  | [] => true
  | [s] => String.eqb s ""
  | _ => false
  end.

(** The lines that [skiprows] leaves, numbered from [n] on. *)
Fixpoint keep_lines (skiprows : nat -> bool) (n : nat) (file : File) : File :=
  match file with
  | [] => []
  | line :: file' =>
      if skiprows n then keep_lines skiprows (S n) file'
      else line :: keep_lines skiprows (S n) file'
  end.

Section Csv.

(** The text [to_csv] writes for a number (the empty field for NaN) and
    the number [read_csv] reads from a field: pandas' own conversions. *)
Variable repr : float -> string.
Variable parse : string -> float.

(** [df.to_csv(path, mode="a", index=False)]: the header line with the
    column names, then one line per row. *)
Definition csv_row (df : Pd.DataFrame) (i : nat) : Line :=
  map (fun c => repr (nth i (snd c) F64.nan)) df.

Definition to_csv (df : Pd.DataFrame) : File :=
  Pd.labels df :: map (csv_row df) (seq 0 (nrows df)).

(** Field [j] of a line as a number; a line that ends early has NaN. *)
Definition field (j : nat) (line : Line) : float :=
  match nth_error line j with
  | Some s => parse s
  | None => F64.nan
  end.

(** The number of fields the parser expects in a row: as many as the
    longer of the header and the first row has. *)
Definition table_width (header : Line) (rows : File) : nat :=
  match rows with
  | [] => List.length header
  | first :: _ => Nat.max (List.length header) (List.length first)
  end.

(** [pd.read_csv(path, skiprows=...)]: the skipped and the blank lines
    are left out, the first line that remains names the columns and the
    others are the rows.  No line at all is an [EmptyDataError], a
    [ValueError]; a row with more fields than [table_width] is a
    [ParserError], a [ValueError] too; a row that ends early has NaN.
    When the first row has more fields than the header, pandas takes its
    leading fields ([leading_cols] of them) as the row labels and starts
    the columns after them; the tables of this model carry no row
    labels, so the leading fields are left out of the table.  Column
    names are taken as they stand: the files this program writes repeat
    none and leave none empty. *)
Definition read_csv (skiprows : nat -> bool) (file : File)
  : result Pd.DataFrame :=
  match filter (fun line => negb (is_blank line)) (keep_lines skiprows 0 file) with
  | [] => Err ValueError
  | header :: rows =>
      let width := table_width header rows in
      let leading_cols := width - List.length header in
      if forallb (fun line => (List.length line <=? width)%nat) rows
      then Ok (map (fun jn => (snd jn, map (field (leading_cols + fst jn)) rows))
                   (combine (seq 0 (List.length header)) header))
      else Err ValueError
  end.

(** What [collect_blank] and [collect_sample] append to the file at the
    new path: the power table, an empty line, the spectrum table. *)
Definition save (existing : File) (df_power df : Pd.DataFrame) : File :=
  existing ++ to_csv df_power ++ [[]] ++ to_csv df.

(** [pd.read_csv(path, skiprows=3)]. *)
Definition load_spectrum (file : File) : result Pd.DataFrame :=
  read_csv (fun x => (x <? 3)%nat) file.

(** [pd.read_csv(path, skiprows=lambda x: x not in [0,1])]. *)
Definition load_power (file : File) : result Pd.DataFrame :=
  read_csv (fun x => negb (existsb (Nat.eqb x) [0; 1])) file.

Variable Instr : Type.
Variable expose : Instr -> (list float * list float) * Instr.

(** [collect_blank()] on a fresh path: the file it leaves and the two
    tables the analysis frame loads back from it. *)
Definition collect_blank (number_of_meas number_of_subruns : nat)
    (init_df : Pd.DataFrame) (instr : Instr)
  : result (File * Pd.DataFrame * Pd.DataFrame) * Instr :=
  match collect_multi expose number_of_meas number_of_subruns init_df instr with
  | (Err e, instr') => (Err e, instr')
  | (Ok (df_blank, df_blank_power), instr') =>
      (let file := save [] df_blank_power df_blank in
       let* df := load_spectrum file in
       let* df_power := load_power file in
       Ok (file, df, df_power), instr')
  end.

End Csv.

(** ** Region integration: [AnalyzeDataFrame.counts_region] *)

(** The table the function returns: its two columns, both indexed by the
    column labels of the spectrum table without ["wavelength"]. *)
Record Counts : Type := {
  excit_total_counts : Pd.Series;
  fluor_total_counts : Pd.Series
}.

(** [(low < df["wavelength"]) & (df["wavelength"] < high)] at one row; the
    bounds are Python integers. *)
Definition in_bounds (low high : Z) (w : float) : bool :=
  (F64.of_Z low <? w)%f64 && (w <? F64.of_Z high)%f64.

(** The block of the function that the source writes twice, once with the
    excitation bounds and once with the fluorescence bounds: mask, row
    selection, gradient of the selected wavelengths, scaling by it,
    column sums, the ["wavelength"] sum dropped, division by the powers. *)
Definition signal_norm (df : Pd.DataFrame) (laser_power_array : list float)
    (bound_low bound_high : Z) : result Pd.Series :=
  let* wavelength := Pd.get df "wavelength" in
  let signal_boolean := map (in_bounds bound_low bound_high) wavelength in
  let signal := Pd.select_rows signal_boolean df in
  let* signal_wavelength := Pd.get signal "wavelength" in
  let* signal_delta_x := Np.gradient signal_wavelength in
  let* signal := Pd.mul_axis0 signal signal_delta_x in
  let signal_sum := Pd.sum signal in
  let* signal_sum := Pd.drop "wavelength" signal_sum in
  Pd.div_array signal_sum laser_power_array.

Definition counts_region (df df_power : Pd.DataFrame)
    (lbound_low lbound_high fbound_low fbound_high : Z) : result Counts :=
  let* laser_power_array := Pd.loc0 df_power in
  let* laser_signal_norm := signal_norm df laser_power_array lbound_low lbound_high in
  let* fluor_signal_norm := signal_norm df laser_power_array fbound_low fbound_high in
  Ok {| excit_total_counts := laser_signal_norm;
        fluor_total_counts := fluor_signal_norm |}.

(** ** The yield and its deviation: [calculate_plqy], [calculate_plqy_std] *)

Definition mean_label : string := "mean_photon_counts".

(** What [calculate_plqy] leaves in the frame object. *)
Record PLQY : Type := {
  photons_emitted_mean : float;
  photons_abs_mean : float;
  plqy_mean : float;
  plqy_std : float
}.

Section Yield.

(** [x ** y] on numpy [float64] scalars: numpy hands it to the C
    library's [pow], whose result is not fixed to the last bit (it need
    not be the correctly rounded square or square root).  The library
    function is a parameter of the model. *)
Variable pow : float -> float -> float.

(** [qy_average * (qy_std_a + qy_std_b) ** (1/2)] and what it is made
    of; [Series.std()] is pandas' own and is modelled in [Pd]. *)
Definition calculate_plqy_std (df_blank_analysis df_sample_analysis : Counts)
  : result float :=
  let* blank_laser_average := Pd.get (excit_total_counts df_blank_analysis) mean_label in
  let* blank_fluor_average := Pd.get (fluor_total_counts df_blank_analysis) mean_label in
  let* sample_laser_average := Pd.get (excit_total_counts df_sample_analysis) mean_label in
  let* sample_fluor_average := Pd.get (fluor_total_counts df_sample_analysis) mean_label in
  let* blank_laser := Pd.drop mean_label (excit_total_counts df_blank_analysis) in
  let blank_laser_std := Pd.std blank_laser in
  let* blank_fluor := Pd.drop mean_label (fluor_total_counts df_blank_analysis) in
  let blank_fluor_std := Pd.std blank_fluor in
  let* sample_laser := Pd.drop mean_label (excit_total_counts df_sample_analysis) in
  let sample_laser_std := Pd.std sample_laser in
  let* sample_fluor := Pd.drop mean_label (fluor_total_counts df_sample_analysis) in
  let sample_fluor_std := Pd.std sample_fluor in
  let blank_laser_var := pow blank_laser_std (F64.of_Z 2) in
  let blank_fluor_var := pow blank_fluor_std (F64.of_Z 2) in
  let sample_laser_var := pow sample_laser_std (F64.of_Z 2) in
  let sample_fluor_var := pow sample_fluor_std (F64.of_Z 2) in
  let qy_average := ((sample_fluor_average - blank_fluor_average)
                     / (blank_laser_average - sample_laser_average))%f64 in
  let qy_std_a := ((sample_fluor_var + blank_fluor_var)
                   / pow (sample_fluor_average - blank_fluor_average)%f64
                         (F64.of_Z 2))%f64 in
  let qy_std_b := ((blank_laser_var + sample_laser_var)
                   / pow (blank_laser_average - sample_laser_average)%f64
                         (F64.of_Z 2))%f64 in
  Ok (qy_average * pow (qy_std_a + qy_std_b)%f64
                       (F64.of_Z 1 / F64.of_Z 2)%f64)%f64.

(** Lines 748 to 754, on the two analysis tables.  The entries read
    from the tables are numpy [float64] scalars: their division by zero
    warns and gives an infinity or NaN, it does not raise. *)
Definition plqy_of_counts (df_blank_analysis df_sample_analysis : Counts)
  : result PLQY :=
  let* sample_fluor := Pd.get (fluor_total_counts df_sample_analysis) mean_label in
  let* blank_fluor := Pd.get (fluor_total_counts df_blank_analysis) mean_label in
  let photons_emitted_mean := (sample_fluor - blank_fluor)%f64 in
  let* blank_excit := Pd.get (excit_total_counts df_blank_analysis) mean_label in
  let* sample_excit := Pd.get (excit_total_counts df_sample_analysis) mean_label in
  let photons_abs_mean := (blank_excit - sample_excit)%f64 in
  let plqy_mean := (photons_emitted_mean / photons_abs_mean)%f64 in
  let* plqy_std := calculate_plqy_std df_blank_analysis df_sample_analysis in
  Ok {| photons_emitted_mean := photons_emitted_mean;
        photons_abs_mean := photons_abs_mean;
        plqy_mean := plqy_mean;
        plqy_std := plqy_std |}.

(** [self.update_plot()], the last line of [calculate_plqy]: it draws
    the two spectra with matplotlib and writes the four numbers into the
    figure, and it raises on what it cannot draw or write (axis limits
    that are NaN, [int(round(x))] of a NaN or an infinity).  The plot is
    not modelled: it is a parameter that returns or raises, given the
    tables, the bounds and the numbers it reads. *)
Variable update_plot :
  Pd.DataFrame -> Pd.DataFrame -> Z -> Z -> Z -> Z -> PLQY -> result unit.

(** [calculate_plqy]: the two region integrations, the numbers, the
    plot.  The numbers are stored in the frame object before the plot is
    drawn. *)
Definition calculate_plqy
    (df_blank df_blank_power df_sample df_sample_power : Pd.DataFrame)
    (lbound_low lbound_high fbound_low fbound_high : Z) : result PLQY :=
  let* df_blank_analysis :=
    counts_region df_blank df_blank_power
                  lbound_low lbound_high fbound_low fbound_high in
  let* df_sample_analysis :=
    counts_region df_sample df_sample_power
                  lbound_low lbound_high fbound_low fbound_high in
  let* plqy := plqy_of_counts df_blank_analysis df_sample_analysis in
  let* drawn := update_plot df_blank df_sample
                            lbound_low lbound_high fbound_low fbound_high
                            plqy in
  Ok plqy.

End Yield.

(** ** The polling loop: [collect_data_loop] and the buttons *)

(** What the three frames hold between two passes of the loop: the
    flags the buttons set, the two entries the collection reads, the
    table of the initialization frame, the instruments, and the tables
    the analysis frame has loaded ([None] while the attribute does not
    exist).  The entries are taken to hold natural numbers. *)
Record Gui (Instr : Type) : Type := {
  collect_dark_bool : bool;
  collect_blank_bool : bool;
  collect_sample_bool : bool;
  live_view_bool : bool;
  entry_subruns : nat;
  entry_number_meas : nat;
  initialize_frame_df : Pd.DataFrame;
  instruments : Instr;
  df_blank : option Pd.DataFrame;
  df_blank_power : option Pd.DataFrame;
  df_sample : option Pd.DataFrame;
  df_sample_power : option Pd.DataFrame
}.

Arguments collect_dark_bool {Instr} g.
Arguments collect_blank_bool {Instr} g.
Arguments collect_sample_bool {Instr} g.
Arguments live_view_bool {Instr} g.
Arguments entry_subruns {Instr} g.
Arguments entry_number_meas {Instr} g.
Arguments initialize_frame_df {Instr} g.
Arguments instruments {Instr} g.
Arguments df_blank {Instr} g.
Arguments df_blank_power {Instr} g.
Arguments df_sample {Instr} g.
Arguments df_sample_power {Instr} g.

Section Loop.

Variable repr : float -> string.
Variable parse : string -> float.
Variable Instr : Type.
Variable expose : Instr -> (list float * list float) * Instr.

(** The assignments the code makes to the attributes. *)
Definition set_flags (dark blank sample live : bool) (g : Gui Instr)
  : Gui Instr :=
  {| collect_dark_bool := dark;
     collect_blank_bool := blank;
     collect_sample_bool := sample;
     live_view_bool := live;
     entry_subruns := entry_subruns g;
     entry_number_meas := entry_number_meas g;
     initialize_frame_df := initialize_frame_df g;
     instruments := instruments g;
     df_blank := df_blank g;
     df_blank_power := df_blank_power g;
     df_sample := df_sample g;
     df_sample_power := df_sample_power g |}.

Definition set_instruments (instr : Instr) (g : Gui Instr) : Gui Instr :=
  {| collect_dark_bool := collect_dark_bool g;
     collect_blank_bool := collect_blank_bool g;
     collect_sample_bool := collect_sample_bool g;
     live_view_bool := live_view_bool g;
     entry_subruns := entry_subruns g;
     entry_number_meas := entry_number_meas g;
     initialize_frame_df := initialize_frame_df g;
     instruments := instr;
     df_blank := df_blank g;
     df_blank_power := df_blank_power g;
     df_sample := df_sample g;
     df_sample_power := df_sample_power g |}.

Definition set_initialize_frame_df (df : Pd.DataFrame) (g : Gui Instr)
  : Gui Instr :=
  {| collect_dark_bool := collect_dark_bool g;
     collect_blank_bool := collect_blank_bool g;
     collect_sample_bool := collect_sample_bool g;
     live_view_bool := live_view_bool g;
     entry_subruns := entry_subruns g;
     entry_number_meas := entry_number_meas g;
     initialize_frame_df := df;
     instruments := instruments g;
     df_blank := df_blank g;
     df_blank_power := df_blank_power g;
     df_sample := df_sample g;
     df_sample_power := df_sample_power g |}.

Definition set_df_blank (df : Pd.DataFrame) (g : Gui Instr) : Gui Instr :=
  {| collect_dark_bool := collect_dark_bool g;
     collect_blank_bool := collect_blank_bool g;
     collect_sample_bool := collect_sample_bool g;
     live_view_bool := live_view_bool g;
     entry_subruns := entry_subruns g;
     entry_number_meas := entry_number_meas g;
     initialize_frame_df := initialize_frame_df g;
     instruments := instruments g;
     df_blank := Some df;
     df_blank_power := df_blank_power g;
     df_sample := df_sample g;
     df_sample_power := df_sample_power g |}.

Definition set_df_blank_power (df : Pd.DataFrame) (g : Gui Instr)
  : Gui Instr :=
  {| collect_dark_bool := collect_dark_bool g;
     collect_blank_bool := collect_blank_bool g;
     collect_sample_bool := collect_sample_bool g;
     live_view_bool := live_view_bool g;
     entry_subruns := entry_subruns g;
     entry_number_meas := entry_number_meas g;
     initialize_frame_df := initialize_frame_df g;
     instruments := instruments g;
     df_blank := df_blank g;
     df_blank_power := Some df;
     df_sample := df_sample g;
     df_sample_power := df_sample_power g |}.

Definition set_df_sample (df : Pd.DataFrame) (g : Gui Instr) : Gui Instr :=
  {| collect_dark_bool := collect_dark_bool g;
     collect_blank_bool := collect_blank_bool g;
     collect_sample_bool := collect_sample_bool g;
     live_view_bool := live_view_bool g;
     entry_subruns := entry_subruns g;
     entry_number_meas := entry_number_meas g;
     initialize_frame_df := initialize_frame_df g;
     instruments := instruments g;
     df_blank := df_blank g;
     df_blank_power := df_blank_power g;
     df_sample := Some df;
     df_sample_power := df_sample_power g |}.

Definition set_df_sample_power (df : Pd.DataFrame) (g : Gui Instr)
  : Gui Instr :=
  {| collect_dark_bool := collect_dark_bool g;
     collect_blank_bool := collect_blank_bool g;
     collect_sample_bool := collect_sample_bool g;
     live_view_bool := live_view_bool g;
     entry_subruns := entry_subruns g;
     entry_number_meas := entry_number_meas g;
     initialize_frame_df := initialize_frame_df g;
     instruments := instruments g;
     df_blank := df_blank g;
     df_blank_power := df_blank_power g;
     df_sample := df_sample g;
     df_sample_power := Some df |}.

(** The button commands. *)
Definition collect_dark_bool_true (g : Gui Instr) : Gui Instr :=
  set_flags true (collect_blank_bool g) (collect_sample_bool g)
            (live_view_bool g) g.

Definition collect_blank_bool_true (g : Gui Instr) : Gui Instr :=
  set_flags (collect_dark_bool g) true (collect_sample_bool g)
            (live_view_bool g) g.

Definition collect_sample_bool_true (g : Gui Instr) : Gui Instr :=
  set_flags (collect_dark_bool g) (collect_blank_bool g) true
            (live_view_bool g) g.

Definition live_view_bool_switch (g : Gui Instr) : Gui Instr :=
  set_flags (collect_dark_bool g) (collect_blank_bool g)
            (collect_sample_bool g)
            (if Bool.eqb (live_view_bool g) false then true else false) g.

(** [InitializeFrame.dark_spec] on the frames: one averaged collection,
    stored under ["dark"]. *)
Definition dark_spec_method (g : Gui Instr) : result unit * Gui Instr :=
  match collect_intensities expose (entry_subruns g) (instruments g) with
  | (Err e, instr') => (Err e, set_instruments instr' g)
  | (Ok (data_average, _), instr') =>
      let g' := set_instruments instr' g in
      match dark_spec (initialize_frame_df g) data_average with
      | Err e => (Err e, g')
      | Ok df => (Ok tt, set_initialize_frame_df df g')
      end
  end.

(** [CollectDataFrame.collect_blank] on the frames: the collection, the
    file at the new path, and the two reads that load it into the
    analysis frame, each assigned as soon as it has returned.  (The
    copies the collection frame keeps of the collected tables are read
    nowhere and are left out.) *)
Definition collect_blank_method (g : Gui Instr) : result unit * Gui Instr :=
  match collect_multi expose (entry_number_meas g) (entry_subruns g)
                      (initialize_frame_df g) (instruments g) with
  | (Err e, instr') => (Err e, set_instruments instr' g)
  | (Ok (collected, collected_power), instr') =>
      let g1 := set_instruments instr' g in
      let file := save repr [] collected_power collected in
      match load_spectrum parse file with
      | Err e => (Err e, g1)
      | Ok df =>
          let g2 := set_df_blank df g1 in
          match load_power parse file with
          | Err e => (Err e, g2)
          | Ok df_power => (Ok tt, set_df_blank_power df_power g2)
          end
      end
  end.

(** [CollectDataFrame.collect_sample]: the same with the sample's
    attributes. *)
Definition collect_sample_method (g : Gui Instr) : result unit * Gui Instr :=
  match collect_multi expose (entry_number_meas g) (entry_subruns g)
                      (initialize_frame_df g) (instruments g) with
  | (Err e, instr') => (Err e, set_instruments instr' g)
  | (Ok (collected, collected_power), instr') =>
      let g1 := set_instruments instr' g in
      let file := save repr [] collected_power collected in
      match load_spectrum parse file with
      | Err e => (Err e, g1)
      | Ok df =>
          let g2 := set_df_sample df g1 in
          match load_power parse file with
          | Err e => (Err e, g2)
          | Ok df_power => (Ok tt, set_df_sample_power df_power g2)
          end
      end
  end.

(** One pass of [collect_data_loop].  [Ok] is a pass that reached its
    last line, where the next pass is scheduled; [Err] is an exception
    that ended the collection thread before that line, after which no
    pass follows.  The pass is taken as one step: the buttons are not
    pressed while it runs. *)
Definition collect_data_loop (g : Gui Instr) : result unit * Gui Instr :=
  if collect_dark_bool g || collect_blank_bool g || collect_sample_bool g
  then
    let '(r, g') :=
      if collect_dark_bool g then dark_spec_method g
      else if collect_blank_bool g then collect_blank_method g
      else if collect_sample_bool g then collect_sample_method g
      else (Ok tt, g) in
    match r with
    | Err e => (Err e, g')
    | Ok _ => (Ok tt, set_flags false false false (live_view_bool g') g')
    end
  else if live_view_bool g then
    match collect_intensities expose (entry_subruns g) (instruments g) with
    | (Err e, instr') => (Err e, set_instruments instr' g)
    | (Ok _, instr') => (Ok tt, set_instruments instr' g)
    end
  else (Ok tt, g).

End Loop.

Arguments set_flags {Instr} dark blank sample live g.
Arguments set_instruments {Instr} instr g.
Arguments set_initialize_frame_df {Instr} df g.
Arguments set_df_blank {Instr} df g.
Arguments set_df_blank_power {Instr} df g.
Arguments set_df_sample {Instr} df g.
Arguments set_df_sample_power {Instr} df g.
Arguments collect_dark_bool_true {Instr} g.
Arguments collect_blank_bool_true {Instr} g.
Arguments collect_sample_bool_true {Instr} g.
Arguments live_view_bool_switch {Instr} g.
Arguments dark_spec_method {Instr} expose g.
Arguments collect_blank_method repr parse {Instr} expose g.
Arguments collect_sample_method repr parse {Instr} expose g.
Arguments collect_data_loop repr parse {Instr} expose g.

(** * Vocabulary of the statements *)

(** The per-measurement entries of an analysis column: all but the mean. *)
Definition per_measurement (s : Pd.Series) : Pd.Series :=
  filter (fun e => negb (String.eqb (fst e) mean_label)) s.

(** A sum in the words of the description, which fixes no order for
    the additions: every number of the list enters once, by binary64
    additions taken in some order and grouping.  (On binary64 numbers
    the order shows in the last bits.)  The sum of no number is [0.0]. *)
Inductive sum_of : list float -> float -> Prop :=
| sum_of_nil : sum_of [] F64.zero
| sum_of_one (x : float) : sum_of [x] x
| sum_of_add (xs ys : list float) (a b : float) :
    sum_of xs a -> sum_of ys b -> sum_of (xs ++ ys) (a + b)%f64
| sum_of_perm (xs ys : list float) (a : float) :
    Permutation xs ys -> sum_of xs a -> sum_of ys a.

(** An arithmetic mean: a sum over the count. *)
Definition mean_of (xs : list float) (m : float) : Prop :=
  exists s, sum_of xs s /\ m = (s / F64.of_nat (List.length xs))%f64.

(** The entries that are numbers; pandas' reductions pass over NaN. *)
Definition numbers (xs : list float) : list float :=
  filter (fun x => negb (F64.is_nan x)) xs.

(** The sample standard deviation in the textbook's words: the square
    root of a sum of the squared distances to an arithmetic mean, over
    one less than the count; undefined, NaN, for fewer than two numbers. *)
Definition sample_std_of (xs : list float) (sd : float) : Prop :=
  if (List.length xs <=? 1)%nat then sd = F64.nan
  else exists m ss,
      mean_of xs m /\
      sum_of (map (fun x => F64.square (m - x)%f64) xs) ss /\
      sd = F64.sqrt (ss / (F64.of_nat (List.length xs) - F64.of_nat 1))%f64.

(** The sample standard deviation of the per-measurement entries of an
    analysis column, its mean row left out. *)
Definition column_std_of (s : Pd.Series) (sd : float) : Prop :=
  sample_std_of (numbers (map snd (per_measurement s))) sd.

(** The selection of a window, in the words of the description: the
    entries of a column at the rows whose wavelength lies in the bounds. *)
Definition window {A} (low high : Z) (wavelength : list float) (xs : list A)
  : list A :=
  Pd.select (map (in_bounds low high) wavelength) xs.

(** Each selected intensity times its local spacing. *)
Definition weighted (col delta_x : list float) : list float :=
  map (fun p => (fst p * snd p)%f64) (combine col delta_x).

(** The variance of an analysis column as the code computes it: the
    second power of [Series.std()] of the column without its mean row. *)
Definition variance_of (pow : float -> float -> float) (s : Pd.Series)
  : float :=
  pow (Pd.std (per_measurement s)) (F64.of_Z 2).

(** The area of one column over a window, for a given local spacing: a
    sum of the selected intensities, each times its local spacing (the
    products that are NaN passed over). *)
Definition area_of (low high : Z) (wavelength delta_x col : list float)
    (area : float) : Prop :=
  sum_of (numbers (weighted (window low high wavelength col) delta_x)) area.

(** The same area as the code computes it, with pandas' sum. *)
Definition region_area (low high : Z) (wavelength delta_x col : list float)
  : float :=
  Pd.nansum (weighted (window low high wavelength col) delta_x).

(** The columns that carry intensities: all but ["wavelength"]. *)
Definition data_columns (df : Pd.DataFrame) : Pd.DataFrame :=
  filter (fun c => negb (String.eqb (fst c) "wavelength")) df.

(** Every column's area over the window divided by that column's power,
    under the column's name. *)
Definition normalized_areas_of (low high : Z) (wavelength delta_x : list float)
    (cols : Pd.DataFrame) (powers : list float) (s : Pd.Series) : Prop :=
  Forall2 (fun cp e =>
             fst e = fst (fst cp) /\
             exists area,
               area_of low high wavelength delta_x (snd (fst cp)) area /\
               snd e = (area / snd cp)%f64)
          (combine cols powers) s.

(** The same series as the code computes it. *)
Definition normalized_areas (low high : Z) (wavelength delta_x : list float)
    (cols : Pd.DataFrame) (powers : list float) : Pd.Series :=
  map (fun cp => (fst (fst cp),
                  (region_area low high wavelength delta_x (snd (fst cp))
                   / snd cp)%f64))
      (combine cols powers).

(** What the description calls invoking the sampler a number of times in
    sequence: the results of [n] successive subruns, each starting from
    the instruments as the one before left them. *)
Fixpoint sampler_trace {Instr : Type}
    (expose : Instr -> (list float * list float) * Instr)
    (n : nat) (instr : Instr) : list (list float * float) * Instr :=
  match n with
  | O => ([], instr)
  | S n' =>
      let '(sample, instr') := subrun expose instr in
      let '(rest, instr'') := sampler_trace expose n' instr' in
      (sample :: rest, instr'')
  end.

(** The exposures behind those subruns: what the instruments gave, one
    exposure after the other, as intensities and readings of the current. *)
Fixpoint exposures {Instr : Type}
    (expose : Instr -> (list float * list float) * Instr)
    (n : nat) (instr : Instr) : list (list float * list float) :=
  match n with
  | O => []
  | S n' =>
      let '(exposure, instr') := expose instr in
      exposure :: exposures expose n' instr'
  end.

(** Two tables agree to a tolerance [close]: the same column names in
    the same order and, column by column, values that agree. *)
Definition tables_agree (close : float -> float -> Prop)
    (a b : Pd.DataFrame) : Prop :=
  Forall2 (fun ca cb => fst ca = fst cb /\ Forall2 close (snd ca) (snd cb)) a b.

(** The numbers of a table survive the text: written by [repr] and read
    back by [parse] they agree with what they were. *)
Definition survives_text (repr : float -> string) (parse : string -> float)
    (close : float -> float -> Prop) (df : Pd.DataFrame) : Prop :=
  Forall (fun c => Forall (fun x => close (parse (repr x)) x) (snd c)) df.

(** The averages that [n] successive calls of [collect_intensities]
    return, each call starting from the instruments as the one before
    left them. *)
Fixpoint collections {Instr : Type}
    (expose : Instr -> (list float * list float) * Instr)
    (n number_of_subruns : nat) (instr : Instr)
  : list (result (Np.ndarray * float)) * Instr :=
  match n with
  | O => ([], instr)
  | S n' =>
      let '(r, instr') := collect_intensities expose number_of_subruns instr in
      let '(rest, instr'') := collections expose n' number_of_subruns instr' in
      (r :: rest, instr'')
  end.

(** The columns ["meas_" + str(j)] for the measurements from [n] on. *)
Definition meas_columns (n : nat) (cols : list (list float * float))
  : Pd.DataFrame :=
  map (fun jc => (("meas_" ++ str (fst jc))%string, fst (snd jc)))
      (combine (seq n (List.length cols)) cols).

(** The columns ["meas" + str(j) + "_power"], of one row each. *)
Definition power_columns (n : nat) (cols : list (list float * float))
  : Pd.DataFrame :=
  map (fun jc => (("meas" ++ str (fst jc) ++ "_power")%string, [snd (snd jc)]))
      (combine (seq n (List.length cols)) cols).

(** * Example data *)

(** Two analysis tables of two measurements each, with the mean rows
    (100, 10) for the blank and (40, 50) for the sample. *)
Definition blank_counts_example : Counts :=
  {| excit_total_counts :=
       [("meas_0", F64.of_Z 101); ("meas_1", F64.of_Z 99);
        (mean_label, F64.of_Z 100)];
     fluor_total_counts :=
       [("meas_0", F64.of_Z 9); ("meas_1", F64.of_Z 11);
        (mean_label, F64.of_Z 10)] |}.

Definition sample_counts_example : Counts :=
  {| excit_total_counts :=
       [("meas_0", F64.of_Z 42); ("meas_1", F64.of_Z 38);
        (mean_label, F64.of_Z 40)];
     fluor_total_counts :=
       [("meas_0", F64.of_Z 49); ("meas_1", F64.of_Z 51);
        (mean_label, F64.of_Z 50)] |}.

(** A sample that absorbs nothing and still emits: the excitation sums
    of the blank and of the sample agree. *)
Definition nonabsorbing_counts_example : Counts :=
  {| excit_total_counts :=
       [("meas_0", F64.of_Z 101); ("meas_1", F64.of_Z 99);
        (mean_label, F64.of_Z 100)];
     fluor_total_counts :=
       [("meas_0", F64.of_Z 49); ("meas_1", F64.of_Z 51);
        (mean_label, F64.of_Z 50)] |}.

(** A blank collected in two measurements on an axis of eight points with
    uneven spacing, and its power table. *)
Definition df_blank_example : Pd.DataFrame :=
  [("wavelength", map F64.of_Z [400; 401; 403; 406; 410; 500; 502; 505]%Z);
   ("meas_0", map F64.of_Z [1; 8; 9; 7; 1; 2; 3; 2]%Z);
   ("meas_1", map F64.of_Z [1; 10; 11; 9; 1; 2; 5; 2]%Z);
   ("mean_photon_counts", map F64.of_Z [1; 9; 10; 8; 1; 2; 4; 2]%Z)].

Definition df_blank_power_example : Pd.DataFrame :=
  [("meas0_power", [F64.of_Z 2]); ("meas1_power", [F64.of_Z 4]);
   ("laser_power_mean_uA", [F64.of_Z 3])].

(** A blank and a sample of one measurement each. *)
Definition df_blank_single : Pd.DataFrame :=
  [("wavelength", map F64.of_Z [400; 401; 403; 406; 410; 500; 502; 505]%Z);
   ("meas_0", map F64.of_Z [1; 9; 10; 8; 1; 2; 4; 2]%Z);
   ("mean_photon_counts", map F64.of_Z [1; 9; 10; 8; 1; 2; 4; 2]%Z)].

Definition df_sample_single : Pd.DataFrame :=
  [("wavelength", map F64.of_Z [400; 401; 403; 406; 410; 500; 502; 505]%Z);
   ("meas_0", map F64.of_Z [1; 3; 4; 2; 1; 2; 20; 2]%Z);
   ("mean_photon_counts", map F64.of_Z [1; 3; 4; 2; 1; 2; 20; 2]%Z)].

Definition df_power_single : Pd.DataFrame :=
  [("meas0_power", [F64.of_Z 2]); ("laser_power_mean_uA", [F64.of_Z 2])].

(** An instrument pair that replays a recorded tape of exposures. *)
Definition Tape : Type := list (list float * list float).

Definition replay (tape : Tape) : (list float * list float) * Tape :=
  match tape with
  | [] => (([], []), [])
  | exposure :: tape' => (exposure, tape')
  end.

(** Three subruns on an axis of two points. *)
Definition tape_example : Tape :=
  [([F64.of_Z 10; F64.of_Z 20], [F64.of_Z 1; F64.of_Z 3]);
   ([F64.of_Z 12; F64.of_Z 26], [F64.of_Z 2]);
   ([F64.of_Z 14; F64.of_Z 20], [F64.of_Z 4; F64.of_Z 4; F64.of_Z 1])].

(** An axis of four points, a dark spectrum, calibration factors and a
    raw spectrum on it. *)
Definition axis_example : list float := map F64.of_Z [400; 402; 405; 409]%Z.
Definition dark_example : list float := map F64.of_Z [1; 1; 2; 1]%Z.
Definition factors_example : list float := map F64.of_Z [3; 3; 4; 5]%Z.
Definition raw_example : list float := map F64.of_Z [11; 21; 32; 41]%Z.

Definition init_df_example : Pd.DataFrame :=
  [("wavelength", axis_example);
   ("delta_x", [F64.of_Z 2; (F64.of_Z 5 / F64.of_Z 2)%f64;
                (F64.of_Z 7 / F64.of_Z 2)%f64; F64.of_Z 4]);
   ("dark", dark_example); ("irradcal", factors_example)].

(** An exact text notation for the examples: the signed significand
    and the binary exponent in decimal, ["3p-1"] for 1.5; the empty
    field for NaN, as [to_csv] writes it. *)
Definition exact_repr (x : float) : string :=
  match x with
  | S754_nan => ""
  | S754_zero s => if s then "-0.0" else "0.0"
  | S754_infinity s => if s then "-inf" else "inf"
  | S754_finite s m e =>
      (NilZero.string_of_int (Z.to_int (if s then Zneg m else Zpos m))
       ++ "p" ++ NilZero.string_of_int (Z.to_int e))%string
  end.

Fixpoint split_at (c : ascii) (s : string) : option (string * string) :=
  match s with
  | EmptyString => None
  | String a s' =>
      if Ascii.eqb a c then Some (EmptyString, s')
      else match split_at c s' with
           | Some (l, r) => Some (String a l, r)
           | None => None
           end
  end.

Definition exact_parse (s : string) : float :=
  if String.eqb s "0.0" then S754_zero false
  else if String.eqb s "-0.0" then S754_zero true
  else if String.eqb s "inf" then S754_infinity false
  else if String.eqb s "-inf" then S754_infinity true
  else match split_at "p" s with
       | Some (m, e) =>
           match NilZero.int_of_string m, NilZero.int_of_string e with
           | Some dm, Some de =>
               match Z.of_int dm with
               | Zpos p => S754_finite false p (Z.of_int de)
               | Zneg p => S754_finite true p (Z.of_int de)
               | Z0 => F64.nan
               end
           | _, _ => F64.nan
           end
       | None => F64.nan
       end.

(** Two measurements of one subrun each on the axis of four points. *)
Definition tape_two_measurements : Tape :=
  [(map F64.of_Z [11; 21; 32; 41]%Z, [F64.of_Z 2; F64.of_Z 4]);
   (map F64.of_Z [13; 23; 30; 45]%Z, [F64.of_Z 5])].

(** A blank and a sample on that axis: the sample takes light out of
    the excitation window (the first two points) and adds light to the
    fluorescence window (the last two). *)
Definition tape_blank_example : Tape :=
  [(map F64.of_Z [101; 201; 12; 11]%Z, [F64.of_Z 2; F64.of_Z 4]);
   (map F64.of_Z [103; 203; 10; 15]%Z, [F64.of_Z 3])].

Definition tape_sample_example : Tape :=
  [(map F64.of_Z [41; 81; 52; 61]%Z, [F64.of_Z 2; F64.of_Z 4]);
   (map F64.of_Z [43; 83; 50; 65]%Z, [F64.of_Z 3])].

(** The spectrum table and the power table that [collect_multi] makes
    of the two measurements. *)
Definition measurement_set_example : Pd.DataFrame * Pd.DataFrame :=
  Eval vm_compute in
    match collect_multi replay 2 1 init_df_example tape_two_measurements with
    | (Ok tables, _) => tables
    | (Err _, _) => ([], [])
    end.

(** A spectrum table read without its wavelength column. *)
Definition df_no_wavelength_example : Pd.DataFrame :=
  [("meas_0", map F64.of_Z [1; 8; 9]%Z);
   ("mean_photon_counts", map F64.of_Z [1; 8; 9]%Z)].

(** The power table of three measurements against the blank of two. *)
Definition df_power_three_example : Pd.DataFrame :=
  [("meas0_power", [F64.of_Z 2]); ("meas1_power", [F64.of_Z 4]);
   ("meas2_power", [F64.of_Z 3]); ("laser_power_mean_uA", [F64.of_Z 3])].

(** The analysis table of the blank of two measurements. *)
Definition counts_example : Counts :=
  Eval vm_compute in
    match counts_region df_blank_example df_blank_power_example
                        400 410 499 510 with
    | Ok c => c
    | Err _ => {| excit_total_counts := []; fluor_total_counts := [] |}
    end.

(** A sample table with its two measurements and no mean column. *)
Definition df_no_mean_example : Pd.DataFrame :=
  [("wavelength", map F64.of_Z [400; 401; 403; 406; 410; 500; 502; 505]%Z);
   ("meas_0", map F64.of_Z [1; 3; 4; 2; 1; 2; 20; 2]%Z);
   ("meas_1", map F64.of_Z [1; 5; 4; 2; 1; 2; 22; 2]%Z)].

Definition df_power_no_mean_example : Pd.DataFrame :=
  [("meas0_power", [F64.of_Z 2]); ("meas1_power", [F64.of_Z 4])].

Definition counts_no_mean_example : Counts :=
  Eval vm_compute in
    match counts_region df_no_mean_example df_power_no_mean_example
                        400 410 499 510 with
    | Ok c => c
    | Err _ => {| excit_total_counts := []; fluor_total_counts := [] |}
    end.

(** The frame after [init_spec] on the axis of four points, and after
    the dark spectrum has been stored. *)
Definition init_df0_example : Pd.DataFrame :=
  [("wavelength", axis_example);
   ("delta_x", [F64.of_Z 2; (F64.of_Z 5 / F64.of_Z 2)%f64;
                (F64.of_Z 7 / F64.of_Z 2)%f64; F64.of_Z 4])].

Definition init_df1_example : Pd.DataFrame :=
  init_df0_example ++ [("dark", dark_example)].

(** Two measurements of two subruns each. *)
Definition tape_four_exposures : Tape :=
  [(map F64.of_Z [11; 21; 32; 41]%Z, [F64.of_Z 2; F64.of_Z 4]);
   (map F64.of_Z [13; 23; 30; 45]%Z, [F64.of_Z 5]);
   (map F64.of_Z [12; 22; 31; 43]%Z, [F64.of_Z 3]);
   (map F64.of_Z [14; 20; 33; 41]%Z, [F64.of_Z 3; F64.of_Z 5]);
   (map F64.of_Z [99; 99; 99; 99]%Z, [F64.of_Z 1])].

Definition measurement_set_four_exposures : Pd.DataFrame * Pd.DataFrame :=
  Eval vm_compute in
    match collect_multi replay 2 2 init_df_example tape_four_exposures with
    | (Ok tables, _) => tables
    | (Err _, _) => ([], [])
    end.

(** A calibration file with two factors for the axis of four points. *)
Definition init_df_short_example : Pd.DataFrame :=
  init_df1_example
    ++ [("irradcal", [F64.of_Z 3; F64.of_Z 3; F64.nan; F64.nan])].

(** The frames when the program has started on the axis of four points:
    no flag set, one subrun, two measurements, nothing loaded. *)
Definition gui_started_example : Gui Tape :=
  {| collect_dark_bool := false;
     collect_blank_bool := false;
     collect_sample_bool := false;
     live_view_bool := false;
     entry_subruns := 1;
     entry_number_meas := 2;
     initialize_frame_df := init_df0_example;
     instruments := tape_two_measurements;
     df_blank := None;
     df_blank_power := None;
     df_sample := None;
     df_sample_power := None |}.

(** The frames ready for a collection, with the dark spectrum and the
    calibration factors in place. *)
Definition gui_ready_example : Gui Tape :=
  set_initialize_frame_df init_df_example gui_started_example.

(** The instruments with the light of a blank and then of a sample, and
    the frames ready to collect the blank. *)
Definition gui_blank_requested_example : Gui Tape :=
  collect_blank_bool_true
    (set_instruments (tape_blank_example ++ tape_sample_example)
                     gui_ready_example).

(** The frames after the pass that served the blank request, and after
    the sample was requested and served in turn. *)
Definition gui_blank_collected_example : Gui Tape :=
  snd (collect_data_loop exact_repr exact_parse replay
                         gui_blank_requested_example).

Definition gui_sample_collected_example : Gui Tape :=
  snd (collect_data_loop exact_repr exact_parse replay
                         (collect_sample_bool_true gui_blank_collected_example)).

(** The analysis tables of the blank and of the sample of one
    measurement each. *)
Definition counts_blank_single_example : Counts :=
  Eval vm_compute in
    match counts_region df_blank_single df_power_single 400 410 499 510 with
    | Ok c => c
    | Err _ => {| excit_total_counts := []; fluor_total_counts := [] |}
    end.

Definition counts_sample_single_example : Counts :=
  Eval vm_compute in
    match counts_region df_sample_single df_power_single 400 410 499 510 with
    | Ok c => c
    | Err _ => {| excit_total_counts := []; fluor_total_counts := [] |}
    end.

(** A [pow] for the examples: correctly rounded at the two exponents
    of the program, with the special values the C standard fixes
    ([pow(-inf, 1/2)] is [+inf], [pow(-0, 1/2)] is [+0]). *)
Definition pow_rounded (x y : float) : float :=
  if F64.same y (F64.of_Z 2) then F64.square x
  else if F64.same y (F64.of_Z 1 / F64.of_Z 2)%f64 then
    match x with
    | S754_infinity _ => S754_infinity false
    | S754_zero _ => S754_zero false
    | _ => F64.sqrt x
    end
  else F64.nan.

(** A plot that draws whatever it is given. *)
Definition plot_drawn (df_blank df_sample : Pd.DataFrame)
    (lbound_low lbound_high fbound_low fbound_high : Z) (plqy : PLQY)
  : result unit := Ok tt.

(** * Properties *)

(** ** NaN and zero divisors in binary64 *)

Lemma add_nan_l (x : float) : (F64.nan + x)%f64 = F64.nan.
Proof. reflexivity. Qed.

Lemma add_nan_r (x : float) : (x + F64.nan)%f64 = F64.nan.
Proof. destruct x; reflexivity. Qed.

Lemma mul_nan_r (x : float) : (x * F64.nan)%f64 = F64.nan.
Proof. destruct x; reflexivity. Qed.

Lemma div_nan_l (x : float) : (F64.nan / x)%f64 = F64.nan.
Proof. reflexivity. Qed.

Lemma div_nan_r (x : float) : (x / F64.nan)%f64 = F64.nan.
Proof. destruct x; reflexivity. Qed.

Lemma sqrt_nan : F64.sqrt F64.nan = F64.nan.
Proof. reflexivity. Qed.

Lemma square_nan : F64.square F64.nan = F64.nan.
Proof. reflexivity. Qed.

(** A zero divisor gives NaN for a zero or NaN dividend and an infinity
    for any other: never a finite quotient. *)
Lemma div_by_zero (x y : float) :
  F64.is_zero y = true ->
  F64.is_finite (x / y)%f64 = false /\
  F64.is_nan (x / y)%f64 = F64.is_nan x || F64.is_zero x.
Proof.
  destruct y; try discriminate; intros _.
  destruct x; split; reflexivity.
Qed.

(** ** A quotient that is not a number *)

Section Quotient.

Local Open Scope Z_scope.

Lemma shr_1_nonneg (mrs : shr_record) : 0 <= shr_m mrs -> 0 <= shr_m (shr_1 mrs).
Proof.
  destruct mrs as [m r s]. simpl.
  destruct m as [|[p|p|]|[p|p|]]; simpl; lia.
Qed.

Lemma iter_pos_shr_1_nonneg (p : positive) (mrs : shr_record) :
  0 <= shr_m mrs -> 0 <= shr_m (iter_pos shr_1 p mrs).
Proof.
  revert mrs. induction p as [p IH|p IH|]; intros mrs H; simpl.
  - now apply IH, IH, shr_1_nonneg.
  - now apply IH, IH.
  - now apply shr_1_nonneg.
Qed.

Lemma shr_fexp_nonneg (m e : Z) (l : location) :
  0 <= m -> 0 <= shr_m (fst (shr_fexp 53 1024 m e l)).
Proof.
  intros H. unfold shr_fexp, shr.
  assert (H0 : 0 <= shr_m (shr_record_of_loc m l))
    by (destruct l as [|[| |]]; exact H).
  destruct (fexp 53 1024 (Zdigits2 m + e) - e); simpl; try exact H0.
  now apply iter_pos_shr_1_nonneg.
Qed.

Lemma round_nearest_even_nonneg (m : Z) (l : location) :
  0 <= m -> 0 <= round_nearest_even m l.
Proof.
  intros H. destruct l as [|[| |]]; simpl; try lia.
  destruct (IntDef.Z.even m); lia.
Qed.

Lemma binary_round_aux_not_nan (s : bool) (m e : Z) (l : location) :
  0 <= m -> F64.is_nan (binary_round_aux 53 1024 s m e l) = false.
Proof.
  intros H. unfold binary_round_aux.
  pose proof (shr_fexp_nonneg m e l H) as H1.
  destruct (shr_fexp 53 1024 m e l) as [mrs' e']. simpl in H1.
  pose proof (shr_fexp_nonneg _ e' loc_Exact
                (round_nearest_even_nonneg _ (loc_of_shr_record mrs') H1)) as H2.
  destruct (shr_fexp 53 1024 _ e' loc_Exact) as [mrs'' e'']. simpl in H2.
  destruct (shr_m mrs'') as [|p|p]; try reflexivity; [|lia].
  destruct (e'' <=? 1024 - 53); reflexivity.
Qed.

Lemma div_finite_not_nan (sx sy : bool) (mx my : positive) (ex ey : Z) :
  F64.is_nan (F64.div (S754_finite sx mx ex) (S754_finite sy my ey)) = false.
Proof.
  unfold F64.div, SFdiv, F64.prec, F64.emax.
  destruct (SFdiv_core_binary 53 1024 (Z.pos mx) ex (Z.pos my) ey)
    as [[mz ez] lz] eqn:E.
  apply binary_round_aux_not_nan.
  unfold SFdiv_core_binary in E.
  set (m' := match _ with 0 => _ | Z.pos _ => _ | Z.neg _ => _ end) in E.
  assert (Hm : 0 <= m').
  { unfold m'. destruct (_ - _ - _); try lia.
    change (IntDef.Z.shiftl (Z.pos mx) (Z.pos p)) with (Z.shiftl (Z.pos mx) (Z.pos p)).
    apply Z.shiftl_nonneg. lia. }
  change (IntDef.Z.div_eucl m' (Z.pos my)) with (Z.div_eucl m' (Z.pos my)) in E.
  pose proof (Z_div_mod m' (Z.pos my) ltac:(lia)) as D.
  destruct (Z.div_eucl m' (Z.pos my)) as [q r]. injection E as <- _ _.
  destruct D as [D1 D2]. nia.
Qed.

(** A quotient is NaN exactly when an operand is, or both are zero, or
    both are infinite. *)
Lemma div_is_nan (x y : float) :
  F64.is_nan (F64.div x y)
  = F64.is_nan x || F64.is_nan y
    || F64.is_zero x && F64.is_zero y
    || F64.is_infinity x && F64.is_infinity y.
Proof.
  destruct x as [sx|sx| |sx mx ex], y as [sy|sy| |sy my ey];
    try reflexivity.
  apply div_finite_not_nan.
Qed.

End Quotient.

(** ** Sums, means and deviations *)

Lemma fold_left_sum_of (ys xs : list float) (a : float) :
  sum_of xs a -> sum_of (xs ++ ys) (fold_left F64.add ys a).
Proof.
  revert xs a. induction ys as [|y ys IH]; intros xs a H; simpl.
  - now rewrite app_nil_r.
  - replace (xs ++ y :: ys) with ((xs ++ [y]) ++ ys)
      by (now rewrite <- app_assoc).
    apply IH. apply sum_of_add; [exact H|constructor].
Qed.

Lemma serial_sum_of (xs : list float) : sum_of xs (Np.serial_sum xs).
Proof. apply (fold_left_sum_of xs [] F64.zero). constructor. Qed.

(** Adding to [-0.0] changes nothing. *)
Lemma add_neg_zero_l (x : float) : (S754_zero true + x)%f64 = x.
Proof. destruct x as [[|]|[|]| |[|] ? ?]; reflexivity. Qed.

Lemma short_sum_of (a : list float) :
  a <> [] -> sum_of a (fold_left F64.add a (S754_zero true)).
Proof.
  destruct a as [|x a]; [congruence|]. intros _. cbn [fold_left].
  rewrite add_neg_zero_l. apply (fold_left_sum_of a [x]). constructor.
Qed.

Lemma sum_of_eight (l0 l1 l2 l3 l4 l5 l6 l7 : list float)
      (r0 r1 r2 r3 r4 r5 r6 r7 : float) :
  sum_of l0 r0 -> sum_of l1 r1 -> sum_of l2 r2 -> sum_of l3 r3 ->
  sum_of l4 r4 -> sum_of l5 r5 -> sum_of l6 r6 -> sum_of l7 r7 ->
  sum_of (l0 ++ l1 ++ l2 ++ l3 ++ l4 ++ l5 ++ l6 ++ l7)
         (((r0 + r1) + (r2 + r3)) + ((r4 + r5) + (r6 + r7)))%f64.
Proof.
  intros H0 H1 H2 H3 H4 H5 H6 H7.
  replace (l0 ++ l1 ++ l2 ++ l3 ++ l4 ++ l5 ++ l6 ++ l7)
    with (((l0 ++ l1) ++ (l2 ++ l3)) ++ ((l4 ++ l5) ++ (l6 ++ l7)))
    by (now rewrite <- !app_assoc).
  repeat apply sum_of_add; assumption.
Qed.

(** One element more in each of the running sums: the same numbers as
    the eight elements after the running sums. *)
Lemma lanes_perm (lanes : list (list float * float)) (rest : list float) :
  Permutation (List.concat (map (fun la => fst la ++ [snd la]) lanes) ++ rest)
              (List.concat (map fst lanes) ++ map snd lanes ++ rest).
Proof.
  induction lanes as [|[l a] lanes IH]; simpl; [reflexivity|].
  rewrite <- !app_assoc. apply Permutation_app_head. simpl.
  etransitivity; [apply perm_skip; exact IH|].
  apply Permutation_middle.
Qed.

Lemma unrolled_sum_of (n : nat) :
  forall (a l0 l1 l2 l3 l4 l5 l6 l7 : list float)
         (r0 r1 r2 r3 r4 r5 r6 r7 : float),
    List.length a <= n ->
    sum_of l0 r0 -> sum_of l1 r1 -> sum_of l2 r2 -> sum_of l3 r3 ->
    sum_of l4 r4 -> sum_of l5 r5 -> sum_of l6 r6 -> sum_of l7 r7 ->
    sum_of (l0 ++ l1 ++ l2 ++ l3 ++ l4 ++ l5 ++ l6 ++ l7 ++ a)
           (Np.unrolled r0 r1 r2 r3 r4 r5 r6 r7 a).
Proof.
  induction n as [|n IH];
    intros a l0 l1 l2 l3 l4 l5 l6 l7 r0 r1 r2 r3 r4 r5 r6 r7
           Hn H0 H1 H2 H3 H4 H5 H6 H7;
    pose proof (sum_of_eight _ _ _ _ _ _ _ _ _ _ _ _ _ _ _ _
                             H0 H1 H2 H3 H4 H5 H6 H7) as H8;
    destruct a as [|a0 [|a1 [|a2 [|a3 [|a4 [|a5 [|a6 [|a7 a]]]]]]]];
    try (simpl in Hn; lia);
    try (cbn [Np.unrolled];
         match goal with
         | |- sum_of (_ ++ _ ++ _ ++ _ ++ _ ++ _ ++ _ ++ _ ++ ?t) _ =>
             pose proof (fold_left_sum_of t _ _ H8) as H9;
             rewrite <- !app_assoc in H9; exact H9
         end).
  cbn [Np.unrolled].
  apply (sum_of_perm
           ((l0 ++ [a0]) ++ (l1 ++ [a1]) ++ (l2 ++ [a2]) ++ (l3 ++ [a3])
            ++ (l4 ++ [a4]) ++ (l5 ++ [a5]) ++ (l6 ++ [a6]) ++ (l7 ++ [a7])
            ++ a)).
  - pose proof (lanes_perm [(l0, a0); (l1, a1); (l2, a2); (l3, a3);
                            (l4, a4); (l5, a5); (l6, a6); (l7, a7)] a) as P.
    cbn [map List.concat fst snd] in P. rewrite !app_nil_r in P.
    rewrite <- !app_assoc in P. rewrite <- !app_assoc. exact P.
  - apply IH; [simpl in Hn; lia|..];
      (apply sum_of_add; [assumption|constructor]).
Qed.

Lemma pairwise_block_sum_of (a : list float) :
  a <> [] -> sum_of a (Np.pairwise_block a).
Proof.
  intros Ha.
  destruct a as [|a0 [|a1 [|a2 [|a3 [|a4 [|a5 [|a6 [|a7 a]]]]]]]];
    try (apply short_sum_of; exact Ha).
  cbn [Np.pairwise_block].
  apply (unrolled_sum_of (List.length a) a [a0] [a1] [a2] [a3] [a4] [a5] [a6] [a7]);
    [lia|constructor..].
Qed.

(** Where an array of more than [PW_BLOCKSIZE] elements is cut. *)
Lemma pairwise_cut (n : nat) :
  Np.PW_BLOCKSIZE < n ->
  0 < n / 2 - (n / 2) mod 8 < n.
Proof.
  unfold Np.PW_BLOCKSIZE. intros Hn.
  pose proof (Nat.mod_upper_bound (n / 2) 8 ltac:(lia)).
  assert (64 <= n / 2) by (apply Nat.div_le_lower_bound; lia).
  assert (n / 2 < n) by (apply Nat.div_lt; lia).
  lia.
Qed.

Lemma pairwise_sum_of (depth : nat) (a : list float) :
  a <> [] -> sum_of a (Np.pairwise_sum depth a).
Proof.
  revert a. induction depth as [|depth IH]; intros a Ha;
    cbn [Np.pairwise_sum]; cbv zeta.
  - now apply pairwise_block_sum_of.
  - destruct (Nat.leb_spec (List.length a) Np.PW_BLOCKSIZE) as [_|Hn].
    + now apply pairwise_block_sum_of.
    + pose proof (pairwise_cut _ Hn) as Hcut.
      set (n2 := (List.length a / 2 - (List.length a / 2) mod 8)%nat) in *.
      rewrite <- (firstn_skipn n2 a) at 1.
      assert (H1 : List.length (firstn n2 a) <> 0)
        by (rewrite length_firstn; lia).
      assert (H2 : List.length (skipn n2 a) <> 0)
        by (rewrite length_skipn; lia).
      apply sum_of_add; apply IH; intros E; [apply H1 | apply H2];
        now rewrite E.
Qed.

(** [ndarray.sum()] is a sum, and [np.mean] an arithmetic mean. *)
Lemma sum_is_sum_of (xs : list float) : sum_of xs (Np.sum xs).
Proof.
  destruct xs as [|x xs]; [constructor|].
  apply (sum_of_add [] (x :: xs)); [constructor|].
  now apply pairwise_sum_of.
Qed.

Lemma mean_is_mean_of (xs : list float) : mean_of xs (Np.mean xs).
Proof. exists (Np.sum xs). split; [apply sum_is_sum_of|reflexivity]. Qed.

(** The order shows: 2^53 and seven ones add up to 2^53 + 6 in numpy's
    eight running sums, and to 2^53 when they are added one after the
    other. *)
Lemma sum_order_example :
  Np.sum (map F64.of_Z [9007199254740992; 1; 1; 1; 1; 1; 1; 1]%Z)
    = F64.of_Z 9007199254740998 /\
  Np.serial_sum (map F64.of_Z [9007199254740992; 1; 1; 1; 1; 1; 1; 1]%Z)
    = F64.of_Z 9007199254740992.
Proof. split; vm_compute; reflexivity. Qed.

(** The depth is never used up: any depth of at least the length of the
    array gives the same sum. *)
Lemma pairwise_sum_depth (d1 d2 : nat) (a : list float) :
  List.length a <= d1 -> List.length a <= d2 ->
  Np.pairwise_sum d1 a = Np.pairwise_sum d2 a.
Proof.
  revert d2 a. induction d1 as [|d1 IH]; intros d2 a H1 H2.
  - destruct a; [|simpl in H1; lia]. destruct d2; reflexivity.
  - destruct d2 as [|d2]; [destruct a; [reflexivity|simpl in H2; lia]|].
    cbn [Np.pairwise_sum].
    destruct (Nat.leb_spec (List.length a) Np.PW_BLOCKSIZE) as [_|Hn];
      [reflexivity|].
    pose proof (pairwise_cut _ Hn) as Hcut.
    set (n2 := (List.length a / 2 - (List.length a / 2) mod 8)%nat) in *.
    f_equal; apply IH; rewrite ?length_firstn, ?length_skipn; lia.
Qed.

Lemma Permutation_filter_same {A} (p : A -> bool) (l l' : list A) :
  Permutation l l' -> Permutation (filter p l) (filter p l').
Proof.
  induction 1 as [|x l l' _ IH|x y l|l l' l'' _ IH1 _ IH2]; simpl.
  - constructor.
  - destruct (p x); [now constructor|exact IH].
  - destruct (p x), (p y); try reflexivity. constructor.
  - etransitivity; eassumption.
Qed.

(** Entries that stand for a zero may be left out of a sum. *)
Lemma sum_of_skip_zero {A} (f : A -> float) (keep : A -> bool)
      (xs : list float) (s : float) :
  sum_of xs s ->
  forall l : list A,
    xs = map f l ->
    (forall a, In a l -> keep a = false -> f a = F64.zero) ->
    sum_of (map f (filter keep l)) s.
Proof.
  induction 1 as [|x|xs ys a b _ IHa _ IHb|xs ys a P _ IH]; intros l E Hz.
  - symmetry in E. apply map_eq_nil in E. subst l. constructor.
  - destruct l as [|e [|e' l]]; try discriminate.
    injection E as ->. simpl.
    destruct (keep e) eqn:K; [constructor|].
    rewrite (Hz e (or_introl eq_refl) K). constructor.
  - symmetry in E. apply map_eq_app in E as (l1 & l2 & -> & <- & <-).
    rewrite filter_app, map_app.
    apply sum_of_add; [apply IHa|apply IHb]; try reflexivity;
      intros e He; apply Hz; apply in_or_app; auto.
  - subst ys. apply Permutation_map_inv in P as (l3 & -> & P).
    apply (sum_of_perm (map f (filter keep l3))).
    + apply Permutation_map, Permutation_filter_same. now symmetry.
    + apply IH; [reflexivity|].
      intros e He. apply Hz. eapply Permutation_in; [|exact He].
      now symmetry.
Qed.

(** pandas' sum is a sum of the entries that are numbers. *)
Lemma nansum_sum_of (xs : list float) : sum_of (numbers xs) (Pd.nansum xs).
Proof.
  unfold Pd.nansum.
  pose proof (sum_of_skip_zero Pd.nan_to_zero
                (fun x => negb (F64.is_nan x))
                _ _ (sum_is_sum_of (map Pd.nan_to_zero xs)) xs eq_refl) as H.
  replace (numbers xs) with (map Pd.nan_to_zero (numbers xs)).
  - apply H. intros a _ Ha. unfold Pd.nan_to_zero.
    destruct (F64.is_nan a); [reflexivity|discriminate].
  - unfold numbers. rewrite <- (map_id (filter _ xs)) at 2.
    apply map_ext_in. intros a Ha. apply filter_In in Ha as [_ Ha].
    unfold Pd.nan_to_zero. destruct (F64.is_nan a); [discriminate|reflexivity].
Qed.

(** [Series.std()] is the sample standard deviation of the entries that
    are numbers. *)
Lemma std_sample_std_of (s : Pd.Series) :
  sample_std_of (numbers (map snd s)) (Pd.std s).
Proof.
  unfold sample_std_of, Pd.std, Pd.nanvar.
  fold (numbers (map snd s)).
  destruct (Nat.leb_spec (List.length (numbers (map snd s))) 1) as [Hle|Hgt].
  - destruct (Np.sum _); reflexivity.
  - exists (Pd.nansum (map snd s)
            / F64.of_nat (List.length (numbers (map snd s))))%f64.
    eexists. split; [|split; [|reflexivity]].
    + eexists. split; [apply nansum_sum_of|reflexivity].
    + set (avg := (_ / _)%f64).
      pose proof (sum_of_skip_zero
                    (fun v => if F64.is_nan v then F64.zero
                              else F64.square (avg - v)%f64)
                    (fun x => negb (F64.is_nan x))
                    _ _ (sum_is_sum_of _) (map snd s) eq_refl) as H.
      replace (map (fun x => F64.square (avg - x)%f64) (numbers (map snd s)))
        with (map (fun v => if F64.is_nan v then F64.zero
                            else F64.square (avg - v)%f64)
                  (numbers (map snd s))).
      * apply H. intros a _ Ha.
        destruct (F64.is_nan a); [reflexivity|discriminate].
      * apply map_ext_in. intros a Ha. apply filter_In in Ha as [_ Ha].
        destruct (F64.is_nan a); [discriminate|reflexivity].
Qed.

(** ** Labelled look-ups *)

Lemma get_drop {A} (t : list (string * A)) (l : string) (v : A) :
  Pd.get t l = Ok v -> existsb (fun e => String.eqb (fst e) l) t = true.
Proof.
  induction t as [|[n w] t IH]; simpl; [discriminate|].
  destruct (String.eqb n l); [reflexivity|exact IH].
Qed.

Lemma drop_mean (s : Pd.Series) (v : float) :
  Pd.get s mean_label = Ok v ->
  Pd.drop mean_label s = Ok (per_measurement s).
Proof.
  intros H. unfold Pd.drop. now rewrite (get_drop _ _ _ H).
Qed.

(** ** The deviation on analysis tables whose mean rows exist *)

Lemma calculate_plqy_std_eq (pow : float -> float -> float)
      (ba sa : Counts) (be bf se sf : float) :
  Pd.get (excit_total_counts ba) mean_label = Ok be ->
  Pd.get (fluor_total_counts ba) mean_label = Ok bf ->
  Pd.get (excit_total_counts sa) mean_label = Ok se ->
  Pd.get (fluor_total_counts sa) mean_label = Ok sf ->
  calculate_plqy_std pow ba sa =
    Ok (((sf - bf) / (be - se))
        * pow
            ((variance_of pow (fluor_total_counts sa)
              + variance_of pow (fluor_total_counts ba))
             / pow (sf - bf) (F64.of_Z 2)
             + (variance_of pow (excit_total_counts ba)
                + variance_of pow (excit_total_counts sa))
               / pow (be - se) (F64.of_Z 2))
            (F64.of_Z 1 / F64.of_Z 2))%f64.
Proof.
  intros Hbe Hbf Hse Hsf. unfold calculate_plqy_std.
  rewrite Hbe, Hbf, Hse, Hsf. cbn [bind].
  rewrite (drop_mean _ _ Hbe), (drop_mean _ _ Hbf),
          (drop_mean _ _ Hse), (drop_mean _ _ Hsf).
  reflexivity.
Qed.

Lemma plqy_of_counts_eq (pow : float -> float -> float)
      (ba sa : Counts) (be bf se sf : float) :
  Pd.get (excit_total_counts ba) mean_label = Ok be ->
  Pd.get (fluor_total_counts ba) mean_label = Ok bf ->
  Pd.get (excit_total_counts sa) mean_label = Ok se ->
  Pd.get (fluor_total_counts sa) mean_label = Ok sf ->
  exists sd,
    calculate_plqy_std pow ba sa = Ok sd /\
    plqy_of_counts pow ba sa =
      Ok {| photons_emitted_mean := (sf - bf)%f64;
            photons_abs_mean := (be - se)%f64;
            plqy_mean := ((sf - bf) / (be - se))%f64;
            plqy_std := sd |}.
Proof.
  intros Hbe Hbf Hse Hsf.
  eexists. split; [apply (calculate_plqy_std_eq _ _ _ _ _ _ _ Hbe Hbf Hse Hsf)|].
  unfold plqy_of_counts. rewrite Hsf, Hbf, Hbe, Hse. cbn [bind].
  rewrite (calculate_plqy_std_eq _ _ _ _ _ _ _ Hbe Hbf Hse Hsf). reflexivity.
Qed.

(** C1.  On every pair of analysis tables the point estimate reads the
    mean rows only: photons emitted is the sample's fluorescence sum minus
    the blank's, photons absorbed the blank's excitation sum minus the
    sample's, and the yield their quotient, whatever the per-measurement
    rows hold.  With the mean rows (100, 10) for the blank and (40, 50)
    for the sample this gives 60 absorbed, 40 emitted and a yield within
    0.001 of 0.667. *)
Theorem plqy_point_estimate_from_mean_rows :
  forall (pow : float -> float -> float),
  (forall (ba sa : Counts) (be bf se sf : float),
      Pd.get (excit_total_counts ba) mean_label = Ok be ->
      Pd.get (fluor_total_counts ba) mean_label = Ok bf ->
      Pd.get (excit_total_counts sa) mean_label = Ok se ->
      Pd.get (fluor_total_counts sa) mean_label = Ok sf ->
      exists r,
        plqy_of_counts pow ba sa = Ok r /\
        photons_emitted_mean r = (sf - bf)%f64 /\
        photons_abs_mean r = (be - se)%f64 /\
        plqy_mean r = (photons_emitted_mean r / photons_abs_mean r)%f64)
  /\
  (forall (ba sa : Counts),
      Pd.get (excit_total_counts ba) mean_label = Ok (F64.of_Z 100) ->
      Pd.get (fluor_total_counts ba) mean_label = Ok (F64.of_Z 10) ->
      Pd.get (excit_total_counts sa) mean_label = Ok (F64.of_Z 40) ->
      Pd.get (fluor_total_counts sa) mean_label = Ok (F64.of_Z 50) ->
      exists r,
        plqy_of_counts pow ba sa = Ok r /\
        photons_abs_mean r = F64.of_Z 60 /\
        photons_emitted_mean r = F64.of_Z 40 /\
        F64.within (F64.of_Z 1 / F64.of_Z 1000)%f64
                   (plqy_mean r) (F64.of_Z 667 / F64.of_Z 1000)%f64 = true).
Proof.
  intros pow. split.
  - intros ba sa be bf se sf Hbe Hbf Hse Hsf.
    destruct (plqy_of_counts_eq pow _ _ _ _ _ _ Hbe Hbf Hse Hsf) as (sd & _ & ->).
    eexists. split; [reflexivity|]. cbn. repeat split.
  - intros ba sa Hbe Hbf Hse Hsf.
    destruct (plqy_of_counts_eq pow _ _ _ _ _ _ Hbe Hbf Hse Hsf) as (sd & _ & ->).
    eexists. split; [reflexivity|]. cbn [photons_abs_mean photons_emitted_mean plqy_mean].
    repeat split; vm_compute; reflexivity.
Qed.

Lemma plqy_point_estimate_example :
  exists r,
    plqy_of_counts pow_rounded blank_counts_example sample_counts_example = Ok r /\
    photons_abs_mean r = F64.of_Z 60 /\
    photons_emitted_mean r = F64.of_Z 40 /\
    F64.within (F64.of_Z 1 / F64.of_Z 1000)%f64
               (plqy_mean r) (F64.of_Z 667 / F64.of_Z 1000)%f64 = true.
Proof.
  apply (proj2 (plqy_point_estimate_from_mean_rows pow_rounded)
               blank_counts_example sample_counts_example); reflexivity.
Defined.

(** C3.  The deviation that [calculate_plqy] stores is the yield times
    the power 1/2 (the square root) of the two relative terms: the
    variances of the sample's and the blank's fluorescence sums over the
    second power of photons emitted, plus the variances of the blank's
    and the sample's excitation sums over the second power of photons
    absorbed.  Each variance is the second power of a sample standard
    deviation of the per-measurement sums, the mean row left out (and
    sums that are NaN passed over, as pandas does).  The powers are the
    program's [x ** 2] and [x ** (1/2)], for any library [pow]. *)
Theorem plqy_std_error_propagation :
  forall (pow : float -> float -> float)
         (ba sa : Counts) (be bf se sf : float),
    Pd.get (excit_total_counts ba) mean_label = Ok be ->
    Pd.get (fluor_total_counts ba) mean_label = Ok bf ->
    Pd.get (excit_total_counts sa) mean_label = Ok se ->
    Pd.get (fluor_total_counts sa) mean_label = Ok sf ->
    exists r sd_sample_em sd_blank_em sd_blank_ex sd_sample_ex,
      plqy_of_counts pow ba sa = Ok r /\
      column_std_of (fluor_total_counts sa) sd_sample_em /\
      column_std_of (fluor_total_counts ba) sd_blank_em /\
      column_std_of (excit_total_counts ba) sd_blank_ex /\
      column_std_of (excit_total_counts sa) sd_sample_ex /\
      plqy_std r =
        (plqy_mean r
         * pow
             ((pow sd_sample_em (F64.of_Z 2) + pow sd_blank_em (F64.of_Z 2))
              / pow (photons_emitted_mean r) (F64.of_Z 2)
              + (pow sd_blank_ex (F64.of_Z 2) + pow sd_sample_ex (F64.of_Z 2))
                / pow (photons_abs_mean r) (F64.of_Z 2))
             (F64.of_Z 1 / F64.of_Z 2))%f64.
Proof.
  intros pow ba sa be bf se sf Hbe Hbf Hse Hsf.
  destruct (plqy_of_counts_eq pow _ _ _ _ _ _ Hbe Hbf Hse Hsf)
    as (sd & Hsd & ->).
  rewrite (calculate_plqy_std_eq _ _ _ _ _ _ _ Hbe Hbf Hse Hsf) in Hsd.
  injection Hsd as <-.
  eexists.
  exists
    (Pd.std (per_measurement (fluor_total_counts sa))),
    (Pd.std (per_measurement (fluor_total_counts ba))),
    (Pd.std (per_measurement (excit_total_counts ba))),
    (Pd.std (per_measurement (excit_total_counts sa))).
  split; [reflexivity|].
  repeat (split; [apply std_sample_std_of|]).
  reflexivity.
Qed.

Lemma plqy_std_error_propagation_example :
  exists r sd_sample_em sd_blank_em sd_blank_ex sd_sample_ex,
    plqy_of_counts pow_rounded blank_counts_example sample_counts_example
    = Ok r /\
    column_std_of (fluor_total_counts sample_counts_example) sd_sample_em /\
    column_std_of (fluor_total_counts blank_counts_example) sd_blank_em /\
    column_std_of (excit_total_counts blank_counts_example) sd_blank_ex /\
    column_std_of (excit_total_counts sample_counts_example) sd_sample_ex /\
    plqy_std r =
      (plqy_mean r
       * pow_rounded
           ((pow_rounded sd_sample_em (F64.of_Z 2)
             + pow_rounded sd_blank_em (F64.of_Z 2))
            / pow_rounded (photons_emitted_mean r) (F64.of_Z 2)
            + (pow_rounded sd_blank_ex (F64.of_Z 2)
               + pow_rounded sd_sample_ex (F64.of_Z 2))
              / pow_rounded (photons_abs_mean r) (F64.of_Z 2))
           (F64.of_Z 1 / F64.of_Z 2))%f64.
Proof.
  apply (plqy_std_error_propagation pow_rounded
           blank_counts_example sample_counts_example
           (F64.of_Z 100) (F64.of_Z 10) (F64.of_Z 40) (F64.of_Z 50));
    reflexivity.
Defined.

(** On the example the four deviations are the square root of 2 for the
    blank's and the sample's fluorescence sums and for the blank's
    excitation sums (entries one above and one below the mean) and twice
    that for the sample's excitation sums. *)
Lemma plqy_std_example_deviations :
  Pd.std (per_measurement (fluor_total_counts sample_counts_example))
    = F64.sqrt (F64.of_Z 2) /\
  Pd.std (per_measurement (fluor_total_counts blank_counts_example))
    = F64.sqrt (F64.of_Z 2) /\
  Pd.std (per_measurement (excit_total_counts blank_counts_example))
    = F64.sqrt (F64.of_Z 2) /\
  Pd.std (per_measurement (excit_total_counts sample_counts_example))
    = F64.sqrt (F64.of_Z 8).
Proof. repeat split; vm_compute; reflexivity. Qed.

Lemma filter_all {A} (p : A -> bool) (xs : list A) :
  Forall (fun x => p x = true) xs -> filter p xs = xs.
Proof.
  induction 1 as [|x xs Hx _ IH]; simpl; [reflexivity|].
  now rewrite Hx, IH.
Qed.

(** [Series.std()] of at most one entry is NaN. *)
Lemma std_single (s : Pd.Series) :
  List.length s <= 1 -> Pd.std s = F64.nan.
Proof.
  intros Hlen. unfold Pd.std, Pd.nanvar.
  assert (Hc : List.length (filter (fun v => negb (F64.is_nan v)) (map snd s)) <= 1).
  { etransitivity; [apply filter_length_le|]. now rewrite length_map. }
  apply Nat.leb_le in Hc. rewrite Hc.
  now rewrite div_nan_r.
Qed.

(** C6, as the code has it.  When photons absorbed is zero the estimate
    is still returned, without an exception, and its yield is never a
    finite number: it is NaN when photons emitted is zero or NaN and an
    infinity otherwise. *)
Theorem plqy_zero_absorbed_not_finite :
  forall (pow : float -> float -> float)
         (ba sa : Counts) (be bf se sf : float),
    Pd.get (excit_total_counts ba) mean_label = Ok be ->
    Pd.get (fluor_total_counts ba) mean_label = Ok bf ->
    Pd.get (excit_total_counts sa) mean_label = Ok se ->
    Pd.get (fluor_total_counts sa) mean_label = Ok sf ->
    F64.is_zero (be - se)%f64 = true ->
    exists r,
      plqy_of_counts pow ba sa = Ok r /\
      F64.is_zero (photons_abs_mean r) = true /\
      F64.is_finite (plqy_mean r) = false /\
      F64.is_nan (plqy_mean r)
        = F64.is_nan (photons_emitted_mean r)
          || F64.is_zero (photons_emitted_mean r).
Proof.
  intros pow ba sa be bf se sf Hbe Hbf Hse Hsf Hz.
  destruct (plqy_of_counts_eq pow _ _ _ _ _ _ Hbe Hbf Hse Hsf) as (sd & _ & ->).
  eexists. split; [reflexivity|]. cbn [photons_abs_mean plqy_mean photons_emitted_mean].
  split; [exact Hz|]. now apply div_by_zero.
Qed.

Lemma plqy_zero_absorbed_example :
  exists r,
    plqy_of_counts pow_rounded blank_counts_example nonabsorbing_counts_example = Ok r /\
    F64.is_zero (photons_abs_mean r) = true /\
    F64.is_finite (plqy_mean r) = false /\
    F64.is_nan (plqy_mean r)
      = F64.is_nan (photons_emitted_mean r)
        || F64.is_zero (photons_emitted_mean r).
Proof.
  apply (plqy_zero_absorbed_not_finite pow_rounded
           blank_counts_example nonabsorbing_counts_example
           (F64.of_Z 100) (F64.of_Z 10) (F64.of_Z 100) (F64.of_Z 50));
    reflexivity.
Defined.

(** C6, as it is worded, fails: with photons absorbed zero and 40
    photons emitted the yield is plus infinity, which is not NaN and
    carries no flag. *)
Lemma plqy_zero_absorbed_is_infinite :
  exists r,
    plqy_of_counts pow_rounded blank_counts_example nonabsorbing_counts_example = Ok r /\
    photons_abs_mean r = F64.zero /\
    photons_emitted_mean r = F64.of_Z 40 /\
    plqy_mean r = S754_infinity false /\
    F64.is_nan (plqy_mean r) = false.
Proof.
  eexists. split; [vm_compute; reflexivity|]. repeat split.
Qed.

(** ** Region integration *)

Lemma ltb_lt (x y : float) : (x <? y)%f64 = true <-> F64.lt x y.
Proof.
  unfold F64.ltb, SFltb, F64.lt.
  destruct (SFcompare x y) as [[| |]|]; split; congruence.
Qed.

Lemma ltb_irrefl (x : float) : (x <? x)%f64 = false.
Proof.
  unfold F64.ltb, SFltb.
  destruct x as [s|[|]| |[|] m e]; simpl; try reflexivity;
    rewrite Z.compare_refl, Pos.compare_cont_refl; reflexivity.
Qed.

Lemma in_bounds_strict (low high : Z) (w : float) :
  in_bounds low high w = true <->
  F64.lt (F64.of_Z low) w /\ F64.lt w (F64.of_Z high).
Proof.
  unfold in_bounds. rewrite andb_true_iff, !ltb_lt. reflexivity.
Qed.

Lemma in_bounds_excludes_ends (low high : Z) :
  in_bounds low high (F64.of_Z low) = false /\
  in_bounds low high (F64.of_Z high) = false.
Proof.
  unfold in_bounds. rewrite !ltb_irrefl.
  split; [reflexivity|apply andb_false_r].
Qed.

Lemma map2_combine (op : float -> float -> float) (xs ys : list float) :
  List.length xs = List.length ys ->
  Np.map2 op xs ys = Ok (map (fun p => op (fst p) (snd p)) (combine xs ys)).
Proof.
  revert ys. induction xs as [|x xs IH]; intros [|y ys] H; simpl in *;
    try discriminate; [reflexivity|].
  rewrite IH by lia. reflexivity.
Qed.

Lemma map2_length_mismatch (op : float -> float -> float) (xs ys : list float) :
  List.length xs <> List.length ys -> Np.map2 op xs ys = Err ValueError.
Proof.
  revert ys. induction xs as [|x xs IH]; intros [|y ys] H; simpl in *;
    try reflexivity; [congruence|].
  rewrite IH by lia. reflexivity.
Qed.

Lemma select_length {A B} (mask : list bool) (xs : list A) (ys : list B) :
  List.length xs = List.length ys ->
  List.length (Pd.select mask xs) = List.length (Pd.select mask ys).
Proof.
  revert xs ys. induction mask as [|b mask IH]; intros [|x xs] [|y ys] H;
    simpl in *; try discriminate; try reflexivity.
  destruct b; simpl; rewrite (IH xs ys) by lia; reflexivity.
Qed.

Lemma get_select_rows (mask : list bool) (df : Pd.DataFrame) (n : string)
      (c : list float) :
  Pd.get df n = Ok c ->
  Pd.get (Pd.select_rows mask df) n = Ok (Pd.select mask c).
Proof.
  induction df as [|[m d] df IH]; simpl; [discriminate|].
  destruct (String.eqb m n); [now intros [= ->]|exact IH].
Qed.

Lemma gradient_from_length (prev cur : float) (rest : list float) :
  List.length (Np.gradient_from prev cur rest) = S (List.length rest).
Proof.
  revert prev cur. induction rest as [|x rest IH]; intros; simpl;
    [reflexivity|now rewrite IH].
Qed.

Lemma gradient_ok (f : list float) :
  2 <= List.length f ->
  exists dx, Np.gradient f = Ok dx /\ List.length dx = List.length f.
Proof.
  destruct f as [|f0 [|f1 rest]]; simpl; try lia. intros _.
  eexists. split; [reflexivity|]. simpl. now rewrite gradient_from_length.
Qed.

Lemma gradient_too_short (f : list float) :
  List.length f < 2 -> Np.gradient f = Err ValueError.
Proof.
  destruct f as [|f0 [|f1 rest]]; simpl; try reflexivity; lia.
Qed.

(** Inside the array the gradient is the centered difference: half the
    distance between the two neighbours. *)
Lemma gradient_centered (f dx : list float) (i : nat) (a b : float) :
  Np.gradient f = Ok dx ->
  nth_error f i = Some a ->
  nth_error f (S (S i)) = Some b ->
  nth_error dx (S i) = Some ((b - a) / (F64.of_Z 2 * F64.of_Z 1))%f64.
Proof.
  destruct f as [|f0 [|f1 rest]]; try discriminate.
  intros [= <-]. cbn [nth_error].
  revert f0 f1 i. induction rest as [|x rest IH]; intros f0 f1 i Ha Hb.
  - destruct i; discriminate.
  - destruct i as [|i]; cbn in Ha, Hb |- *.
    + now injection Ha as ->; injection Hb as ->.
    + apply (IH f1 x i); assumption.
Qed.

Lemma mul_axis0_ok (df : Pd.DataFrame) (arr : list float) :
  Forall (fun c => List.length (snd c) = List.length arr) df ->
  Pd.mul_axis0 df arr = Ok (map (fun c => (fst c, weighted (snd c) arr)) df).
Proof.
  induction 1 as [|[n c] df Hc _ IH]; simpl; [reflexivity|].
  simpl in Hc. rewrite (map2_combine _ _ _ Hc), IH. reflexivity.
Qed.

Lemma existsb_label_map {A B} (f : string * A -> string * B) (l : string)
      (t : list (string * A)) :
  (forall e, fst (f e) = fst e) ->
  existsb (fun e => String.eqb (fst e) l) (map f t)
  = existsb (fun e => String.eqb (fst e) l) t.
Proof.
  intros Hf. induction t as [|e t IH]; simpl; [reflexivity|].
  now rewrite Hf, IH.
Qed.

Lemma div_zip_ok (s : Pd.Series) (arr : list float) :
  List.length s = List.length arr ->
  Pd.div_zip s arr
  = Ok (map (fun ep => (fst (fst ep), (snd (fst ep) / snd ep)%f64))
            (combine s arr)).
Proof.
  revert arr. induction s as [|[n v] s IH]; intros [|p arr] H; simpl in *;
    try discriminate; [reflexivity|].
  rewrite IH by lia. reflexivity.
Qed.

Lemma div_array_ok (s : Pd.Series) (arr : list float) :
  List.length s = List.length arr ->
  Pd.div_array s arr
  = Ok (map (fun ep => (fst (fst ep), (snd (fst ep) / snd ep)%f64))
            (combine s arr)).
Proof.
  intros H. destruct arr as [|p [|q arr]]; try (now apply div_zip_ok).
  destruct s as [|e [|e' s]]; try discriminate. reflexivity.
Qed.

(** The block on a table with its wavelength column, rectangular, over a
    window of at least two points and with one power per data column. *)
Lemma signal_norm_ok (df : Pd.DataFrame) (powers : list float)
      (low high : Z) (wavelength : list float) :
  Pd.get df "wavelength" = Ok wavelength ->
  Forall (fun c => List.length (snd c) = List.length wavelength) df ->
  List.length powers = List.length (data_columns df) ->
  2 <= List.length (window low high wavelength wavelength) ->
  exists delta_x,
    Np.gradient (window low high wavelength wavelength) = Ok delta_x /\
    signal_norm df powers low high
    = Ok (normalized_areas low high wavelength delta_x (data_columns df) powers).
Proof.
  intros Hwl Hrect Hpow Hwin.
  destruct (gradient_ok _ Hwin) as (dx & Hdx & Hlen).
  exists dx. split; [exact Hdx|].
  unfold signal_norm. rewrite Hwl. cbn [bind].
  rewrite (get_select_rows _ _ _ _ Hwl). cbn [bind].
  fold (window low high wavelength wavelength). rewrite Hdx. cbn [bind].
  rewrite mul_axis0_ok.
  2:{ unfold Pd.select_rows. rewrite Forall_map.
      eapply Forall_impl; [|exact Hrect]. intros [n c] Hc. simpl in *.
      rewrite Hlen. unfold window. now apply select_length. }
  cbn [bind]. unfold Pd.drop, Pd.sum, Pd.select_rows.
  rewrite !existsb_label_map by reflexivity.
  rewrite (get_drop _ _ _ Hwl).
  rewrite !filter_map_swap. cbn [fst snd bind].
  fold (data_columns df).
  rewrite div_array_ok by (now rewrite !length_map).
  unfold normalized_areas, region_area, window.
  f_equal. generalize (data_columns df) as cols. clear. intros cols.
  revert powers. induction cols as [|[n c] cols IH]; intros [|p powers];
    simpl; try reflexivity.
  f_equal. apply IH.
Qed.

(** The series the code computes holds, for every column, a sum of the
    selected intensities times their spacing, over the column's power. *)
Lemma normalized_areas_spec (low high : Z) (wavelength delta_x : list float)
      (cols : Pd.DataFrame) (powers : list float) :
  normalized_areas_of low high wavelength delta_x cols powers
    (normalized_areas low high wavelength delta_x cols powers).
Proof.
  unfold normalized_areas_of, normalized_areas.
  induction (combine cols powers) as [|cp l IH]; simpl; constructor;
    [|exact IH].
  split; [reflexivity|]. eexists. split; [|reflexivity].
  apply nansum_sum_of.
Qed.

(** C4.  On a rectangular spectrum table with one power per intensity
    column, and with at least two points in each window, region
    integration returns, for the excitation and for the fluorescence
    bounds and for every intensity column: a sum, over the rows whose
    wavelength is strictly between the bounds, of the intensity times the
    gradient of the selected wavelengths (products that are NaN passed
    over, as pandas' sum does), divided by the column's power.  Strictly:
    a wavelength is selected exactly when it is above the low and below
    the high bound, and neither bound itself is selected.  The gradient
    is taken of the selected wavelengths only and is, inside the
    selection, half the distance between the two selected neighbours. *)
Theorem counts_region_integrates :
  forall (df df_power : Pd.DataFrame) (lbound_low lbound_high : Z)
         (fbound_low fbound_high : Z) (wavelength powers : list float),
    Pd.get df "wavelength" = Ok wavelength ->
    Forall (fun c => List.length (snd c) = List.length wavelength) df ->
    Pd.loc0 df_power = Ok powers ->
    List.length powers = List.length (data_columns df) ->
    2 <= List.length (window lbound_low lbound_high wavelength wavelength) ->
    2 <= List.length (window fbound_low fbound_high wavelength wavelength) ->
    (forall low high w,
        in_bounds low high w = true <->
        F64.lt (F64.of_Z low) w /\ F64.lt w (F64.of_Z high)) /\
    (forall low high,
        in_bounds low high (F64.of_Z low) = false /\
        in_bounds low high (F64.of_Z high) = false) /\
    exists laser_delta_x fluor_delta_x c,
      Np.gradient (window lbound_low lbound_high wavelength wavelength)
        = Ok laser_delta_x /\
      Np.gradient (window fbound_low fbound_high wavelength wavelength)
        = Ok fluor_delta_x /\
      (forall i a b,
          nth_error (window lbound_low lbound_high wavelength wavelength) i
            = Some a ->
          nth_error (window lbound_low lbound_high wavelength wavelength)
                    (S (S i)) = Some b ->
          nth_error laser_delta_x (S i)
            = Some ((b - a) / (F64.of_Z 2 * F64.of_Z 1))%f64) /\
      (forall i a b,
          nth_error (window fbound_low fbound_high wavelength wavelength) i
            = Some a ->
          nth_error (window fbound_low fbound_high wavelength wavelength)
                    (S (S i)) = Some b ->
          nth_error fluor_delta_x (S i)
            = Some ((b - a) / (F64.of_Z 2 * F64.of_Z 1))%f64) /\
      counts_region df df_power lbound_low lbound_high fbound_low fbound_high
        = Ok c /\
      normalized_areas_of lbound_low lbound_high wavelength laser_delta_x
                          (data_columns df) powers (excit_total_counts c) /\
      normalized_areas_of fbound_low fbound_high wavelength fluor_delta_x
                          (data_columns df) powers (fluor_total_counts c).
Proof.
  intros df df_power ll lh fl fh wavelength powers Hwl Hrect Hp Hlen Hl Hf.
  split; [exact in_bounds_strict|]. split; [exact in_bounds_excludes_ends|].
  destruct (signal_norm_ok df powers ll lh wavelength Hwl Hrect Hlen Hl)
    as (dxl & Hdxl & Hsl).
  destruct (signal_norm_ok df powers fl fh wavelength Hwl Hrect Hlen Hf)
    as (dxf & Hdxf & Hsf).
  exists dxl, dxf. eexists.
  split; [exact Hdxl|]. split; [exact Hdxf|].
  split; [intros i a b; now apply gradient_centered|].
  split; [intros i a b; now apply gradient_centered|].
  split.
  - unfold counts_region. rewrite Hp. cbn [bind]. rewrite Hsl, Hsf. reflexivity.
  - split; apply normalized_areas_spec.
Qed.

Lemma counts_region_integrates_example :
  exists laser_delta_x fluor_delta_x c,
    Np.gradient (window 400 410 (map F64.of_Z [400; 401; 403; 406; 410; 500; 502; 505]%Z)
                        (map F64.of_Z [400; 401; 403; 406; 410; 500; 502; 505]%Z))
      = Ok laser_delta_x /\
    Np.gradient (window 499 510 (map F64.of_Z [400; 401; 403; 406; 410; 500; 502; 505]%Z)
                        (map F64.of_Z [400; 401; 403; 406; 410; 500; 502; 505]%Z))
      = Ok fluor_delta_x /\
    (forall i a b,
        nth_error (window 400 410 (map F64.of_Z [400; 401; 403; 406; 410; 500; 502; 505]%Z)
                          (map F64.of_Z [400; 401; 403; 406; 410; 500; 502; 505]%Z)) i
          = Some a ->
        nth_error (window 400 410 (map F64.of_Z [400; 401; 403; 406; 410; 500; 502; 505]%Z)
                          (map F64.of_Z [400; 401; 403; 406; 410; 500; 502; 505]%Z))
                  (S (S i)) = Some b ->
        nth_error laser_delta_x (S i)
          = Some ((b - a) / (F64.of_Z 2 * F64.of_Z 1))%f64) /\
    (forall i a b,
        nth_error (window 499 510 (map F64.of_Z [400; 401; 403; 406; 410; 500; 502; 505]%Z)
                          (map F64.of_Z [400; 401; 403; 406; 410; 500; 502; 505]%Z)) i
          = Some a ->
        nth_error (window 499 510 (map F64.of_Z [400; 401; 403; 406; 410; 500; 502; 505]%Z)
                          (map F64.of_Z [400; 401; 403; 406; 410; 500; 502; 505]%Z))
                  (S (S i)) = Some b ->
        nth_error fluor_delta_x (S i)
          = Some ((b - a) / (F64.of_Z 2 * F64.of_Z 1))%f64) /\
    counts_region df_blank_example df_blank_power_example 400 410 499 510
      = Ok c /\
    normalized_areas_of 400 410
      (map F64.of_Z [400; 401; 403; 406; 410; 500; 502; 505]%Z)
      laser_delta_x (data_columns df_blank_example)
      [F64.of_Z 2; F64.of_Z 4; F64.of_Z 3] (excit_total_counts c) /\
    normalized_areas_of 499 510
      (map F64.of_Z [400; 401; 403; 406; 410; 500; 502; 505]%Z)
      fluor_delta_x (data_columns df_blank_example)
      [F64.of_Z 2; F64.of_Z 4; F64.of_Z 3] (fluor_total_counts c).
Proof.
  apply (counts_region_integrates df_blank_example df_blank_power_example
           400 410 499 510
           (map F64.of_Z [400; 401; 403; 406; 410; 500; 502; 505]%Z)
           [F64.of_Z 2; F64.of_Z 4; F64.of_Z 3]).
  - reflexivity.
  - repeat constructor.
  - reflexivity.
  - reflexivity.
  - vm_compute. lia.
  - vm_compute. lia.
Defined.

(** The spacing is the gradient of the selected wavelengths, not the
    selection of the full axis' gradient: on 401, 403, 406 inside the
    axis 400, 401, 403, 406, 410 the former is 2, 2.5, 3 and the latter
    1.5, 2.5, 3.5. *)
Lemma window_gradient_is_local :
  let wavelength := map F64.of_Z [400; 401; 403; 406; 410]%Z in
  Np.gradient (window 400 410 wavelength wavelength)
    = Ok [F64.of_Z 2; (F64.of_Z 5 / F64.of_Z 2)%f64; F64.of_Z 3] /\
  (let* delta_x := Np.gradient wavelength in
   Ok (window 400 410 wavelength delta_x))
    = Ok [(F64.of_Z 3 / F64.of_Z 2)%f64; (F64.of_Z 5 / F64.of_Z 2)%f64;
          (F64.of_Z 7 / F64.of_Z 2)%f64].
Proof. split; vm_compute; reflexivity. Qed.

(** The value the integration gives on the example: the mean column over
    401, 403, 406 is (9*2 + 10*2.5 + 8*3) / 3 = 67/3. *)
Lemma counts_region_example_value :
  exists c,
    counts_region df_blank_example df_blank_power_example 400 410 499 510 = Ok c /\
    Pd.get (excit_total_counts c) mean_label = Ok (F64.of_Z 67 / F64.of_Z 3)%f64.
Proof. eexists. split; vm_compute; reflexivity. Qed.

(** ** Windows with fewer than two points *)

Lemma mul_axis0_error (df : Pd.DataFrame) (arr : list float) (e : exn) :
  Pd.mul_axis0 df arr = Err e -> e = ValueError.
Proof.
  induction df as [|[n c] df IH]; simpl; [discriminate|].
  destruct (Nat.eq_dec (List.length c) (List.length arr)) as [H|H].
  - rewrite (map2_combine _ _ _ H). cbn [bind].
    destruct (Pd.mul_axis0 df arr); [discriminate|].
    cbn [bind]. intros [= <-]. now apply IH.
  - rewrite (map2_length_mismatch _ _ _ H). cbn [bind]. congruence.
Qed.

Lemma div_array_error (s : Pd.Series) (arr : list float) (e : exn) :
  Pd.div_array s arr = Err e -> e = ValueError.
Proof.
  assert (Hz : forall s arr, Pd.div_zip s arr = Err e -> e = ValueError).
  { clear. induction s as [|[n v] s IH]; intros [|p arr]; simpl;
      try discriminate; try congruence.
    destruct (Pd.div_zip s arr) eqn:Hd; [discriminate|].
    cbn [bind]. intros [= <-]. now apply (IH arr). }
  destruct arr as [|p [|q arr]]; simpl; [apply Hz|discriminate|apply Hz].
Qed.

Lemma existsb_labels {A} (t : list (string * A)) (l : string) :
  existsb (fun e => String.eqb (fst e) l) t
  = existsb (fun n => String.eqb n l) (map fst t).
Proof.
  induction t as [|e t IH]; simpl; [reflexivity|now rewrite IH].
Qed.

Lemma mul_axis0_labels (df r : Pd.DataFrame) (arr : list float) :
  Pd.mul_axis0 df arr = Ok r -> Pd.labels r = Pd.labels df.
Proof.
  revert r. induction df as [|[n c] df IH]; simpl; intros r.
  - now intros [= <-].
  - destruct (Np.map2 F64.mul c arr); [|discriminate]. cbn [bind].
    destruct (Pd.mul_axis0 df arr) as [r'|]; [|discriminate]. cbn [bind].
    intros [= <-]. simpl. f_equal. now apply IH.
Qed.

Lemma div_array_labels (s r : Pd.Series) (arr : list float) :
  Pd.div_array s arr = Ok r -> Pd.labels r = Pd.labels s.
Proof.
  assert (Hz : forall s arr r, Pd.div_zip s arr = Ok r -> Pd.labels r = Pd.labels s).
  { clear. induction s as [|[n v] s IH]; intros [|p arr] r; simpl;
      try discriminate.
    - now intros [= <-].
    - destruct (Pd.div_zip s arr) as [r'|] eqn:Hd; [|discriminate].
      cbn [bind]. intros [= <-]. simpl. f_equal. now apply (IH arr). }
  destruct arr as [|p [|q arr]]; simpl; try apply Hz.
  intros [= <-]. unfold Pd.labels. rewrite map_map. reflexivity.
Qed.

Lemma labels_data_columns (df : Pd.DataFrame) :
  Pd.labels (data_columns df)
  = filter (fun n => negb (String.eqb n "wavelength")) (Pd.labels df).
Proof.
  unfold Pd.labels, data_columns. now rewrite filter_map_swap.
Qed.

(** With its wavelength column present the block either raises a
    [ValueError] or returns a series labelled by the intensity columns. *)
Lemma signal_norm_cases (df : Pd.DataFrame) (powers : list float)
      (low high : Z) (wavelength : list float) :
  Pd.get df "wavelength" = Ok wavelength ->
  signal_norm df powers low high = Err ValueError \/
  exists s, signal_norm df powers low high = Ok s /\
            Pd.labels s = Pd.labels (data_columns df).
Proof.
  intros Hwl. unfold signal_norm. rewrite Hwl. cbn [bind].
  rewrite (get_select_rows _ _ _ _ Hwl). cbn [bind].
  destruct (Np.gradient _) as [dx|e'] eqn:Hg; cbn [bind].
  2:{ left. revert Hg.
      generalize (Pd.select (map (in_bounds low high) wavelength) wavelength).
      intros [|? [|? ?]]; simpl; intros H; inversion H; reflexivity. }
  destruct (Pd.mul_axis0 _ dx) as [sig|e'] eqn:Hm; cbn [bind].
  2:{ left. now rewrite (mul_axis0_error _ _ _ Hm). }
  apply mul_axis0_labels in Hm.
  assert (Hl : Pd.labels (Pd.sum sig) = Pd.labels df).
  { unfold Pd.sum, Pd.labels in *. rewrite map_map.
    transitivity (map fst sig); [now apply map_ext|].
    rewrite Hm. unfold Pd.select_rows. rewrite map_map. now apply map_ext. }
  unfold Pd.drop. rewrite existsb_labels. fold (Pd.labels (Pd.sum sig)).
  rewrite Hl. unfold Pd.labels. rewrite <- existsb_labels.
  rewrite (get_drop _ _ _ Hwl). cbn [bind].
  destruct (Pd.div_array _ powers) as [s|e'] eqn:Hd.
  - right. exists s. split; [reflexivity|].
    apply div_array_labels in Hd.
    change (Pd.labels s = Pd.labels (data_columns df)).
    rewrite labels_data_columns.
    unfold Pd.labels in *. now rewrite Hd, <- Hl, filter_map_swap.
  - left. now rewrite (div_array_error _ _ _ Hd).
Qed.

Lemma signal_norm_error (df : Pd.DataFrame) (powers : list float)
      (low high : Z) (wavelength : list float) (e : exn) :
  Pd.get df "wavelength" = Ok wavelength ->
  signal_norm df powers low high = Err e -> e = ValueError.
Proof.
  intros Hwl He.
  destruct (signal_norm_cases df powers low high wavelength Hwl)
    as [H|(s & H & _)]; rewrite H in He; congruence.
Qed.

Lemma signal_norm_labels (df : Pd.DataFrame) (powers : list float)
      (low high : Z) (wavelength : list float) (s : Pd.Series) :
  Pd.get df "wavelength" = Ok wavelength ->
  signal_norm df powers low high = Ok s ->
  Pd.labels s = Pd.labels (data_columns df).
Proof.
  intros Hwl Hs.
  destruct (signal_norm_cases df powers low high wavelength Hwl)
    as [H|(s' & H & Hl)]; rewrite H in Hs; [discriminate|].
  now injection Hs as <-.
Qed.

Lemma signal_norm_small_window (df : Pd.DataFrame) (powers : list float)
      (low high : Z) (wavelength : list float) :
  Pd.get df "wavelength" = Ok wavelength ->
  List.length (window low high wavelength wavelength) < 2 ->
  signal_norm df powers low high = Err ValueError.
Proof.
  intros Hwl Hlen. unfold signal_norm. rewrite Hwl. cbn [bind].
  rewrite (get_select_rows _ _ _ _ Hwl). cbn [bind].
  fold (window low high wavelength wavelength).
  now rewrite (gradient_too_short _ Hlen).
Qed.

(** C5, as the code has it.  When the excitation or the fluorescence
    bounds select fewer than two wavelength points (none, in particular),
    region integration raises the [ValueError] of [np.gradient]: no sum
    comes back, neither zero nor NaN. *)
Theorem counts_region_small_window_raises :
  forall (df df_power : Pd.DataFrame) (lbound_low lbound_high : Z)
         (fbound_low fbound_high : Z) (wavelength powers : list float),
    Pd.get df "wavelength" = Ok wavelength ->
    Pd.loc0 df_power = Ok powers ->
    List.length (window lbound_low lbound_high wavelength wavelength) < 2 \/
    List.length (window fbound_low fbound_high wavelength wavelength) < 2 ->
    counts_region df df_power lbound_low lbound_high fbound_low fbound_high
    = Err ValueError.
Proof.
  intros df df_power ll lh fl fh wavelength powers Hwl Hp Hsmall.
  unfold counts_region. rewrite Hp. cbn [bind].
  destruct (signal_norm df powers ll lh) as [s|e] eqn:Hs; cbn [bind].
  - destruct Hsmall as [Hl|Hf].
    + rewrite (signal_norm_small_window _ _ _ _ _ Hwl Hl) in Hs. discriminate.
    + now rewrite (signal_norm_small_window _ _ _ _ _ Hwl Hf).
  - now rewrite (signal_norm_error _ _ _ _ _ _ Hwl Hs).
Qed.

Lemma counts_region_small_window_example :
  counts_region df_blank_example df_blank_power_example 400 410 600 700
  = Err ValueError.
Proof.
  apply (counts_region_small_window_raises
           df_blank_example df_blank_power_example 400 410 600 700
           (map F64.of_Z [400; 401; 403; 406; 410; 500; 502; 505]%Z)
           [F64.of_Z 2; F64.of_Z 4; F64.of_Z 3]).
  - reflexivity.
  - reflexivity.
  - right. vm_compute. lia.
Defined.

(** C5, as it is worded, fails: bounds outside the axis (600 to 700) and
    bounds with low above high (410 to 400) select no point, and the
    integration returns no table at all, so no sum of zero. *)
Lemma counts_region_empty_window_no_sum :
  window 600 700 (map F64.of_Z [400; 401; 403; 406; 410; 500; 502; 505]%Z)
         (map F64.of_Z [400; 401; 403; 406; 410; 500; 502; 505]%Z) = [] /\
  window 410 400 (map F64.of_Z [400; 401; 403; 406; 410; 500; 502; 505]%Z)
         (map F64.of_Z [400; 401; 403; 406; 410; 500; 502; 505]%Z) = [] /\
  counts_region df_blank_example df_blank_power_example 600 700 499 510
    = Err ValueError /\
  counts_region df_blank_example df_blank_power_example 410 400 499 510
    = Err ValueError /\
  ~ (exists c,
        counts_region df_blank_example df_blank_power_example 600 700 499 510
        = Ok c /\
        Pd.get (excit_total_counts c) mean_label = Ok F64.zero).
Proof.
  repeat split; try (vm_compute; reflexivity).
  intros (c & Hc & _). vm_compute in Hc. discriminate.
Qed.

(** ** A single measurement *)

Lemma get_first_label {A} (t : list (string * A)) (l : string)
      (rest : list string) :
  Pd.labels t = l :: rest -> exists v, Pd.get t l = Ok v.
Proof.
  destruct t as [|[n v] t]; simpl; [discriminate|].
  intros [= -> _]. exists v. now rewrite String.eqb_refl.
Qed.

Lemma counts_region_labels (df df_power : Pd.DataFrame)
      (ll lh fl fh : Z) (wavelength : list float) (c : Counts) :
  Pd.get df "wavelength" = Ok wavelength ->
  counts_region df df_power ll lh fl fh = Ok c ->
  Pd.labels (excit_total_counts c) = Pd.labels (data_columns df) /\
  Pd.labels (fluor_total_counts c) = Pd.labels (data_columns df).
Proof.
  intros Hwl. unfold counts_region.
  destruct (Pd.loc0 df_power) as [powers|]; [|discriminate]. cbn [bind].
  destruct (signal_norm df powers ll lh) as [sl|] eqn:Hl; [|discriminate].
  destruct (signal_norm df powers fl fh) as [sf|] eqn:Hf; [|discriminate].
  cbn [bind]. intros [= <-]. simpl. split.
  - exact (signal_norm_labels _ _ _ _ _ _ Hwl Hl).
  - exact (signal_norm_labels _ _ _ _ _ _ Hwl Hf).
Qed.

(** An analysis column of one measurement: that entry and the mean. *)
Lemma single_measurement_column (s : Pd.Series) :
  Pd.labels s = ["meas_0"; mean_label] ->
  (exists v, Pd.get s mean_label = Ok v) /\
  Pd.std (per_measurement s) = F64.nan.
Proof.
  destruct s as [|[n1 x] [|[n2 y] [|? ?]]]; try discriminate.
  simpl. intros [= -> ->]. split.
  - exists y. reflexivity.
  - rewrite std_single; [reflexivity|].
    simpl. lia.
Qed.

(** C10, as the code has it.  When the blank table and the sample table
    each hold exactly one measurement (the columns wavelength, meas_0 and
    the mean) and both region integrations succeed, the deviation that
    [calculate_plqy] stores is NaN, since the deviation of the single
    per-measurement sum is undefined and a power of NaN is NaN.  The
    point estimate is photons emitted over photons absorbed as in every
    analysis, and it is not always a number: it is NaN exactly when one
    of the two is NaN, both are zero or both are infinite. *)
Theorem single_measurement_std_is_nan :
  forall (pow : float -> float -> float)
         (df_blank df_blank_power df_sample df_sample_power : Pd.DataFrame)
         (lbound_low lbound_high fbound_low fbound_high : Z)
         (ba sa : Counts),
    pow F64.nan (F64.of_Z 2) = F64.nan ->
    pow F64.nan (F64.of_Z 1 / F64.of_Z 2)%f64 = F64.nan ->
    Pd.labels df_blank = ["wavelength"; "meas_0"; mean_label] ->
    Pd.labels df_sample = ["wavelength"; "meas_0"; mean_label] ->
    counts_region df_blank df_blank_power
                  lbound_low lbound_high fbound_low fbound_high = Ok ba ->
    counts_region df_sample df_sample_power
                  lbound_low lbound_high fbound_low fbound_high = Ok sa ->
    exists r,
      plqy_of_counts pow ba sa = Ok r /\
      F64.is_nan (plqy_std r) = true /\
      plqy_mean r = (photons_emitted_mean r / photons_abs_mean r)%f64 /\
      F64.is_nan (plqy_mean r)
      = F64.is_nan (photons_emitted_mean r)
        || F64.is_nan (photons_abs_mean r)
        || F64.is_zero (photons_emitted_mean r)
           && F64.is_zero (photons_abs_mean r)
        || F64.is_infinity (photons_emitted_mean r)
           && F64.is_infinity (photons_abs_mean r).
Proof.
  intros pow dfb pwb dfs pws ll lh fl fh ba sa Hp2 Hph Hlb Hls Hba Hsa.
  destruct (get_first_label _ _ _ Hlb) as (wb & Hwb).
  destruct (get_first_label _ _ _ Hls) as (ws & Hws).
  destruct (counts_region_labels _ _ _ _ _ _ _ _ Hwb Hba) as (Hbe & Hbf).
  destruct (counts_region_labels _ _ _ _ _ _ _ _ Hws Hsa) as (Hse & Hsf).
  rewrite labels_data_columns in Hbe, Hbf, Hse, Hsf.
  rewrite Hlb in Hbe, Hbf. rewrite Hls in Hse, Hsf.
  apply single_measurement_column in Hbe, Hbf, Hse, Hsf.
  destruct Hbe as ((be & Gbe) & Vbe), Hbf as ((bf & Gbf) & Vbf).
  destruct Hse as ((se & Gse) & Vse), Hsf as ((sf & Gsf) & Vsf).
  destruct (plqy_of_counts_eq pow _ _ _ _ _ _ Gbe Gbf Gse Gsf)
    as (sd & Hsd & Hr).
  rewrite (calculate_plqy_std_eq _ _ _ _ _ _ _ Gbe Gbf Gse Gsf) in Hsd.
  unfold variance_of in Hsd. rewrite Vbe, Vbf, Vse, Vsf, Hp2 in Hsd.
  rewrite add_nan_l, Hph, mul_nan_r in Hsd.
  injection Hsd as <-.
  eexists. split; [exact Hr|].
  cbn [plqy_std plqy_mean photons_emitted_mean photons_abs_mean].
  split; [reflexivity|]. split; [reflexivity|]. apply div_is_nan.
Qed.

Lemma single_measurement_example :
  exists r,
    plqy_of_counts pow_rounded
                   counts_blank_single_example counts_sample_single_example
    = Ok r /\
    F64.is_nan (plqy_std r) = true /\
    plqy_mean r = (photons_emitted_mean r / photons_abs_mean r)%f64 /\
    F64.is_nan (plqy_mean r)
    = F64.is_nan (photons_emitted_mean r)
      || F64.is_nan (photons_abs_mean r)
      || F64.is_zero (photons_emitted_mean r)
         && F64.is_zero (photons_abs_mean r)
      || F64.is_infinity (photons_emitted_mean r)
         && F64.is_infinity (photons_abs_mean r).
Proof.
  apply (single_measurement_std_is_nan pow_rounded
           df_blank_single df_power_single df_sample_single df_power_single
           400 410 499 510).
  - reflexivity.
  - reflexivity.
  - reflexivity.
  - reflexivity.
  - vm_compute. reflexivity.
  - vm_compute. reflexivity.
Defined.

(** On that example the estimate is the number 20 / 22.5 and the
    deviation is NaN. *)
Lemma single_measurement_example_values :
  exists r,
    plqy_of_counts pow_rounded
                   counts_blank_single_example counts_sample_single_example
    = Ok r /\
    photons_emitted_mean r = F64.of_Z 20 /\
    photons_abs_mean r = (F64.of_Z 45 / F64.of_Z 2)%f64 /\
    plqy_mean r = (F64.of_Z 8 / F64.of_Z 9)%f64 /\
    F64.is_finite (plqy_mean r) = true /\
    plqy_std r = F64.nan.
Proof. eexists. split; [vm_compute; reflexivity|]. repeat split. Qed.

(** C10, as it is worded, fails: with one measurement each and a sample
    that is the blank over again, photons emitted and photons absorbed
    are both zero and the point estimate is NaN, not a number. *)
Lemma single_measurement_mean_not_a_number :
  Pd.labels df_blank_single = ["wavelength"; "meas_0"; mean_label] /\
  counts_region df_blank_single df_power_single 400 410 499 510
  = Ok counts_blank_single_example /\
  exists r,
    plqy_of_counts pow_rounded
                   counts_blank_single_example counts_blank_single_example
    = Ok r /\
    photons_emitted_mean r = F64.zero /\
    photons_abs_mean r = F64.zero /\
    F64.is_nan (plqy_std r) = true /\
    F64.is_nan (plqy_mean r) = true.
Proof.
  split; [reflexivity|]. split; [vm_compute; reflexivity|].
  eexists. split; [vm_compute; reflexivity|]. repeat split.
Qed.

(** ** Subrun averaging *)

Section SubrunAveraging.

Variable Instr : Type.
Variable expose : Instr -> (list float * list float) * Instr.

Lemma sampler_trace_length (n : nat) (instr : Instr) :
  List.length (fst (sampler_trace expose n instr)) = n.
Proof.
  revert instr. induction n as [|n IH]; intros instr; simpl; [reflexivity|].
  destruct (subrun expose instr) as [sample instr'].
  specialize (IH instr').
  destruct (sampler_trace expose n instr') as [rest instr'']. simpl in *.
  now rewrite IH.
Qed.

(** The loop appends exactly the trace to its two arrays. *)
Lemma subrun_loop_trace (n : nat) (instr : Instr)
      (data_array : list (list float)) (power_mean_array : list float) :
  subrun_loop expose n instr data_array power_mean_array
  = ((data_array ++ map fst (fst (sampler_trace expose n instr)),
      power_mean_array ++ map snd (fst (sampler_trace expose n instr))),
     snd (sampler_trace expose n instr)).
Proof.
  revert instr data_array power_mean_array.
  induction n as [|n IH]; intros instr da pa; simpl.
  - now rewrite !app_nil_r.
  - destruct (subrun expose instr) as [[data power] instr'].
    rewrite IH.
    destruct (sampler_trace expose n instr') as [rest instr'']. simpl.
    now rewrite <- !app_assoc.
Qed.

End SubrunAveraging.

Lemma map_nth_seq (xs : list float) (d : float) :
  map (fun j => nth j xs d) (seq 0 (List.length xs)) = xs.
Proof.
  apply (nth_ext _ _ d d).
  - now rewrite length_map, length_seq.
  - intros n Hn. rewrite length_map, length_seq in Hn.
    rewrite (nth_indep _ _ (nth 0 xs d)) by (now rewrite length_map, length_seq).
    rewrite (map_nth (fun j => nth j xs d)).
    now rewrite seq_nth.
Qed.

Lemma map2_nth (op : float -> float -> float) (xs ys r : list float)
      (d : float) (j : nat) :
  Np.map2 op xs ys = Ok r ->
  j < List.length xs ->
  List.length r = List.length xs /\ nth j r d = op (nth j xs d) (nth j ys d).
Proof.
  revert ys r j. induction xs as [|x xs IH]; intros [|y ys] r j; simpl;
    try discriminate; try lia.
  destruct (Np.map2 op xs ys) as [r'|] eqn:Hr; [|discriminate].
  cbn [bind]. intros [= <-] Hj. simpl.
  destruct j as [|j].
  - split; [|reflexivity].
    destruct xs as [|x' xs'].
    + destruct ys; simpl in Hr; [now injection Hr as <-|discriminate].
    + destruct (IH _ _ 0 Hr) as [-> _]; [simpl; lia|reflexivity].
  - destruct (IH _ _ j Hr) as [-> ->]; [lia|]. split; reflexivity.
Qed.

Lemma map2_length (op : float -> float -> float) (xs ys r : list float) :
  Np.map2 op xs ys = Ok r ->
  List.length r = List.length xs /\ List.length ys = List.length xs.
Proof.
  revert ys r. induction xs as [|x xs IH]; intros [|y ys] r; simpl;
    try discriminate.
  - now intros [= <-].
  - destruct (Np.map2 op xs ys) as [r'|] eqn:Hr; [|discriminate].
    cbn [bind]. intros [= <-]. simpl.
    destruct (IH _ _ Hr) as [-> ->]. split; reflexivity.
Qed.

(** Rows of one length add up column by column, onto the accumulator. *)
Lemma sum_rows_columns (rows : list (list float)) (acc : list float) (d : float) :
  Forall (fun r => List.length r = List.length acc) rows ->
  Np.sum_rows acc rows
  = Ok (map (fun j => fold_left F64.add (map (fun r => nth j r d) rows)
                                (nth j acc d))
            (seq 0 (List.length acc))).
Proof.
  revert acc. induction rows as [|r rows IH]; intros acc Hrows; simpl.
  - now rewrite map_nth_seq.
  - apply Forall_cons_iff in Hrows as [Hr Hrest].
    rewrite (map2_combine _ _ _ (eq_sym Hr)). cbn [bind].
    set (acc' := map _ (combine acc r)).
    assert (Hacc' : Np.map2 F64.add acc r = Ok acc')
      by (now rewrite (map2_combine _ _ _ (eq_sym Hr))).
    destruct (map2_length _ _ _ _ Hacc') as [Hlen _].
    rewrite IH by (rewrite Hlen; exact Hrest).
    rewrite Hlen. f_equal. apply map_ext_in. intros j Hj.
    apply in_seq in Hj.
    destruct (map2_nth _ _ _ _ d j Hacc') as [_ ->]; [lia|reflexivity].
Qed.

Lemma two_or_more {A} (s alt : list A) :
  2 <= List.length s ->
  match s with
  | [_] => alt
  | _ => s
  end = s.
Proof. destruct s as [|a [|b s]]; simpl; try lia; reflexivity. Qed.

(** [np.mean(rows, axis=0)] is the element-wise arithmetic mean: entry
    [j] is an arithmetic mean of the entries [j] of the rows. *)
Lemma mean_axis0_elementwise (r : list float) (rows : list (list float))
      (d : float) :
  Forall (fun r' => List.length r' = List.length r) rows ->
  exists avg,
    Np.mean_axis0 (r :: rows) = Ok (Np.Array avg) /\
    List.length avg = List.length r /\
    forall j, j < List.length r ->
      mean_of (map (fun r' => nth j r' d) (r :: rows)) (nth j avg d).
Proof.
  intros Hrows. unfold Np.mean_axis0.
  rewrite (sum_rows_columns (r :: rows) (repeat F64.zero (List.length r)) d)
    by (rewrite repeat_length; now constructor).
  cbn [bind]. rewrite repeat_length.
  assert (Hserial : forall j, j < List.length r ->
             sum_of (map (fun r' => nth j r' d) (r :: rows))
                    (fold_left F64.add (map (fun r' => nth j r' d) (r :: rows))
                               (nth j (repeat F64.zero (List.length r)) d))).
  { intros j Hj.
    rewrite (nth_indep _ d F64.zero) by (now rewrite repeat_length).
    rewrite nth_repeat.
    apply (fold_left_sum_of _ [] F64.zero). constructor. }
  destruct r as [|x [|x' r]].
  - exists []. repeat split. simpl. intros j Hj. lia.
  - cbn [List.length seq map].
    eexists. split; [reflexivity|]. split; [reflexivity|].
    intros j Hj. assert (j = 0) by lia. subst j. cbn [map nth].
    exists (Np.sum (map (fun row => nth 0 row F64.nan) ([x] :: rows))).
    split; [|cbn [List.length map]; now rewrite !length_map].
    assert (E : map (fun r' => nth 0 r' d) rows
                = map (fun row => nth 0 row F64.nan) rows).
    { apply map_ext_in. intros row Hrow.
      rewrite Forall_forall in Hrows. specialize (Hrows row Hrow).
      apply nth_indep. simpl in Hrows. lia. }
    rewrite E.
    apply (sum_is_sum_of (x :: map (fun row => nth 0 row F64.nan) rows)).
  - cbv zeta. rewrite two_or_more
      by (rewrite length_map, length_seq; simpl; lia).
    eexists. split; [reflexivity|]. split.
    + now rewrite !length_map, length_seq.
    + intros j Hj. rewrite map_map.
      match goal with
      | |- mean_of _ (nth j (map ?f _) d) =>
          rewrite (nth_indep _ _ (f 0))
            by (now rewrite length_map, length_seq);
          rewrite (map_nth f)
      end.
      rewrite seq_nth by exact Hj. cbn [Nat.add].
      eexists. split; [apply (Hserial j Hj)|]. now rewrite length_map.
Qed.

Section SubrunMeans.

Variable Instr : Type.
Variable expose : Instr -> (list float * list float) * Instr.

(** Every subrun is one exposure: its spectrum, and for its power an
    arithmetic mean of the readings, each scaled to uA. *)
Lemma sampler_trace_exposures (n : nat) (instr : Instr) :
  Forall2 (fun sample exposure =>
             fst sample = fst exposure /\
             mean_of (map (fun current_dc =>
                             (current_dc * F64.of_Z 1000000)%f64)
                          (snd exposure))
                     (snd sample))
          (fst (sampler_trace expose n instr)) (exposures expose n instr).
Proof.
  revert instr. induction n as [|n IH]; intros instr; simpl; [constructor|].
  unfold subrun. destruct (expose instr) as [[data readings] instr1].
  specialize (IH instr1).
  destruct (sampler_trace expose n instr1) as [rest instr2]. simpl in *.
  constructor; [|exact IH]. split; [reflexivity|]. apply mean_is_mean_of.
Qed.

End SubrunMeans.

(** C7.  For a subrun count of at least one, [collect_intensities] runs
    the subrun that many times, one after the other on the same
    instruments; every subrun is one exposure, with an arithmetic mean of
    its scaled current readings for its power.  It returns the
    element-wise arithmetic mean of the spectra of those subruns (as long
    as the axis when every spectrum is) together with an arithmetic mean
    of their mean powers, one per subrun. *)
Theorem collect_intensities_averages_subruns :
  forall (Instr : Type) (expose : Instr -> (list float * list float) * Instr)
         (number_of_subruns : nat) (instr : Instr) (axis_length : nat),
    1 <= number_of_subruns ->
    Forall (fun sample => List.length (fst sample) = axis_length)
           (fst (sampler_trace expose number_of_subruns instr)) ->
    let samples := fst (sampler_trace expose number_of_subruns instr) in
    let instr' := snd (sampler_trace expose number_of_subruns instr) in
    List.length samples = number_of_subruns /\
    List.length (map snd samples) = number_of_subruns /\
    Forall2 (fun sample exposure =>
               fst sample = fst exposure /\
               mean_of (map (fun current_dc =>
                               (current_dc * F64.of_Z 1000000)%f64)
                            (snd exposure))
                       (snd sample))
            samples (exposures expose number_of_subruns instr) /\
    exists data_average power_average,
      collect_intensities expose number_of_subruns instr
      = (Ok (Np.Array data_average, power_average), instr') /\
      List.length data_average = axis_length /\
      (forall j, j < axis_length ->
         mean_of (map (fun sample => nth j (fst sample) F64.nan) samples)
                 (nth j data_average F64.nan)) /\
      mean_of (map snd samples) power_average.
Proof.
  intros Instr expose n instr L Hn Hlen.
  pose proof (sampler_trace_length _ expose n instr) as Hs.
  pose proof (sampler_trace_exposures _ expose n instr) as He.
  cbv zeta. unfold collect_intensities. rewrite subrun_loop_trace.
  destruct (sampler_trace expose n instr) as [samples instr'].
  cbn [fst snd app] in *.
  split; [exact Hs|]. split; [now rewrite length_map|].
  split; [exact He|].
  destruct samples as [|s0 rest]; [simpl in Hs; lia|].
  apply Forall_cons_iff in Hlen as [H0 Hrest]. subst L.
  cbn [map].
  destruct (mean_axis0_elementwise (fst s0) (map fst rest) F64.nan)
    as (avg & Havg & Hl & Hm).
  { rewrite Forall_map. eapply Forall_impl; [|exact Hrest].
    simpl. intros a ->. reflexivity. }
  rewrite Havg. cbn [bind].
  exists avg. eexists. split; [reflexivity|]. split; [exact Hl|]. split.
  - intros j Hj. specialize (Hm j Hj). cbn [map] in Hm.
    rewrite map_map in Hm. exact Hm.
  - apply (mean_is_mean_of (snd s0 :: map snd rest)).
Qed.

Lemma collect_intensities_example :
  let samples := fst (sampler_trace replay 3 tape_example) in
  let instr' := snd (sampler_trace replay 3 tape_example) in
  List.length samples = 3 /\
  List.length (map snd samples) = 3 /\
  Forall2 (fun sample exposure =>
             fst sample = fst exposure /\
             mean_of (map (fun current_dc =>
                             (current_dc * F64.of_Z 1000000)%f64)
                          (snd exposure))
                     (snd sample))
          samples (exposures replay 3 tape_example) /\
  exists data_average power_average,
    collect_intensities replay 3 tape_example
    = (Ok (Np.Array data_average, power_average), instr') /\
    List.length data_average = 2 /\
    (forall j, j < 2 ->
       mean_of (map (fun sample => nth j (fst sample) F64.nan) samples)
               (nth j data_average F64.nan)) /\
    mean_of (map snd samples) power_average.
Proof.
  apply (collect_intensities_averages_subruns Tape replay 3 tape_example 2).
  - lia.
  - repeat constructor.
Defined.

(** On that tape: the spectrum (12, 22) and the power 7e6/3 uA, the mean
    of the subrun means 2e6, 2e6 and 3e6. *)
Lemma collect_intensities_example_value :
  collect_intensities replay 3 tape_example
  = (Ok (Np.Array [F64.of_Z 12; F64.of_Z 22],
         (F64.of_Z 7000000 / F64.of_Z 3)%f64), []).
Proof. vm_compute. reflexivity. Qed.

(** ** Calibrated conversion *)

Lemma map2_nth_error (op : float -> float -> float) (xs ys r : list float)
      (i : nat) (x y : float) :
  Np.map2 op xs ys = Ok r ->
  nth_error xs i = Some x ->
  nth_error ys i = Some y ->
  nth_error r i = Some (op x y).
Proof.
  revert ys r i. induction xs as [|x' xs IH]; intros [|y' ys] r i; simpl;
    try discriminate.
  - intros _ Hx. destruct i; discriminate.
  - destruct (Np.map2 op xs ys) as [r'|] eqn:Hr; [|discriminate].
    cbn [bind]. intros [= <-]. destruct i as [|i]; simpl.
    + now intros [= ->] [= ->].
    + now apply IH.
Qed.

Lemma array_op_same_length (op : float -> float -> float)
      (arr col : list float) :
  List.length arr = List.length col ->
  array_op op (Np.Array arr) col = Np.map2 op arr col.
Proof.
  destruct arr as [|x [|x' arr]]; try reflexivity.
  destruct col as [|c [|c' col]]; try discriminate. reflexivity.
Qed.

Lemma reindex_same_length (col : list float) :
  reindex (List.length col) col = col.
Proof.
  unfold reindex. now rewrite firstn_all, Nat.sub_diag, app_nil_r.
Qed.

(** The frame after [init_spec], [dark_spec] and [calibration_file] on
    arrays as long as the axis. *)
Lemma initialized_frame (axis dark factors : list float)
      (df0 df1 df : Pd.DataFrame) :
  List.length dark = List.length axis ->
  List.length factors = List.length axis ->
  init_spec axis = Ok df0 ->
  dark_spec df0 (Np.Array dark) = Ok df1 ->
  calibration_file df1 factors = Ok df ->
  exists delta_x,
    Np.gradient axis = Ok delta_x /\
    df = [("wavelength", axis); ("delta_x", delta_x);
          ("dark", dark); ("irradcal", factors)].
Proof.
  intros Hd Hf. unfold init_spec.
  destruct (Np.gradient axis) as [delta_x|] eqn:Hg; [|discriminate].
  cbn [bind]. intros [= <-].
  unfold dark_spec, set_column. cbn [nrows snd]. rewrite Hd, Nat.eqb_refl.
  cbn. intros [= <-].
  unfold calibration_file, set_column. cbn [nrows snd].
  rewrite <- Hf, reindex_same_length, Nat.eqb_refl.
  cbn. intros [= <-]. exists delta_x. split; reflexivity.
Qed.

(** C2.  After [init_spec] on the instrument's axis, with the dark
    spectrum and the calibration factors stored, the conversion of a raw
    spectrum returns, at every point of the axis, the value
    ((((raw - dark) * calib) / delta_x) * wavelength) / 1000: the dark
    subtraction first, then the calibration factor, then the division by
    the spacing, then the wavelength, then the division by 1000.  The
    spacing is the gradient of the axis that [init_spec] stored once:
    inside the axis, half the distance between the two neighbours. *)
Theorem convert_order_of_operations :
  forall (axis dark factors intensities : list float)
         (df0 df1 df : Pd.DataFrame),
    List.length dark = List.length axis ->
    List.length factors = List.length axis ->
    List.length intensities = List.length axis ->
    init_spec axis = Ok df0 ->
    dark_spec df0 (Np.Array dark) = Ok df1 ->
    calibration_file df1 factors = Ok df ->
    exists delta_x photon_counts,
      Np.gradient axis = Ok delta_x /\
      Pd.get df "delta_x" = Ok delta_x /\
      (forall i a b,
          nth_error axis i = Some a ->
          nth_error axis (S (S i)) = Some b ->
          nth_error delta_x (S i)
          = Some ((b - a) / (F64.of_Z 2 * F64.of_Z 1))%f64) /\
      convert df (Np.Array intensities) = Ok photon_counts /\
      List.length photon_counts = List.length axis /\
      forall i raw dk calib dx wl,
        nth_error intensities i = Some raw ->
        nth_error dark i = Some dk ->
        nth_error factors i = Some calib ->
        nth_error delta_x i = Some dx ->
        nth_error axis i = Some wl ->
        nth_error photon_counts i
        = Some (((((raw - dk) * calib) / dx) * wl) / F64.of_Z 1000)%f64.
Proof.
  intros axis dark factors intensities df0 df1 df Hd Hf Hi H0 H1 H2.
  destruct (initialized_frame _ _ _ _ _ _ Hd Hf H0 H1 H2) as (delta_x & Hg & ->).
  assert (Hdx : List.length delta_x = List.length axis).
  { destruct axis as [|a0 [|a1 rest]]; try discriminate.
    injection Hg as <-. simpl. now rewrite gradient_from_length. }
  exists delta_x.
  unfold convert. cbn [Pd.get String.eqb Ascii.eqb Bool.eqb bind].
  rewrite array_op_same_length by congruence.
  destruct (Np.map2 F64.sub intensities dark) as [t1|] eqn:E1;
    [|rewrite map2_combine in E1 by congruence; discriminate].
  destruct (map2_length _ _ _ _ E1) as [L1 _]. cbn [bind].
  destruct (Np.map2 F64.mul t1 factors) as [t2|] eqn:E2;
    [|rewrite map2_combine in E2 by congruence; discriminate].
  destruct (map2_length _ _ _ _ E2) as [L2 _]. cbn [bind].
  destruct (Np.map2 F64.div t2 delta_x) as [t3|] eqn:E3;
    [|rewrite map2_combine in E3 by congruence; discriminate].
  destruct (map2_length _ _ _ _ E3) as [L3 _]. cbn [bind].
  destruct (Np.map2 F64.mul t3 axis) as [t4|] eqn:E4;
    [|rewrite map2_combine in E4 by congruence; discriminate].
  destruct (map2_length _ _ _ _ E4) as [L4 _]. cbn [bind].
  eexists. split; [exact Hg|]. split; [reflexivity|].
  split; [intros i a b; now apply gradient_centered|].
  split; [reflexivity|]. split; [rewrite length_map; congruence|].
  intros i raw dk calib dx wl Hraw Hdk Hcalib Hdxi Hwl.
  pose proof (map2_nth_error _ _ _ _ _ _ _ E1 Hraw Hdk) as N1.
  pose proof (map2_nth_error _ _ _ _ _ _ _ E2 N1 Hcalib) as N2.
  pose proof (map2_nth_error _ _ _ _ _ _ _ E3 N2 Hdxi) as N3.
  pose proof (map2_nth_error _ _ _ _ _ _ _ E4 N3 Hwl) as N4.
  rewrite nth_error_map, N4. reflexivity.
Qed.

Lemma convert_example :
  exists delta_x photon_counts,
    Np.gradient axis_example = Ok delta_x /\
    Pd.get init_df_example "delta_x" = Ok delta_x /\
    (forall i a b,
        nth_error axis_example i = Some a ->
        nth_error axis_example (S (S i)) = Some b ->
        nth_error delta_x (S i)
        = Some ((b - a) / (F64.of_Z 2 * F64.of_Z 1))%f64) /\
    convert init_df_example (Np.Array raw_example) = Ok photon_counts /\
    List.length photon_counts = List.length axis_example /\
    forall i raw dk calib dx wl,
      nth_error raw_example i = Some raw ->
      nth_error dark_example i = Some dk ->
      nth_error factors_example i = Some calib ->
      nth_error delta_x i = Some dx ->
      nth_error axis_example i = Some wl ->
      nth_error photon_counts i
      = Some (((((raw - dk) * calib) / dx) * wl) / F64.of_Z 1000)%f64.
Proof.
  apply (convert_order_of_operations
           axis_example dark_example factors_example raw_example
           [("wavelength", axis_example);
            ("delta_x", [F64.of_Z 2; (F64.of_Z 5 / F64.of_Z 2)%f64;
                         (F64.of_Z 7 / F64.of_Z 2)%f64; F64.of_Z 4])]
           [("wavelength", axis_example);
            ("delta_x", [F64.of_Z 2; (F64.of_Z 5 / F64.of_Z 2)%f64;
                         (F64.of_Z 7 / F64.of_Z 2)%f64; F64.of_Z 4]);
            ("dark", dark_example)]
           init_df_example); vm_compute; reflexivity.
Defined.

(** The order is not a matter of taste in binary64: dividing by the
    spacing before scaling by the calibration factor gives another value
    already for a difference of 1, a factor of 3 and a spacing of 10. *)
Lemma convert_order_matters :
  let raw := F64.of_Z 2 in
  let dk := F64.of_Z 1 in
  let calib := F64.of_Z 3 in
  let dx := F64.of_Z 10 in
  let wl := F64.of_Z 400 in
  F64.eqb (((((raw - dk) * calib) / dx) * wl) / F64.of_Z 1000)%f64
          (((((raw - dk) / dx) * calib) * wl) / F64.of_Z 1000)%f64 = false.
Proof. vm_compute. reflexivity. Qed.

(** ** Persisting and reloading *)

Lemma keep_lines_none (skiprows : nat -> bool) (n : nat) (file : File) :
  (forall m, n <= m -> skiprows m = false) ->
  keep_lines skiprows n file = file.
Proof.
  revert n. induction file as [|line file IH]; intros n H; simpl;
    [reflexivity|].
  rewrite (H n) by lia. f_equal. apply IH. intros m Hm. apply H. lia.
Qed.

Lemma keep_lines_all (skiprows : nat -> bool) (n : nat) (file : File) :
  (forall m, n <= m -> skiprows m = true) ->
  keep_lines skiprows n file = [].
Proof.
  revert n. induction file as [|line file IH]; intros n H; simpl;
    [reflexivity|].
  rewrite (H n) by lia. apply IH. intros m Hm. apply H. lia.
Qed.

Lemma is_blank_fields (line : Line) :
  2 <= List.length line -> is_blank line = false.
Proof. destruct line as [|s [|s' line]]; simpl; [lia|lia|reflexivity]. Qed.

Lemma combine_map_r {A B C} (g : B -> C) (xs : list A) (ys : list B) :
  combine xs (map g ys) = map (fun p => (fst p, g (snd p))) (combine xs ys).
Proof.
  revert ys. induction xs as [|x xs IH]; intros [|y ys]; simpl;
    try reflexivity. now rewrite IH.
Qed.

Lemma Forall2_indexed {A B} (P : B -> A -> Prop) (f : nat -> A -> B)
      (l : list A) (k : nat) :
  (forall i a, nth_error l i = Some a -> P (f (k + i) a) a) ->
  Forall2 P (map (fun ja => f (fst ja) (snd ja))
                 (combine (seq k (List.length l)) l)) l.
Proof.
  revert k. induction l as [|a l IH]; intros k H; simpl; constructor.
  - specialize (H 0 a eq_refl). now rewrite Nat.add_0_r in H.
  - apply IH. intros i b Hi. specialize (H (S i) b Hi).
    now rewrite Nat.add_succ_r in H.
Qed.

(** The conversion returns one value per point of the axis. *)
Lemma convert_length (df : Pd.DataFrame) (intensities : Np.ndarray)
      (photon_counts : list float) :
  convert df intensities = Ok photon_counts ->
  exists wavelength,
    Pd.get df "wavelength" = Ok wavelength /\
    List.length photon_counts = List.length wavelength.
Proof.
  unfold convert.
  destruct (Pd.get df "dark"); [|discriminate]. cbn [bind].
  destruct (array_op _ _ _); [|discriminate]. cbn [bind].
  destruct (Pd.get df "irradcal"); [|discriminate]. cbn [bind].
  destruct (Np.map2 F64.mul _ _); [|discriminate]. cbn [bind].
  destruct (Pd.get df "delta_x"); [|discriminate]. cbn [bind].
  destruct (Np.map2 F64.div _ _) as [per_nm|]; [|discriminate]. cbn [bind].
  destruct (Pd.get df "wavelength") as [wavelength|]; [|discriminate].
  cbn [bind].
  destruct (Np.map2 F64.mul per_nm wavelength) as [photons|] eqn:E;
    [|discriminate].
  cbn [bind]. intros [= <-]. exists wavelength. split; [reflexivity|].
  rewrite length_map. destruct (map2_length _ _ _ _ E) as [H1 H2]. congruence.
Qed.

Section Shape.

Variable Instr : Type.
Variable expose : Instr -> (list float * list float) * Instr.

(** The loop keeps the two dictionaries in step: one column of the
    length of the axis and one power per measurement. *)
Lemma measure_loop_shape (wavelength : list float) (init_df : Pd.DataFrame)
      (number_of_subruns : nat) :
  Pd.get init_df "wavelength" = Ok wavelength ->
  forall (remaining n : nat) (instr instr' : Instr)
         (inten_dict power_dict inten_dict' power_dict' : Pd.DataFrame),
    measure_loop expose remaining n number_of_subruns init_df instr
                 inten_dict power_dict
    = (Ok (inten_dict', power_dict'), instr') ->
    Forall (fun c => List.length (snd c) = List.length wavelength) inten_dict ->
    Forall (fun c => List.length (snd c) = 1) power_dict ->
    List.length inten_dict = List.length power_dict ->
    Forall (fun c => List.length (snd c) = List.length wavelength) inten_dict' /\
    Forall (fun c => List.length (snd c) = 1) power_dict' /\
    List.length inten_dict' = List.length power_dict'.
Proof.
  intros Hwl. induction remaining as [|remaining IH];
    intros n instr instr' inten power inten' power' H Hi Hp Hlen; simpl in H.
  - injection H as <- <- <-. auto.
  - destruct (collect_intensities expose number_of_subruns instr)
      as [[[intensities power_meas]|e] instr1]; [|discriminate].
    destruct (convert init_df intensities) as [photon_counts|e] eqn:Ec;
      [|discriminate].
    destruct (convert_length _ _ _ Ec) as (wl & Hwl' & Hlc).
    rewrite Hwl in Hwl'. injection Hwl' as <-.
    apply (IH _ _ _ _ _ _ _ H).
    + apply Forall_app. split; [exact Hi|]. repeat constructor. exact Hlc.
    + apply Forall_app. split; [exact Hp|]. repeat constructor.
    + rewrite !length_app. simpl. lia.
Qed.

(** The tables of a collection: three or more columns of one length in
    the spectrum table, two or more columns of one row in the power
    table. *)
Lemma collect_multi_shape (number_of_meas number_of_subruns : nat)
      (init_df : Pd.DataFrame) (instr instr' : Instr)
      (df df_power : Pd.DataFrame) :
  collect_multi expose number_of_meas number_of_subruns init_df instr
  = (Ok (df, df_power), instr') ->
  2 <= List.length df /\
  Forall (fun c => List.length (snd c) = nrows df) df /\
  2 <= List.length df_power /\
  Forall (fun c => List.length (snd c) = 1) df_power.
Proof.
  unfold collect_multi.
  destruct (measure_loop _ _ _ _ _ _ _ _) as [[[inten power]|e] instr1] eqn:Hm;
    [|discriminate].
  destruct inten as [|c0 inten]; [discriminate|].
  destruct (Pd.get init_df "wavelength") as [wavelength|] eqn:Hwl;
    [|discriminate].
  cbn [bind]. intros [= <- <- <-].
  destruct (measure_loop_shape wavelength init_df number_of_subruns Hwl
              _ _ _ _ _ _ _ _ Hm) as (Hi & Hp & Hlen);
    [constructor|constructor|reflexivity|].
  assert (Hn : nrows (c0 :: inten) = List.length wavelength).
  { apply Forall_cons_iff in Hi as [H _]. exact H. }
  destruct power as [|p0 power]; [discriminate|].
  assert (Hn1 : nrows (p0 :: power) = 1).
  { apply Forall_cons_iff in Hp as [H _]. exact H. }
  repeat split.
  - simpl. rewrite length_app. simpl. lia.
  - cbn [nrows snd]. constructor; [reflexivity|].
    apply (proj2 (Forall_app _ (c0 :: inten) _)). split; [exact Hi|].
    repeat constructor. cbn [snd]. unfold mean_axis1.
    now rewrite length_map, length_seq.
  - rewrite length_app. simpl. lia.
  - apply (proj2 (Forall_app _ (p0 :: power) _)). split; [exact Hp|].
    repeat constructor. cbn [snd]. unfold mean_axis1.
    now rewrite length_map, length_seq.
Qed.

End Shape.

Section Roundtrip.

Variable repr : float -> string.
Variable parse : string -> float.

(** Agreement of two numbers to the tolerance of the text conversion. *)
Variable close : float -> float -> Prop.

Lemma field_csv_row (df : Pd.DataFrame) (i j : nat) (c : string * list float) :
  nth_error df j = Some c ->
  field parse j (csv_row repr df i) = parse (repr (nth i (snd c) F64.nan)).
Proof.
  intros H. unfold field, csv_row. rewrite nth_error_map, H. reflexivity.
Qed.

Lemma column_read_back (xs : list float) :
  Forall (fun x => close (parse (repr x)) x) xs ->
  Forall2 close
          (map (fun i => parse (repr (nth i xs F64.nan)))
               (seq 0 (List.length xs)))
          xs.
Proof.
  intros H.
  rewrite <- (map_map (fun i => nth i xs F64.nan) (fun x => parse (repr x))).
  rewrite map_nth_seq.
  induction H; simpl; constructor; assumption.
Qed.

(** Rows as long as the header make a table as wide as the header. *)
Lemma table_width_rect (header : Line) (rows : File) :
  Forall (fun line => List.length line = List.length header) rows ->
  table_width header rows = List.length header.
Proof.
  intros [|first rest Hfirst _]; simpl; [reflexivity|].
  rewrite Hfirst. apply Nat.max_id.
Qed.

(** A table of two or more columns of one length, written and read with
    no line skipped, comes back. *)
Lemma read_to_csv (df : Pd.DataFrame) :
  2 <= List.length df ->
  Forall (fun c => List.length (snd c) = nrows df) df ->
  survives_text repr parse close df ->
  exists df',
    read_csv parse (fun _ => false) (to_csv repr df) = Ok df' /\
    tables_agree close df' df.
Proof.
  intros Hcols Hrect Htext. unfold read_csv, to_csv.
  rewrite keep_lines_none by reflexivity.
  assert (Hrows : Forall (fun line => List.length line = List.length df)
                         (map (csv_row repr df) (seq 0 (nrows df)))).
  { rewrite Forall_map. apply Forall_forall. intros i _.
    unfold csv_row. now rewrite length_map. }
  assert (Hlab : List.length (Pd.labels df) = List.length df)
    by (unfold Pd.labels; now rewrite length_map).
  rewrite filter_all.
  2:{ constructor.
      - rewrite is_blank_fields; [reflexivity|lia].
      - eapply Forall_impl; [|exact Hrows]. intros line Hl. cbv beta in Hl.
        rewrite is_blank_fields; [reflexivity|lia]. }
  cbv zeta. rewrite table_width_rect by (now rewrite Hlab).
  rewrite Nat.sub_diag. cbn [Nat.add].
  replace (forallb _ _) with true.
  2:{ symmetry. apply forallb_forall. intros line Hin.
      rewrite Forall_forall in Hrows. rewrite (Hrows line Hin), Hlab.
      apply Nat.leb_refl. }
  eexists. split; [reflexivity|].
  rewrite Hlab. unfold Pd.labels. rewrite combine_map_r, map_map.
  unfold tables_agree.
  apply (Forall2_indexed
           (fun ca cb => fst ca = fst cb /\ Forall2 close (snd ca) (snd cb))
           (fun j c => (fst c, map (field parse j)
                                   (map (csv_row repr df) (seq 0 (nrows df)))))
           df 0).
  intros j c Hj. simpl. split; [reflexivity|].
  rewrite map_map.
  rewrite (map_ext _ (fun i => parse (repr (nth i (snd c) F64.nan))))
    by (intros i; now apply field_csv_row).
  unfold survives_text in Htext.
  rewrite Forall_forall in Hrect, Htext.
  apply nth_error_In in Hj.
  rewrite <- (Hrect c Hj). apply column_read_back. now apply Htext.
Qed.

(** A power table of one row and a spectrum table, each of two or more
    columns, saved to a fresh file and loaded back by the two [read_csv]
    calls of the analysis, agree with what was saved. *)
Lemma save_load_tables :
  forall (df_power df : Pd.DataFrame),
    2 <= List.length df_power ->
    Forall (fun c => List.length (snd c) = 1) df_power ->
    2 <= List.length df ->
    Forall (fun c => List.length (snd c) = nrows df) df ->
    survives_text repr parse close df_power ->
    survives_text repr parse close df ->
    exists df' df_power',
      load_spectrum parse (save repr [] df_power df) = Ok df' /\
      load_power parse (save repr [] df_power df) = Ok df_power' /\
      tables_agree close df' df /\
      tables_agree close df_power' df_power.
Proof.
  intros df_power df Hpc Hp1 Hdc Hrect Htp Htd.
  assert (Hn : nrows df_power = 1).
  { destruct df_power as [|c ?]; [simpl in Hpc; lia|].
    apply Forall_cons_iff in Hp1 as [H _]. exact H. }
  destruct (read_to_csv df Hdc Hrect Htd) as (df' & Hdf & Adf).
  destruct (read_to_csv df_power Hpc) as (df_power' & Hpw & Apw);
    [now rewrite Hn|exact Htp|].
  exists df', df_power'. repeat split; try assumption.
  - unfold load_spectrum, save. rewrite <- Hdf. unfold read_csv.
    unfold to_csv at 1. rewrite Hn. cbn [app seq map keep_lines Nat.ltb Nat.leb].
    rewrite keep_lines_none;
      [|intros m Hm; destruct m as [|[|[|m]]]; try lia; reflexivity].
    now rewrite (keep_lines_none (fun _ => false)) by reflexivity.
  - unfold load_power, save. rewrite <- Hpw. unfold read_csv.
    unfold to_csv at 1 3. rewrite Hn.
    cbn [app seq map keep_lines existsb Nat.eqb orb negb].
    rewrite keep_lines_all; [reflexivity|].
    intros m Hm. destruct m as [|[|m]]; try lia. reflexivity.
Qed.

(** C8.  The spectrum table and the power table of a collection, saved
    to a fresh file (power table, empty line, spectrum table) and loaded
    back by the two [read_csv] calls: the spectrum table comes back with
    all its columns, the mean column among them, the power table with
    its per-measurement powers and their mean, and every number agrees
    with the one written to the tolerance of the text conversion.  These
    are the file and the two tables that [collect_blank] produces. *)
Theorem measurement_set_roundtrip :
  forall (Instr : Type) (expose : Instr -> (list float * list float) * Instr)
         (number_of_meas number_of_subruns : nat)
         (init_df : Pd.DataFrame) (instr instr' : Instr)
         (df df_power : Pd.DataFrame),
    collect_multi expose number_of_meas number_of_subruns init_df instr
    = (Ok (df, df_power), instr') ->
    survives_text repr parse close df_power ->
    survives_text repr parse close df ->
    exists df' df_power',
      load_spectrum parse (save repr [] df_power df) = Ok df' /\
      load_power parse (save repr [] df_power df) = Ok df_power' /\
      tables_agree close df' df /\
      tables_agree close df_power' df_power /\
      collect_blank repr parse Instr expose
                    number_of_meas number_of_subruns init_df instr
      = (Ok (save repr [] df_power df, df', df_power'), instr').
Proof.
  intros Instr expose n k init_df instr instr' df df_power Hc Htp Htd.
  destruct (collect_multi_shape _ _ _ _ _ _ _ _ _ Hc) as (Hdc & Hrect & Hpc & Hp1).
  destruct (save_load_tables df_power df Hpc Hp1 Hdc Hrect Htp Htd)
    as (df' & df_power' & Hs & Hp & As & Ap).
  exists df', df_power'. repeat split; try assumption.
  unfold collect_blank. rewrite Hc, Hs, Hp. reflexivity.
Qed.

End Roundtrip.

Lemma same_eq (x y : float) : F64.same x y = true -> x = y.
Proof.
  destruct x as [a|a| |a m e], y as [b|b| |b m' e']; simpl; try discriminate;
    try reflexivity.
  - intros H. apply Bool.eqb_prop in H. now subst.
  - intros H. apply Bool.eqb_prop in H. now subst.
  - rewrite !andb_true_iff. intros [[Hs Hm] He].
    apply Bool.eqb_prop in Hs. apply Pos.eqb_eq in Hm. apply Z.eqb_eq in He.
    now subst.
Qed.

(** Whether every number of a table is read back as it was written can
    be checked by running the conversion. *)
Lemma survives_text_check (repr : float -> string) (parse : string -> float)
      (df : Pd.DataFrame) :
  forallb (fun c => forallb (fun x => F64.same (parse (repr x)) x) (snd c)) df
  = true ->
  survives_text repr parse eq df.
Proof.
  intros H. apply Forall_forall. intros c Hc. apply Forall_forall. intros x Hx.
  rewrite forallb_forall in H. specialize (H c Hc).
  rewrite forallb_forall in H. apply same_eq. now apply H.
Qed.

Lemma measurement_set_roundtrip_example :
  exists df' df_power',
    load_spectrum exact_parse
      (save exact_repr [] (snd measurement_set_example)
            (fst measurement_set_example)) = Ok df' /\
    load_power exact_parse
      (save exact_repr [] (snd measurement_set_example)
            (fst measurement_set_example)) = Ok df_power' /\
    tables_agree eq df' (fst measurement_set_example) /\
    tables_agree eq df_power' (snd measurement_set_example) /\
    collect_blank exact_repr exact_parse Tape replay 2 1
                  init_df_example tape_two_measurements
    = (Ok (save exact_repr [] (snd measurement_set_example)
                (fst measurement_set_example), df', df_power'), []).
Proof.
  apply (measurement_set_roundtrip exact_repr exact_parse eq Tape replay 2 1
           init_df_example tape_two_measurements []
           (fst measurement_set_example) (snd measurement_set_example)).
  - vm_compute. reflexivity.
  - apply survives_text_check. vm_compute. reflexivity.
  - apply survives_text_check. vm_compute. reflexivity.
Defined.

(** The column names of that collection, and the power lines of its
    file: the subrun means 3e6 and 5e6 uA and their mean 4e6. *)
Lemma measurement_set_example_layout :
  Pd.labels (fst measurement_set_example)
    = ["wavelength"; "meas_0"; "meas_1"; "mean_photon_counts"] /\
  Pd.labels (snd measurement_set_example)
    = ["meas0_power"; "meas1_power"; "laser_power_mean_uA"] /\
  firstn 3 (save exact_repr [] (snd measurement_set_example)
                 (fst measurement_set_example))
    = [["meas0_power"; "meas1_power"; "laser_power_mean_uA"];
       [exact_repr (F64.of_Z 3000000); exact_repr (F64.of_Z 5000000);
        exact_repr (F64.of_Z 4000000)];
       []].
Proof. repeat split; vm_compute; reflexivity. Qed.

(** ** The whole pipeline on an example *)

(** A blank and a sample collected in two measurements each, saved,
    loaded back and analysed with the excitation window (399, 404) and
    the fluorescence window (404, 410), with a correctly rounded [pow]
    and a plot that draws: the yield and its deviation are finite, and
    the yield lies between 0.9 and 1. *)
Lemma pipeline_example :
  exists file_blank df_blank df_blank_power file_sample df_sample
         df_sample_power r,
    collect_blank exact_repr exact_parse Tape replay 2 1
                  init_df_example tape_blank_example
      = (Ok (file_blank, df_blank, df_blank_power), []) /\
    collect_blank exact_repr exact_parse Tape replay 2 1
                  init_df_example tape_sample_example
      = (Ok (file_sample, df_sample, df_sample_power), []) /\
    calculate_plqy pow_rounded plot_drawn
                   df_blank df_blank_power df_sample df_sample_power
                   399 404 404 410 = Ok r /\
    F64.is_finite (plqy_std r) = true /\
    (F64.of_Z 9 / F64.of_Z 10 <? plqy_mean r)%f64 = true /\
    (plqy_mean r <? F64.of_Z 1)%f64 = true.
Proof.
  do 7 eexists. split; [vm_compute; reflexivity|].
  split; [vm_compute; reflexivity|].
  split; [vm_compute; reflexivity|].
  repeat split.
Qed.

(** * Further properties of the analysis *)

(** ** Sign symmetries of binary64 *)

Lemma binary_round_aux_opp (sx : bool) (mx ex : Z) (lx : location) :
  binary_round_aux F64.prec F64.emax (negb sx) mx ex lx
  = SFopp (binary_round_aux F64.prec F64.emax sx mx ex lx).
Proof.
  unfold binary_round_aux.
  destruct (shr_fexp _ _ mx ex lx) as [mrs' e'].
  destruct (shr_fexp _ _ _ e' loc_Exact) as [mrs'' e''].
  destruct (shr_m mrs''); try reflexivity.
  destruct (Z.leb _ _); reflexivity.
Qed.

Lemma binary_normalize_opp (m e : Z) (sz : bool) :
  m <> 0%Z ->
  binary_normalize F64.prec F64.emax (- m) e sz
  = SFopp (binary_normalize F64.prec F64.emax m e sz).
Proof.
  destruct m as [|p|p]; [congruence| |]; intros _; simpl;
    unfold binary_round;
    destruct (shl_align _ _ _) as [mz ez].
  - apply (binary_round_aux_opp false).
  - rewrite (binary_round_aux_opp false).
    now destruct (binary_round_aux _ _ false _ _ _) as [[|]|[|]| |[|] ? ?].
Qed.

(** A difference that is not zero changes sign, and nothing else, when
    its operands are exchanged. *)
Lemma sub_antisym (x y : float) :
  F64.is_zero (x - y)%f64 = false ->
  (y - x)%f64 = SFopp (x - y)%f64.
Proof.
  destruct x as [sx|sx| |sx mx ex], y as [sy|sy| |sy my ey];
    try (destruct sx, sy; simpl; intros H; (discriminate H || reflexivity));
    try (destruct sx; simpl; intros H; (discriminate H || reflexivity));
    try (destruct sy; simpl; intros H; (discriminate H || reflexivity));
    try (intros _; reflexivity).
  unfold F64.sub, SFsub. rewrite (Z.min_comm ey ex).
  set (A := cond_Zopp sx _). set (B := cond_Zopp sy _).
  intros H. replace (B - A)%Z with (- (A - B))%Z by ring.
  apply binary_normalize_opp. intros E. rewrite E in H. discriminate.
Qed.

Lemma div_opp_opp (x y : float) : (SFopp x / SFopp y)%f64 = (x / y)%f64.
Proof.
  destruct x as [sx|sx| |sx mx ex], y as [sy|sy| |sy my ey];
    try (destruct sx, sy; reflexivity); try (destruct sx; reflexivity);
    try (destruct sy; reflexivity); reflexivity.
Qed.

Lemma square_opp (x : float) : F64.square (SFopp x) = F64.square x.
Proof.
  destruct x as [sx|sx| |sx mx ex]; try (destruct sx; reflexivity);
    reflexivity.
Qed.

Lemma add_comm (x y : float) : (x + y)%f64 = (y + x)%f64.
Proof.
  destruct x as [sx|sx| |sx mx ex], y as [sy|sy| |sy my ey];
    try (destruct sx, sy; reflexivity); try (destruct sx; reflexivity);
    try (destruct sy; reflexivity); try reflexivity.
  unfold F64.add, SFadd. rewrite (Z.min_comm ey ex). f_equal. apply Z.add_comm.
Qed.

(** ** Exchanging the blank and the sample *)

(** X1.  [calculate_plqy] cannot tell a blank from a sample: with the
    two analysis tables exchanged, photons emitted and photons absorbed
    (neither of them zero) change their sign and the yield and its
    deviation come out the same, bit for bit.  Of the library's [pow]
    this takes that a second power does not depend on the sign of its
    base. *)
Theorem plqy_swap_blank_sample :
  forall (pow : float -> float -> float)
         (ba sa : Counts) (be bf se sf : float),
    (forall x, pow (SFopp x) (F64.of_Z 2) = pow x (F64.of_Z 2)) ->
    Pd.get (excit_total_counts ba) mean_label = Ok be ->
    Pd.get (fluor_total_counts ba) mean_label = Ok bf ->
    Pd.get (excit_total_counts sa) mean_label = Ok se ->
    Pd.get (fluor_total_counts sa) mean_label = Ok sf ->
    F64.is_zero (sf - bf)%f64 = false ->
    F64.is_zero (be - se)%f64 = false ->
    exists r r',
      plqy_of_counts pow ba sa = Ok r /\
      plqy_of_counts pow sa ba = Ok r' /\
      photons_emitted_mean r' = SFopp (photons_emitted_mean r) /\
      photons_abs_mean r' = SFopp (photons_abs_mean r) /\
      plqy_mean r' = plqy_mean r /\
      plqy_std r' = plqy_std r.
Proof.
  intros pow ba sa be bf se sf Hev Hbe Hbf Hse Hsf He Ha.
  destruct (plqy_of_counts_eq pow _ _ _ _ _ _ Hbe Hbf Hse Hsf)
    as (sd & Hsd & Hr).
  destruct (plqy_of_counts_eq pow _ _ _ _ _ _ Hse Hsf Hbe Hbf)
    as (sd' & Hsd' & Hr').
  rewrite (calculate_plqy_std_eq _ _ _ _ _ _ _ Hbe Hbf Hse Hsf) in Hsd.
  rewrite (calculate_plqy_std_eq _ _ _ _ _ _ _ Hse Hsf Hbe Hbf) in Hsd'.
  injection Hsd as <-. injection Hsd' as <-.
  rewrite Hr, Hr'. do 2 eexists. split; [reflexivity|]. split; [reflexivity|].
  cbn [photons_emitted_mean photons_abs_mean plqy_mean plqy_std].
  rewrite (sub_antisym _ _ He), (sub_antisym _ _ Ha).
  rewrite !div_opp_opp, !Hev.
  rewrite (add_comm (variance_of pow (fluor_total_counts ba))),
          (add_comm (variance_of pow (excit_total_counts sa))).
  repeat split.
Qed.

Lemma pow_rounded_even (x : float) :
  pow_rounded (SFopp x) (F64.of_Z 2) = pow_rounded x (F64.of_Z 2).
Proof. apply square_opp. Qed.

Lemma plqy_swap_blank_sample_example :
  exists r r',
    plqy_of_counts pow_rounded blank_counts_example sample_counts_example
    = Ok r /\
    plqy_of_counts pow_rounded sample_counts_example blank_counts_example
    = Ok r' /\
    photons_emitted_mean r' = SFopp (photons_emitted_mean r) /\
    photons_abs_mean r' = SFopp (photons_abs_mean r) /\
    plqy_mean r' = plqy_mean r /\
    plqy_std r' = plqy_std r.
Proof.
  apply (plqy_swap_blank_sample pow_rounded
           blank_counts_example sample_counts_example
           (F64.of_Z 100) (F64.of_Z 10) (F64.of_Z 40) (F64.of_Z 50));
    [exact pow_rounded_even|reflexivity..].
Defined.

(** ** Deviations that are not numbers *)

Lemma std_of_zero_emitted (pow : float -> float -> float)
      (z x v b : float) :
  (forall s, pow (S754_zero s) (F64.of_Z 2) = S754_zero false) ->
  (forall s, pow (S754_infinity s) (F64.of_Z 1 / F64.of_Z 2)%f64
             = S754_infinity false) ->
  pow F64.nan (F64.of_Z 1 / F64.of_Z 2)%f64 = F64.nan ->
  F64.is_zero z = true ->
  F64.is_nan ((z / x) * pow (v / pow z (F64.of_Z 2) + b)
                            (F64.of_Z 1 / F64.of_Z 2))%f64 = true.
Proof.
  intros Hz2 Hih Hnh.
  remember (F64.of_Z 1 / F64.of_Z 2)%f64 as half eqn:Ehalf. clear Ehalf.
  unfold F64.nan in Hnh.
  destruct z as [sz| | |]; try discriminate. intros _. rewrite Hz2.
  destruct v as [[|]|[|]| |[|] ? ?], b as [[|]|[|]| |[|] ? ?];
    cbn [F64.div F64.add SFdiv SFadd xorb F64.prec F64.emax andb eqb
         Bool.eqb];
    rewrite ?Hih, ?Hnh;
    destruct sz, x as [[|]|[|]| |[|] ? ?]; reflexivity.
Qed.

Lemma mul_not_finite (q y : float) :
  F64.is_finite q = false -> F64.is_finite (q * y)%f64 = false.
Proof.
  destruct q as [|sq| |]; try discriminate; intros _;
    destruct y as [sy|sy| |sy ? ?]; try reflexivity;
    destruct sq, sy; reflexivity.
Qed.

(** X2.  A sample that emits nothing gets no deviation: when photons
    emitted is zero the deviation that [calculate_plqy] stores is NaN,
    whatever the per-measurement sums and photons absorbed are.  Of the
    library's [pow] this takes the special values that the C standard
    fixes: the second power of a zero is [+0], and the power 1/2 of an
    infinity is [+inf] and of NaN is NaN. *)
Theorem plqy_std_nan_when_nothing_emitted :
  forall (pow : float -> float -> float)
         (ba sa : Counts) (be bf se sf : float),
    (forall s, pow (S754_zero s) (F64.of_Z 2) = S754_zero false) ->
    (forall s, pow (S754_infinity s) (F64.of_Z 1 / F64.of_Z 2)%f64
               = S754_infinity false) ->
    pow F64.nan (F64.of_Z 1 / F64.of_Z 2)%f64 = F64.nan ->
    Pd.get (excit_total_counts ba) mean_label = Ok be ->
    Pd.get (fluor_total_counts ba) mean_label = Ok bf ->
    Pd.get (excit_total_counts sa) mean_label = Ok se ->
    Pd.get (fluor_total_counts sa) mean_label = Ok sf ->
    F64.is_zero (sf - bf)%f64 = true ->
    exists r,
      plqy_of_counts pow ba sa = Ok r /\
      F64.is_zero (photons_emitted_mean r) = true /\
      F64.is_nan (plqy_std r) = true.
Proof.
  intros pow ba sa be bf se sf Hz2 Hih Hnh Hbe Hbf Hse Hsf Hz.
  destruct (plqy_of_counts_eq pow _ _ _ _ _ _ Hbe Hbf Hse Hsf)
    as (sd & Hsd & Hr).
  rewrite (calculate_plqy_std_eq _ _ _ _ _ _ _ Hbe Hbf Hse Hsf) in Hsd.
  injection Hsd as <-. rewrite Hr. eexists. split; [reflexivity|].
  cbn [photons_emitted_mean plqy_std]. split; [exact Hz|].
  now apply std_of_zero_emitted.
Qed.

(** X3.  When photons absorbed is zero the deviation is, like the yield,
    never a finite number, whatever the library's [pow] returns. *)
Theorem plqy_std_not_finite_when_nothing_absorbed :
  forall (pow : float -> float -> float)
         (ba sa : Counts) (be bf se sf : float),
    Pd.get (excit_total_counts ba) mean_label = Ok be ->
    Pd.get (fluor_total_counts ba) mean_label = Ok bf ->
    Pd.get (excit_total_counts sa) mean_label = Ok se ->
    Pd.get (fluor_total_counts sa) mean_label = Ok sf ->
    F64.is_zero (be - se)%f64 = true ->
    exists r,
      plqy_of_counts pow ba sa = Ok r /\
      F64.is_zero (photons_abs_mean r) = true /\
      F64.is_finite (plqy_std r) = false.
Proof.
  intros pow ba sa be bf se sf Hbe Hbf Hse Hsf Hz.
  destruct (plqy_of_counts_eq pow _ _ _ _ _ _ Hbe Hbf Hse Hsf)
    as (sd & Hsd & Hr).
  rewrite (calculate_plqy_std_eq _ _ _ _ _ _ _ Hbe Hbf Hse Hsf) in Hsd.
  injection Hsd as <-. rewrite Hr. eexists. split; [reflexivity|].
  cbn [photons_abs_mean plqy_std]. split; [exact Hz|].
  apply mul_not_finite. now apply div_by_zero.
Qed.

Lemma plqy_std_nan_when_nothing_emitted_example :
  exists r,
    plqy_of_counts pow_rounded blank_counts_example blank_counts_example
    = Ok r /\
    F64.is_zero (photons_emitted_mean r) = true /\
    F64.is_nan (plqy_std r) = true.
Proof.
  apply (plqy_std_nan_when_nothing_emitted pow_rounded
           blank_counts_example blank_counts_example
           (F64.of_Z 100) (F64.of_Z 10) (F64.of_Z 100) (F64.of_Z 10));
    try reflexivity; intros []; reflexivity.
Defined.

Lemma plqy_std_not_finite_when_nothing_absorbed_example :
  exists r,
    plqy_of_counts pow_rounded blank_counts_example nonabsorbing_counts_example
    = Ok r /\
    F64.is_zero (photons_abs_mean r) = true /\
    F64.is_finite (plqy_std r) = false.
Proof.
  apply (plqy_std_not_finite_when_nothing_absorbed pow_rounded
           blank_counts_example nonabsorbing_counts_example
           (F64.of_Z 100) (F64.of_Z 10) (F64.of_Z 100) (F64.of_Z 50));
    reflexivity.
Defined.

(** ** What region integration raises, and what it returns *)

Lemma get_error {A} (t : list (string * A)) (l : string) (e : exn) :
  Pd.get t l = Err e -> e = KeyError.
Proof.
  induction t as [|[n v] t IH]; simpl; [now intros [= <-]|].
  destruct (String.eqb n l); [discriminate|exact IH].
Qed.

Lemma loc0_error (df : Pd.DataFrame) (e : exn) :
  Pd.loc0 df = Err e -> e = KeyError.
Proof.
  destruct df as [|c df]; [now intros [= <-]|]. unfold Pd.loc0.
  generalize (c :: df). clear. intros df. revert e.
  induction df as [|[n [|v col]] df IH]; simpl; intros e;
    [discriminate|now intros [= <-]|].
  destruct (Pd.first_row df) as [r|e']; [discriminate|].
  cbn [bind]. intros [= <-]. now apply IH.
Qed.

Lemma get_absent {A} (t : list (string * A)) (l : string) :
  ~ In l (Pd.labels t) -> Pd.get t l = Err KeyError.
Proof.
  induction t as [|[n v] t IH]; simpl; [reflexivity|]. intros H.
  destruct (String.eqb_spec n l) as [->|_]; [exfalso; auto|].
  apply IH. auto.
Qed.

Lemma get_present {A} (t : list (string * A)) (l : string) (v : A) :
  Pd.get t l = Ok v -> In l (Pd.labels t).
Proof.
  induction t as [|[n w] t IH]; simpl; [discriminate|].
  destruct (String.eqb_spec n l) as [->|_]; [now left|]. intros H. right. auto.
Qed.

Lemma div_array_lengths (s r : Pd.Series) (arr : list float) :
  Pd.div_array s arr = Ok r ->
  List.length arr = List.length s \/ List.length arr = 1.
Proof.
  assert (Hz : forall s arr r, Pd.div_zip s arr = Ok r ->
                               List.length arr = List.length s).
  { clear. induction s as [|[n v] s IH]; intros [|p arr] r; simpl;
      try discriminate; [reflexivity|].
    destruct (Pd.div_zip s arr) as [r'|] eqn:Hd; [|discriminate].
    intros _. f_equal. now apply (IH arr r'). }
  destruct arr as [|p [|q arr]]; simpl; intros H.
  - left. now apply Hz in H.
  - now right.
  - left. now apply Hz in H.
Qed.

(** The block hands its column sums, one per intensity column, to the
    division by the powers. *)
Lemma signal_norm_power_lengths (df : Pd.DataFrame) (powers : list float)
      (low high : Z) (wavelength : list float) (s : Pd.Series) :
  Pd.get df "wavelength" = Ok wavelength ->
  signal_norm df powers low high = Ok s ->
  List.length powers = List.length (data_columns df) \/
  List.length powers = 1.
Proof.
  intros Hwl Hs.
  pose proof (signal_norm_labels _ _ _ _ _ _ Hwl Hs) as Hl.
  revert Hs. unfold signal_norm. rewrite Hwl. cbn [bind].
  rewrite (get_select_rows _ _ _ _ Hwl). cbn [bind].
  destruct (Np.gradient _) as [dx|]; [|discriminate]. cbn [bind].
  destruct (Pd.mul_axis0 _ dx) as [sig|]; [|discriminate]. cbn [bind].
  destruct (Pd.drop _ _) as [sums|]; [|discriminate]. cbn [bind].
  intros Hd. pose proof (div_array_labels _ _ _ Hd) as Hl'.
  apply div_array_lengths in Hd.
  assert (List.length sums = List.length (data_columns df)).
  { rewrite <- (length_map fst sums), <- (length_map fst (data_columns df)).
    unfold Pd.labels in *. congruence. }
  destruct Hd as [Hd|Hd]; [left; congruence|now right].
Qed.

Lemma counts_region_without_wavelength (df df_power : Pd.DataFrame)
      (ll lh fl fh : Z) (e : exn) :
  Pd.get df "wavelength" = Err e ->
  counts_region df df_power ll lh fl fh = Err KeyError.
Proof.
  intros Hwl. rewrite (get_error _ _ _ Hwl) in Hwl. unfold counts_region.
  destruct (Pd.loc0 df_power) as [powers|e'] eqn:Hp; cbn [bind].
  - unfold signal_norm. now rewrite Hwl.
  - now rewrite (loc0_error _ _ Hp).
Qed.

(** X4.  Region integration raises a [KeyError] exactly when the power
    table has no first row or the spectrum table has no wavelength
    column; every other failure is a [ValueError]. *)
Theorem counts_region_key_error_iff :
  forall (df df_power : Pd.DataFrame)
         (lbound_low lbound_high fbound_low fbound_high : Z),
    counts_region df df_power lbound_low lbound_high fbound_low fbound_high
      = Err KeyError <->
    Pd.loc0 df_power = Err KeyError \/ Pd.get df "wavelength" = Err KeyError.
Proof.
  intros df pw ll lh fl fh. unfold counts_region. split.
  - destruct (Pd.loc0 pw) as [powers|e] eqn:Hp; cbn [bind].
    + destruct (Pd.get df "wavelength") as [wl|e] eqn:Hwl.
      * destruct (signal_norm_cases df powers ll lh wl Hwl) as [->|(s & -> & _)];
          cbn [bind]; [discriminate|].
        destruct (signal_norm_cases df powers fl fh wl Hwl) as [->|(s' & -> & _)];
          cbn [bind]; discriminate.
      * intros _. right. now rewrite (get_error _ _ _ Hwl).
    + intros _. left. now rewrite (loc0_error _ _ Hp).
  - intros [Hp|Hwl].
    + now rewrite Hp.
    + exact (counts_region_without_wavelength df pw ll lh fl fh _ Hwl).
Qed.

Lemma counts_region_key_error_example :
  counts_region df_no_wavelength_example df_power_single 400 410 499 510
  = Err KeyError.
Proof.
  apply (proj2 (counts_region_key_error_iff
                  df_no_wavelength_example df_power_single 400 410 499 510)).
  right. reflexivity.
Defined.

(** X5.  A power table whose row has several values, but not one per
    intensity column of the spectrum table, makes region integration
    raise a [ValueError]: no column is ever paired with the power of
    another. *)
Theorem counts_region_power_mismatch :
  forall (df df_power : Pd.DataFrame)
         (lbound_low lbound_high fbound_low fbound_high : Z)
         (wavelength powers : list float),
    Pd.get df "wavelength" = Ok wavelength ->
    Pd.loc0 df_power = Ok powers ->
    List.length powers <> List.length (data_columns df) ->
    List.length powers <> 1 ->
    counts_region df df_power lbound_low lbound_high fbound_low fbound_high
    = Err ValueError.
Proof.
  intros df pw ll lh fl fh wl powers Hwl Hp Hne H1.
  unfold counts_region. rewrite Hp. cbn [bind].
  destruct (signal_norm_cases df powers ll lh wl Hwl) as [->|(s & Hs & _)];
    [reflexivity|].
  destruct (signal_norm_power_lengths _ _ _ _ _ _ Hwl Hs); contradiction.
Qed.

Lemma counts_region_power_mismatch_example :
  counts_region df_blank_example df_power_three_example 400 410 499 510
  = Err ValueError.
Proof.
  apply (counts_region_power_mismatch
           df_blank_example df_power_three_example 400 410 499 510
           (map F64.of_Z [400; 401; 403; 406; 410; 500; 502; 505]%Z)
           [F64.of_Z 2; F64.of_Z 4; F64.of_Z 3; F64.of_Z 3]).
  - reflexivity.
  - reflexivity.
  - vm_compute. lia.
  - vm_compute. lia.
Defined.

(** X6.  The table region integration returns has, in both of its
    columns, one row per intensity column of the spectrum table, under
    the column's name and in the order of the columns, and no row for
    the wavelength. *)
Theorem counts_region_index :
  forall (df df_power : Pd.DataFrame)
         (lbound_low lbound_high fbound_low fbound_high : Z) (c : Counts),
    counts_region df df_power lbound_low lbound_high fbound_low fbound_high
      = Ok c ->
    Pd.labels (excit_total_counts c)
      = filter (fun n => negb (String.eqb n "wavelength")) (Pd.labels df) /\
    Pd.labels (fluor_total_counts c) = Pd.labels (excit_total_counts c) /\
    ~ In "wavelength" (Pd.labels (excit_total_counts c)).
Proof.
  intros df pw ll lh fl fh c Hc.
  destruct (Pd.get df "wavelength") as [wl|e] eqn:Hwl.
  - destruct (counts_region_labels _ _ _ _ _ _ _ _ Hwl Hc) as [He Hf].
    rewrite labels_data_columns in He, Hf. rewrite He, Hf.
    repeat split. intros Hin. apply filter_In in Hin as [_ Hin].
    now rewrite String.eqb_refl in Hin.
  - rewrite (counts_region_without_wavelength df pw ll lh fl fh _ Hwl) in Hc.
    discriminate.
Qed.

Lemma counts_region_index_example :
  Pd.labels (excit_total_counts counts_example)
    = filter (fun n => negb (String.eqb n "wavelength"))
             (Pd.labels df_blank_example) /\
  Pd.labels (fluor_total_counts counts_example)
    = Pd.labels (excit_total_counts counts_example) /\
  ~ In "wavelength" (Pd.labels (excit_total_counts counts_example)).
Proof.
  apply (counts_region_index df_blank_example df_blank_power_example
           400 410 499 510 counts_example).
  vm_compute. reflexivity.
Defined.

Lemma get_mean_of_labels (s : Pd.Series) (df : Pd.DataFrame) :
  Pd.labels s = filter (fun n => negb (String.eqb n "wavelength")) (Pd.labels df) ->
  ~ In mean_label (Pd.labels df) ->
  Pd.get s mean_label = Err KeyError.
Proof.
  intros Hl Hn. apply get_absent. rewrite Hl. intros Hin.
  apply filter_In in Hin as [Hin _]. contradiction.
Qed.

Lemma plqy_of_counts_error (pow : float -> float -> float)
      (ba sa : Counts) (e : exn) :
  plqy_of_counts pow ba sa = Err e -> e = KeyError.
Proof.
  unfold plqy_of_counts.
  destruct (Pd.get (fluor_total_counts sa) mean_label) as [sf|e1] eqn:Hsf;
    cbn [bind]; [|intros [= <-]; now apply get_error in Hsf].
  destruct (Pd.get (fluor_total_counts ba) mean_label) as [bf|e1] eqn:Hbf;
    cbn [bind]; [|intros [= <-]; now apply get_error in Hbf].
  destruct (Pd.get (excit_total_counts ba) mean_label) as [be|e1] eqn:Hbe;
    cbn [bind]; [|intros [= <-]; now apply get_error in Hbe].
  destruct (Pd.get (excit_total_counts sa) mean_label) as [se|e1] eqn:Hse;
    cbn [bind]; [|intros [= <-]; now apply get_error in Hse].
  rewrite (calculate_plqy_std_eq _ _ _ _ _ _ _ Hbe Hbf Hse Hsf). discriminate.
Qed.

(** X7.  Tables without a mean column cannot be analysed: when the
    blank table or the sample table has no column
    ["mean_photon_counts"], [calculate_plqy] raises a [KeyError] after
    both region integrations have succeeded and before the plot; the
    per-measurement columns alone give no estimate. *)
Theorem calculate_plqy_needs_mean_column :
  forall (pow : float -> float -> float)
         (update_plot : Pd.DataFrame -> Pd.DataFrame -> Z -> Z -> Z -> Z ->
                        PLQY -> result unit)
         (df_blank df_blank_power df_sample df_sample_power : Pd.DataFrame)
         (lbound_low lbound_high fbound_low fbound_high : Z)
         (ba sa : Counts),
    counts_region df_blank df_blank_power
                  lbound_low lbound_high fbound_low fbound_high = Ok ba ->
    counts_region df_sample df_sample_power
                  lbound_low lbound_high fbound_low fbound_high = Ok sa ->
    ~ In mean_label (Pd.labels df_blank) \/
    ~ In mean_label (Pd.labels df_sample) ->
    calculate_plqy pow update_plot
                   df_blank df_blank_power df_sample df_sample_power
                   lbound_low lbound_high fbound_low fbound_high
    = Err KeyError.
Proof.
  intros pow update_plot dfb pwb dfs pws ll lh fl fh ba sa Hba Hsa Hmiss.
  unfold calculate_plqy. rewrite Hba, Hsa. cbn [bind].
  destruct (plqy_of_counts pow ba sa) as [r|e] eqn:Hr;
    [|now rewrite (plqy_of_counts_error _ _ _ _ Hr)].
  exfalso. revert Hr. unfold plqy_of_counts.
  destruct (Pd.get (fluor_total_counts sa) mean_label) as [sf|] eqn:Hsf;
    [|discriminate].
  destruct (Pd.get (fluor_total_counts ba) mean_label) as [bf|] eqn:Hbf;
    [|discriminate].
  intros _.
  destruct (Pd.get dfb "wavelength") as [wb|e] eqn:Hwb;
    [|rewrite (counts_region_without_wavelength dfb pwb ll lh fl fh _ Hwb) in Hba;
      discriminate].
  destruct (Pd.get dfs "wavelength") as [ws|e] eqn:Hws;
    [|rewrite (counts_region_without_wavelength dfs pws ll lh fl fh _ Hws) in Hsa;
      discriminate].
  destruct (counts_region_labels _ _ _ _ _ _ _ _ Hwb Hba) as [_ Lb].
  destruct (counts_region_labels _ _ _ _ _ _ _ _ Hws Hsa) as [_ Ls].
  rewrite labels_data_columns in Lb, Ls.
  destruct Hmiss as [Hm|Hm].
  - rewrite (get_mean_of_labels _ _ Lb Hm) in Hbf. discriminate.
  - rewrite (get_mean_of_labels _ _ Ls Hm) in Hsf. discriminate.
Qed.

Lemma calculate_plqy_needs_mean_column_example :
  calculate_plqy pow_rounded plot_drawn
                 df_blank_example df_blank_power_example
                 df_no_mean_example df_power_no_mean_example
                 400 410 499 510
  = Err KeyError.
Proof.
  apply (calculate_plqy_needs_mean_column pow_rounded plot_drawn
           df_blank_example df_blank_power_example
           df_no_mean_example df_power_no_mean_example
           400 410 499 510 counts_example counts_no_mean_example).
  - vm_compute. reflexivity.
  - vm_compute. reflexivity.
  - right. vm_compute. intros H. repeat (destruct H as [H|H]; [discriminate H|]).
    exact H.
Defined.

(** * Further properties of the collection *)

(** ** Storing a column *)

Lemma replace_column_some (df r : Pd.DataFrame) (name : string)
      (col : list float) :
  replace_column df name col = Some r ->
  Pd.get r name = Ok col /\
  Pd.labels r = Pd.labels df /\
  forall n, n <> name -> Pd.get r n = Pd.get df n.
Proof.
  revert r. induction df as [|[m c] df IH]; simpl; intros r; [discriminate|].
  destruct (String.eqb_spec m name) as [->|Hne].
  - intros [= <-]. simpl. rewrite String.eqb_refl. repeat split.
    intros n Hn. destruct (String.eqb_spec name n); [congruence|reflexivity].
  - destruct (replace_column df name col) as [r'|]; [|discriminate].
    intros [= <-]. destruct (IH r' eq_refl) as (Hg & Hl & Ho). simpl.
    destruct (String.eqb_spec m name) as [E|_]; [contradiction|].
    repeat split; [exact Hg|now rewrite Hl|].
    intros n Hn. destruct (String.eqb m n); [reflexivity|now apply Ho].
Qed.

Lemma replace_column_none (df : Pd.DataFrame) (name : string)
      (col : list float) :
  replace_column df name col = None ->
  Pd.get (df ++ [(name, col)]) name = Ok col /\
  forall n, n <> name -> Pd.get (df ++ [(name, col)]) n = Pd.get df n.
Proof.
  induction df as [|[m c] df IH]; simpl.
  - intros _. rewrite String.eqb_refl. split; [reflexivity|].
    intros n Hn. destruct (String.eqb_spec name n); [congruence|reflexivity].
  - destruct (String.eqb_spec m name) as [->|Hne]; [discriminate|].
    destruct (replace_column df name col); [discriminate|]. intros _.
    destruct (IH eq_refl) as (Hg & Ho). split; [exact Hg|].
    intros n Hn. destruct (String.eqb m n); [reflexivity|now apply Ho].
Qed.

Lemma replace_column_present (df : Pd.DataFrame) (name : string)
      (col : list float) :
  In name (Pd.labels df) -> exists r, replace_column df name col = Some r.
Proof.
  induction df as [|[m c] df IH]; simpl; [contradiction|].
  destruct (String.eqb_spec m name) as [->|Hne]; [eauto|].
  intros [H|H]; [contradiction|].
  destruct (IH H) as (r & ->). eauto.
Qed.

Lemma set_column_get (df r : Pd.DataFrame) (name : string) (col : list float) :
  set_column df name col = Ok r ->
  Pd.get r name = Ok col /\
  (forall n, n <> name -> Pd.get r n = Pd.get df n) /\
  (In name (Pd.labels df) -> Pd.labels r = Pd.labels df).
Proof.
  unfold set_column. destruct df as [|c0 df0].
  - intros [= <-]. simpl. rewrite String.eqb_refl. repeat split.
    + intros n Hn. destruct (String.eqb_spec name n); [congruence|reflexivity].
    + contradiction.
  - destruct (Nat.eqb _ _); [|discriminate].
    destruct (replace_column (c0 :: df0) name col) as [r'|] eqn:Hr.
    + intros [= <-]. destruct (replace_column_some _ _ _ _ Hr) as (Hg & Hl & Ho).
      repeat split; auto.
    + intros [= <-]. destruct (replace_column_none _ _ _ Hr) as (Hg & Ho).
      repeat split; auto.
      intros Hin. destruct (replace_column_present _ _ col Hin) as (r' & Hr').
      congruence.
Qed.

(** X8.  Collecting the dark spectrum again overwrites it: after a
    second [dark_spec] the frame holds the second spectrum under
    ["dark"], has the columns it had after the first, and every other
    column is what it was before either. *)
Theorem dark_spec_overwrites :
  forall (df df1 df2 : Pd.DataFrame) (dark1 dark2 : list float),
    dark_spec df (Np.Array dark1) = Ok df1 ->
    dark_spec df1 (Np.Array dark2) = Ok df2 ->
    Pd.get df2 "dark" = Ok dark2 /\
    Pd.labels df2 = Pd.labels df1 /\
    forall n, n <> "dark" -> Pd.get df2 n = Pd.get df n.
Proof.
  intros df df1 df2 d1 d2 H1 H2. unfold dark_spec in *.
  destruct (set_column_get _ _ _ _ H1) as (G1 & O1 & _).
  destruct (set_column_get _ _ _ _ H2) as (G2 & O2 & L2).
  repeat split; [exact G2| |].
  - apply L2. exact (get_present _ _ _ G1).
  - intros n Hn. now rewrite (O2 n Hn), (O1 n Hn).
Qed.

Lemma dark_spec_overwrites_example :
  Pd.get init_df1_example "dark" = Ok dark_example /\
  Pd.labels init_df1_example
    = Pd.labels (init_df0_example ++ [("dark", raw_example)]) /\
  forall n, n <> "dark" ->
    Pd.get init_df1_example n = Pd.get init_df0_example n.
Proof.
  apply (dark_spec_overwrites
           init_df0_example (init_df0_example ++ [("dark", raw_example)])
           init_df1_example raw_example dark_example);
    vm_compute; reflexivity.
Defined.

(** ** The tables of a collection *)

Section Layout.

Variable Instr : Type.
Variable expose : Instr -> (list float * list float) * Instr.

Lemma collections_length (n k : nat) (instr : Instr) :
  List.length (fst (collections expose n k instr)) = n.
Proof.
  revert instr. induction n as [|n IH]; intros instr; simpl; [reflexivity|].
  destruct (collect_intensities expose k instr) as [r instr1].
  specialize (IH instr1).
  destruct (collections expose n k instr1) as [rest instr2]. simpl in *.
  now rewrite IH.
Qed.

(** What the loop has added to its two dictionaries when it ends without
    an exception: for every measurement, in order, the converted average
    and its power. *)
Lemma measure_loop_layout (k : nat) (init_df : Pd.DataFrame) :
  forall (remaining n : nat) (instr instr' : Instr)
         (inten power inten' power' : Pd.DataFrame),
    measure_loop expose remaining n k init_df instr inten power
    = (Ok (inten', power'), instr') ->
    exists cols : list (list float * float),
      List.length cols = remaining /\
      inten' = inten ++ meas_columns n cols /\
      power' = power ++ power_columns n cols /\
      Forall2 (fun r c => exists avg, r = Ok (avg, snd c) /\
                                      convert init_df avg = Ok (fst c))
              (fst (collections expose remaining k instr)) cols /\
      instr' = snd (collections expose remaining k instr).
Proof.
  induction remaining as [|remaining IH];
    intros n instr instr' inten power inten' power' H; simpl in H.
  - injection H as <- <- <-. exists []. simpl.
    now rewrite !app_nil_r; repeat split.
  - simpl.
    destruct (collect_intensities expose k instr)
      as [[[avg power_meas]|e] instr1]; [|discriminate].
    destruct (convert init_df avg) as [photon_counts|e] eqn:Ec;
      [|discriminate].
    destruct (IH _ _ _ _ _ _ _ H) as (cols & Hlen & Hi & Hp & Hf & Hs).
    destruct (collections expose remaining k instr1) as [rest instr2].
    exists ((photon_counts, power_meas) :: cols). simpl in *.
    repeat split.
    + now rewrite Hlen.
    + rewrite Hi, <- app_assoc. reflexivity.
    + rewrite Hp, <- app_assoc. reflexivity.
    + constructor; [|exact Hf]. exists avg. split; [reflexivity|exact Ec].
    + exact Hs.
Qed.

End Layout.

Arguments collections_length {Instr} expose n k instr.
Arguments measure_loop_layout {Instr} expose k init_df remaining n instr instr'.

(** X9.  The tables of a successful collection, column by column.  The
    spectrum table starts with the wavelength column of the
    initialization frame; then, for measurement [j] of the
    [number_of_meas] (at least one) taken in sequence, the column
    ["meas_j"] holds the conversion of the average that the [j]-th call
    of [collect_intensities] returned; the last column is the row-wise
    mean of those.  The power table has, for the same [j], the column
    ["measj_power"] with the power of that call, and last the mean of
    the powers. *)
Theorem collect_multi_layout :
  forall (Instr : Type) (expose : Instr -> (list float * list float) * Instr)
         (number_of_meas number_of_subruns : nat)
         (init_df : Pd.DataFrame) (instr instr' : Instr)
         (df df_power : Pd.DataFrame),
    collect_multi expose number_of_meas number_of_subruns init_df instr
    = (Ok (df, df_power), instr') ->
    exists (wavelength : list float) (cols : list (list float * float)),
      1 <= number_of_meas /\
      List.length cols = number_of_meas /\
      Pd.get init_df "wavelength" = Ok wavelength /\
      Forall2 (fun r c => exists avg, r = Ok (avg, snd c) /\
                                      convert init_df avg = Ok (fst c))
              (fst (collections expose number_of_meas number_of_subruns instr))
              cols /\
      instr' = snd (collections expose number_of_meas number_of_subruns instr) /\
      df = ("wavelength", wavelength)
           :: meas_columns 0 cols
           ++ [("mean_photon_counts", mean_axis1 (meas_columns 0 cols))] /\
      df_power = power_columns 0 cols
                 ++ [("laser_power_mean_uA", mean_axis1 (power_columns 0 cols))].
Proof.
  intros Instr expose n k init_df instr instr' df df_power. unfold collect_multi.
  destruct (measure_loop _ _ _ _ _ _ _ _) as [[[inten power]|e] instr1] eqn:Hm;
    [|discriminate].
  destruct (measure_loop_layout expose k init_df _ _ _ _ _ _ _ _ Hm)
    as (cols & Hlen & Hi & Hp & Hf & Hs).
  simpl in Hi, Hp. subst inten power n.
  destruct cols as [|c0 cols]; [discriminate|].
  cbn [meas_columns List.length seq combine map].
  destruct (Pd.get init_df "wavelength") as [wavelength|] eqn:Hwl;
    [|discriminate].
  cbn [bind]. intros [= <- <- <-].
  exists wavelength, (c0 :: cols).
  repeat split; try assumption. simpl. lia.
Qed.

Lemma collect_multi_layout_example :
  exists (wavelength : list float) (cols : list (list float * float)),
    1 <= 2 /\
    List.length cols = 2 /\
    Pd.get init_df_example "wavelength" = Ok wavelength /\
    Forall2 (fun r c => exists avg, r = Ok (avg, snd c) /\
                                    convert init_df_example avg = Ok (fst c))
            (fst (collections replay 2 1 tape_two_measurements)) cols /\
    [] = snd (collections replay 2 1 tape_two_measurements) /\
    fst measurement_set_example
      = ("wavelength", wavelength)
        :: meas_columns 0 cols
        ++ [("mean_photon_counts", mean_axis1 (meas_columns 0 cols))] /\
    snd measurement_set_example
      = power_columns 0 cols
        ++ [("laser_power_mean_uA", mean_axis1 (power_columns 0 cols))].
Proof.
  apply (collect_multi_layout Tape replay 2 1 init_df_example
           tape_two_measurements []
           (fst measurement_set_example) (snd measurement_set_example)).
  vm_compute. reflexivity.
Defined.

Section Exposures.

Variable Instr : Type.
Variable expose : Instr -> (list float * list float) * Instr.

Lemma sampler_trace_state_add (a b : nat) (instr : Instr) :
  snd (sampler_trace expose (a + b) instr)
  = snd (sampler_trace expose b (snd (sampler_trace expose a instr))).
Proof.
  revert instr. induction a as [|a IH]; intros instr; simpl; [reflexivity|].
  destruct (subrun expose instr) as [sample instr1].
  specialize (IH instr1).
  destruct (sampler_trace expose (a + b) instr1) as [rest instr2].
  destruct (sampler_trace expose a instr1) as [rest' instr2'].
  exact IH.
Qed.

Lemma collect_intensities_state (k : nat) (instr : Instr) :
  snd (collect_intensities expose k instr)
  = snd (sampler_trace expose k instr).
Proof.
  unfold collect_intensities. rewrite subrun_loop_trace. reflexivity.
Qed.

Lemma collections_state (n k : nat) (instr : Instr) :
  snd (collections expose n k instr)
  = snd (sampler_trace expose (n * k) instr).
Proof.
  revert instr. induction n as [|n IH]; intros instr; simpl; [reflexivity|].
  rewrite sampler_trace_state_add, <- (collect_intensities_state k instr).
  destruct (collect_intensities expose k instr) as [r instr1]. cbn [snd].
  specialize (IH instr1).
  destruct (collections expose n k instr1) as [rest instr2].
  exact IH.
Qed.

End Exposures.

(** X10.  A collection that succeeds has exposed the instruments exactly
    [number_of_meas * number_of_subruns] times, one exposure after the
    other: they are left as that many successive subruns leave them. *)
Theorem collect_multi_exposures :
  forall (Instr : Type) (expose : Instr -> (list float * list float) * Instr)
         (number_of_meas number_of_subruns : nat)
         (init_df : Pd.DataFrame) (instr instr' : Instr)
         (df df_power : Pd.DataFrame),
    collect_multi expose number_of_meas number_of_subruns init_df instr
    = (Ok (df, df_power), instr') ->
    instr' = snd (sampler_trace expose (number_of_meas * number_of_subruns)
                                instr) /\
    List.length (fst (sampler_trace expose
                                    (number_of_meas * number_of_subruns) instr))
    = number_of_meas * number_of_subruns.
Proof.
  intros Instr expose n k init_df instr instr' df df_power. unfold collect_multi.
  destruct (measure_loop _ _ _ _ _ _ _ _) as [[[inten power]|e] instr1] eqn:Hm;
    [|discriminate].
  destruct (measure_loop_layout expose k init_df _ _ _ _ _ _ _ _ Hm)
    as (cols & _ & _ & _ & _ & Hs).
  destruct inten; [discriminate|].
  destruct (Pd.get init_df "wavelength"); [|discriminate].
  cbn [bind]. intros [= _ _ <-].
  split; [now rewrite Hs, collections_state|apply sampler_trace_length].
Qed.

Lemma collect_multi_exposures_example :
  [(map F64.of_Z [99; 99; 99; 99]%Z, [F64.of_Z 1])]
    = snd (sampler_trace replay (2 * 2) tape_four_exposures) /\
  List.length (fst (sampler_trace replay (2 * 2) tape_four_exposures)) = 2 * 2.
Proof.
  apply (collect_multi_exposures Tape replay 2 2 init_df_example
           tape_four_exposures
           [(map F64.of_Z [99; 99; 99; 99]%Z, [F64.of_Z 1])]
           (fst measurement_set_four_exposures)
           (snd measurement_set_four_exposures)).
  vm_compute. reflexivity.
Defined.

(** ** What a collection needs *)

Lemma convert_needs_columns (df : Pd.DataFrame) (intensities : Np.ndarray)
      (photon_counts : list float) :
  convert df intensities = Ok photon_counts ->
  exists dark irradcal delta_x wavelength,
    Pd.get df "dark" = Ok dark /\
    Pd.get df "irradcal" = Ok irradcal /\
    Pd.get df "delta_x" = Ok delta_x /\
    Pd.get df "wavelength" = Ok wavelength.
Proof.
  unfold convert.
  destruct (Pd.get df "dark") as [dark|]; [|discriminate]. cbn [bind].
  destruct (array_op _ _ _); [|discriminate]. cbn [bind].
  destruct (Pd.get df "irradcal") as [irradcal|]; [|discriminate]. cbn [bind].
  destruct (Np.map2 F64.mul _ _); [|discriminate]. cbn [bind].
  destruct (Pd.get df "delta_x") as [delta_x|]; [|discriminate]. cbn [bind].
  destruct (Np.map2 F64.div _ _); [|discriminate]. cbn [bind].
  destruct (Pd.get df "wavelength") as [wavelength|]; [|discriminate].
  intros _. exists dark, irradcal, delta_x, wavelength. repeat split.
Qed.

(** X11.  No tables without the prerequisites: a collection returns
    tables only if at least one measurement was asked for and the
    initialization frame holds the dark spectrum and the calibration
    factors beside the wavelengths and their spacing.  A blank collected
    before the dark spectrum, or before the calibration file was loaded,
    ends in an exception. *)
Theorem collect_multi_prerequisites :
  forall (Instr : Type) (expose : Instr -> (list float * list float) * Instr)
         (number_of_meas number_of_subruns : nat)
         (init_df : Pd.DataFrame) (instr instr' : Instr)
         (df df_power : Pd.DataFrame),
    collect_multi expose number_of_meas number_of_subruns init_df instr
    = (Ok (df, df_power), instr') ->
    1 <= number_of_meas /\
    exists dark irradcal delta_x wavelength,
      Pd.get init_df "dark" = Ok dark /\
      Pd.get init_df "irradcal" = Ok irradcal /\
      Pd.get init_df "delta_x" = Ok delta_x /\
      Pd.get init_df "wavelength" = Ok wavelength.
Proof.
  intros Instr expose n k init_df instr instr' df df_power. unfold collect_multi.
  destruct (measure_loop _ _ _ _ _ _ _ _) as [[[inten power]|e] instr1] eqn:Hm;
    [|discriminate].
  destruct (measure_loop_layout expose k init_df _ _ _ _ _ _ _ _ Hm)
    as (cols & Hlen & Hi & _ & Hf & _).
  simpl in Hi. subst inten n.
  destruct cols as [|c0 cols]; [discriminate|]. intros _.
  split; [simpl; lia|].
  inversion Hf as [|r c rs cs (avg & _ & Hc) _]; subst.
  exact (convert_needs_columns _ _ _ Hc).
Qed.

Lemma collect_multi_prerequisites_example :
  1 <= 2 /\
  exists dark irradcal delta_x wavelength,
    Pd.get init_df_example "dark" = Ok dark /\
    Pd.get init_df_example "irradcal" = Ok irradcal /\
    Pd.get init_df_example "delta_x" = Ok delta_x /\
    Pd.get init_df_example "wavelength" = Ok wavelength.
Proof.
  apply (collect_multi_prerequisites Tape replay 2 1 init_df_example
           tape_two_measurements []
           (fst measurement_set_example) (snd measurement_set_example)).
  vm_compute. reflexivity.
Defined.

(** ** The conversion on an initialized frame *)

(** The conversion on any frame that holds the four columns, all as long
    as the raw spectrum. *)
Lemma convert_on_frame (df : Pd.DataFrame)
      (raw dark irradcal delta_x wavelength : list float) :
  Pd.get df "dark" = Ok dark ->
  Pd.get df "irradcal" = Ok irradcal ->
  Pd.get df "delta_x" = Ok delta_x ->
  Pd.get df "wavelength" = Ok wavelength ->
  List.length dark = List.length wavelength ->
  List.length irradcal = List.length wavelength ->
  List.length delta_x = List.length wavelength ->
  List.length raw = List.length wavelength ->
  exists photon_counts,
    convert df (Np.Array raw) = Ok photon_counts /\
    List.length photon_counts = List.length wavelength /\
    forall i r d c x w,
      nth_error raw i = Some r ->
      nth_error dark i = Some d ->
      nth_error irradcal i = Some c ->
      nth_error delta_x i = Some x ->
      nth_error wavelength i = Some w ->
      nth_error photon_counts i
      = Some (((((r - d) * c) / x) * w) / F64.of_Z 1000)%f64.
Proof.
  intros Gd Gi Gx Gw Ld Li Lx Lr. unfold convert.
  rewrite Gd, Gi, Gx, Gw. cbn [bind].
  rewrite array_op_same_length by congruence.
  destruct (Np.map2 F64.sub raw dark) as [t1|] eqn:E1;
    [|rewrite map2_combine in E1 by congruence; discriminate].
  destruct (map2_length _ _ _ _ E1) as [L1 _]. cbn [bind].
  destruct (Np.map2 F64.mul t1 irradcal) as [t2|] eqn:E2;
    [|rewrite map2_combine in E2 by congruence; discriminate].
  destruct (map2_length _ _ _ _ E2) as [L2 _]. cbn [bind].
  destruct (Np.map2 F64.div t2 delta_x) as [t3|] eqn:E3;
    [|rewrite map2_combine in E3 by congruence; discriminate].
  destruct (map2_length _ _ _ _ E3) as [L3 _]. cbn [bind].
  destruct (Np.map2 F64.mul t3 wavelength) as [t4|] eqn:E4;
    [|rewrite map2_combine in E4 by congruence; discriminate].
  destruct (map2_length _ _ _ _ E4) as [L4 _]. cbn [bind].
  eexists. split; [reflexivity|]. split; [rewrite length_map; congruence|].
  intros i r d c x w Hr Hd Hc Hx Hw.
  pose proof (map2_nth_error _ _ _ _ _ _ _ E1 Hr Hd) as N1.
  pose proof (map2_nth_error _ _ _ _ _ _ _ E2 N1 Hc) as N2.
  pose proof (map2_nth_error _ _ _ _ _ _ _ E3 N2 Hx) as N3.
  pose proof (map2_nth_error _ _ _ _ _ _ _ E4 N3 Hw) as N4.
  rewrite nth_error_map, N4. reflexivity.
Qed.

Lemma reindex_length (n : nat) (col : list float) :
  List.length (reindex n col) = n.
Proof.
  unfold reindex. rewrite length_app, length_firstn, repeat_length. lia.
Qed.

Lemma reindex_tail (n i : nat) (col : list float) :
  List.length col <= i -> i < n ->
  nth_error (reindex n col) i = Some F64.nan.
Proof.
  intros Hi Hn. unfold reindex.
  rewrite firstn_all2 by lia. rewrite nth_error_app2 by exact Hi.
  apply nth_error_repeat. lia.
Qed.

Lemma reindex_head (n i : nat) (col : list float) :
  i < n -> i < List.length col ->
  nth_error (reindex n col) i = nth_error col i.
Proof.
  intros Hn Hi. unfold reindex.
  rewrite nth_error_app1 by (rewrite length_firstn; lia).
  rewrite nth_error_firstn.
  destruct (Nat.ltb_spec i n); [reflexivity|lia].
Qed.

(** The frame after [init_spec], [dark_spec] and [calibration_file],
    whatever the length of the calibration file. *)
Lemma initialized_frame_any_file (axis dark factors : list float)
      (df0 df1 df : Pd.DataFrame) :
  init_spec axis = Ok df0 ->
  dark_spec df0 (Np.Array dark) = Ok df1 ->
  calibration_file df1 factors = Ok df ->
  exists delta_x,
    Np.gradient axis = Ok delta_x /\
    List.length delta_x = List.length axis /\
    List.length dark = List.length axis /\
    df = [("wavelength", axis); ("delta_x", delta_x); ("dark", dark);
          ("irradcal", reindex (List.length axis) factors)].
Proof.
  unfold init_spec.
  destruct (Np.gradient axis) as [delta_x|] eqn:Hg; [|discriminate].
  cbn [bind]. intros [= <-].
  assert (Hdx : List.length delta_x = List.length axis).
  { destruct axis as [|a0 [|a1 rest]]; try discriminate.
    injection Hg as <-. simpl. now rewrite gradient_from_length. }
  unfold dark_spec, set_column. cbn [nrows snd].
  destruct (Nat.eqb_spec (List.length dark) (List.length axis)) as [Hd|];
    [|discriminate].
  cbn. intros [= <-].
  unfold calibration_file, set_column. cbn [nrows snd].
  rewrite reindex_length, Nat.eqb_refl. cbn. intros [= <-].
  exists delta_x. repeat split; assumption.
Qed.

(** X12.  A calibration file shorter than the axis is not rejected: the
    frame is filled with NaN where the file has no factor, the
    conversion succeeds, follows the formula where the file has a
    factor, and is NaN at every point of the axis beyond the end of the
    file. *)
Theorem short_calibration_gives_nan :
  forall (axis dark factors raw : list float) (df0 df1 df : Pd.DataFrame),
    init_spec axis = Ok df0 ->
    dark_spec df0 (Np.Array dark) = Ok df1 ->
    calibration_file df1 factors = Ok df ->
    List.length raw = List.length axis ->
    exists delta_x photon_counts,
      Pd.get df "delta_x" = Ok delta_x /\
      convert df (Np.Array raw) = Ok photon_counts /\
      List.length photon_counts = List.length axis /\
      (forall i, List.length factors <= i -> i < List.length axis ->
                 nth_error photon_counts i = Some F64.nan) /\
      (forall i r d c x w,
          i < List.length axis ->
          nth_error raw i = Some r ->
          nth_error dark i = Some d ->
          nth_error factors i = Some c ->
          nth_error delta_x i = Some x ->
          nth_error axis i = Some w ->
          nth_error photon_counts i
          = Some (((((r - d) * c) / x) * w) / F64.of_Z 1000)%f64).
Proof.
  intros axis dark factors raw df0 df1 df H0 H1 H2 Hr.
  destruct (initialized_frame_any_file _ _ _ _ _ _ H0 H1 H2)
    as (delta_x & Hg & Lx & Ld & ->).
  destruct (convert_on_frame
              [("wavelength", axis); ("delta_x", delta_x); ("dark", dark);
               ("irradcal", reindex (List.length axis) factors)]
              raw dark (reindex (List.length axis) factors) delta_x axis)
    as (out & Hc & Lo & Hp);
    try reflexivity; try assumption; [apply reindex_length|].
  exists delta_x, out. split; [reflexivity|]. split; [exact Hc|].
  split; [exact Lo|]. split.
  - intros i Hi Hn.
    destruct (nth_error raw i) as [r|] eqn:Er;
      [|apply nth_error_None in Er; lia].
    destruct (nth_error dark i) as [d|] eqn:Ed;
      [|apply nth_error_None in Ed; lia].
    destruct (nth_error delta_x i) as [x|] eqn:Ex;
      [|apply nth_error_None in Ex; lia].
    destruct (nth_error axis i) as [w|] eqn:Ew;
      [|apply nth_error_None in Ew; lia].
    rewrite (Hp i r d F64.nan x w Er Ed (reindex_tail _ _ _ Hi Hn) Ex Ew).
    now rewrite mul_nan_r.
  - intros i r d c x w Hn Er Ed Ec Ex Ew.
    apply (Hp i r d c x w Er Ed); try assumption.
    rewrite reindex_head; [exact Ec|exact Hn|].
    apply nth_error_Some. congruence.
Qed.

Lemma short_calibration_example :
  exists delta_x photon_counts,
    Pd.get init_df_short_example "delta_x" = Ok delta_x /\
    convert init_df_short_example (Np.Array raw_example) = Ok photon_counts /\
    List.length photon_counts = List.length axis_example /\
    (forall i, List.length [F64.of_Z 3; F64.of_Z 3] <= i ->
               i < List.length axis_example ->
               nth_error photon_counts i = Some F64.nan) /\
    (forall i r d c x w,
        i < List.length axis_example ->
        nth_error raw_example i = Some r ->
        nth_error dark_example i = Some d ->
        nth_error [F64.of_Z 3; F64.of_Z 3] i = Some c ->
        nth_error delta_x i = Some x ->
        nth_error axis_example i = Some w ->
        nth_error photon_counts i
        = Some (((((r - d) * c) / x) * w) / F64.of_Z 1000)%f64).
Proof.
  apply (short_calibration_gives_nan
           axis_example dark_example [F64.of_Z 3; F64.of_Z 3] raw_example
           init_df0_example init_df1_example init_df_short_example);
    vm_compute; reflexivity.
Defined.

(** X13.  The dark spectrum and the calibration file may be stored in
    either order: the two frames convert every spectrum alike. *)
Theorem convert_any_order_of_preparation :
  forall (axis dark factors : list float)
         (df0 dfd dfdc dfc dfcd : Pd.DataFrame) (intensities : Np.ndarray),
    init_spec axis = Ok df0 ->
    dark_spec df0 (Np.Array dark) = Ok dfd ->
    calibration_file dfd factors = Ok dfdc ->
    calibration_file df0 factors = Ok dfc ->
    dark_spec dfc (Np.Array dark) = Ok dfcd ->
    convert dfdc intensities = convert dfcd intensities.
Proof.
  intros axis dark factors df0 dfd dfdc dfc dfcd x H0 Hd Hdc Hc Hcd.
  destruct (initialized_frame_any_file _ _ _ _ _ _ H0 Hd Hdc)
    as (delta_x & Hg & Lx & Ld & ->).
  revert H0 Hc Hcd. unfold init_spec. rewrite Hg. cbn [bind]. intros [= <-].
  unfold calibration_file, set_column. cbn [nrows snd].
  rewrite reindex_length, Nat.eqb_refl. cbn. intros [= <-].
  unfold dark_spec, set_column. cbn [nrows snd]. rewrite Ld, Nat.eqb_refl.
  cbn. intros [= <-]. reflexivity.
Qed.

Lemma convert_any_order_example :
  convert init_df_example (Np.Array raw_example)
  = convert [("wavelength", axis_example);
             ("delta_x", [F64.of_Z 2; (F64.of_Z 5 / F64.of_Z 2)%f64;
                          (F64.of_Z 7 / F64.of_Z 2)%f64; F64.of_Z 4]);
             ("irradcal", factors_example); ("dark", dark_example)]
            (Np.Array raw_example).
Proof.
  apply (convert_any_order_of_preparation
           axis_example dark_example factors_example
           init_df0_example init_df1_example init_df_example
           (init_df0_example ++ [("irradcal", factors_example)]));
    vm_compute; reflexivity.
Defined.

(** X14.  A raw spectrum that has neither the length of the axis nor a
    single value is not cut or stretched: its conversion raises a
    [ValueError]. *)
Theorem convert_length_mismatch :
  forall (df : Pd.DataFrame) (raw dark : list float),
    Pd.get df "dark" = Ok dark ->
    List.length raw <> List.length dark ->
    List.length raw <> 1 ->
    convert df (Np.Array raw) = Err ValueError.
Proof.
  intros df raw dark Gd Hne H1. unfold convert. rewrite Gd. cbn [bind].
  unfold array_op.
  destruct raw as [|r0 [|r1 raw]]; [|simpl in H1; congruence|];
    now rewrite map2_length_mismatch.
Qed.

Lemma convert_length_mismatch_example :
  convert init_df_example (Np.Array [F64.of_Z 11; F64.of_Z 21])
  = Err ValueError.
Proof.
  apply (convert_length_mismatch init_df_example
           [F64.of_Z 11; F64.of_Z 21] dark_example).
  - reflexivity.
  - vm_compute. lia.
  - vm_compute. lia.
Defined.

(** ** No subruns *)

Lemma map2_repeat_nan (op : float -> float -> float) (ys : list float) :
  (forall y, op F64.nan y = F64.nan) ->
  Np.map2 op (repeat F64.nan (List.length ys)) ys
  = Ok (repeat F64.nan (List.length ys)).
Proof.
  intros Hop. induction ys as [|y ys IH]; simpl; [reflexivity|].
  now rewrite IH, Hop.
Qed.

(** The conversion of the scalar NaN: NaN at every point of the axis. *)
Lemma convert_scalar_nan (df : Pd.DataFrame)
      (dark irradcal delta_x wavelength : list float) :
  Pd.get df "dark" = Ok dark ->
  Pd.get df "irradcal" = Ok irradcal ->
  Pd.get df "delta_x" = Ok delta_x ->
  Pd.get df "wavelength" = Ok wavelength ->
  List.length dark = List.length wavelength ->
  List.length irradcal = List.length wavelength ->
  List.length delta_x = List.length wavelength ->
  convert df (Np.Scalar F64.nan)
  = Ok (repeat F64.nan (List.length wavelength)).
Proof.
  intros Gd Gi Gx Gw Ld Li Lx. unfold convert.
  rewrite Gd, Gi, Gx, Gw. cbn [bind array_op].
  rewrite (map_ext (F64.sub F64.nan) (fun _ => F64.nan)) by reflexivity.
  rewrite map_const, Ld, <- Li, map2_repeat_nan by reflexivity. cbn [bind].
  rewrite Li, <- Lx, map2_repeat_nan by reflexivity. cbn [bind].
  rewrite Lx, map2_repeat_nan by reflexivity. cbn [bind].
  now rewrite map_repeat.
Qed.

Lemma nanmean_all_nan (only_row : bool) (n : nat) :
  nanmean only_row (repeat F64.nan n) = F64.nan.
Proof.
  unfold nanmean.
  replace (filter _ (repeat F64.nan n)) with (@nil float); [reflexivity|].
  induction n as [|n IH]; simpl; [reflexivity|exact IH].
Qed.

(** The row-wise mean of columns of NaN, at least one, is NaN at every
    row. *)
Lemma mean_axis1_all_nan (df : Pd.DataFrame) (rows : nat) :
  df <> [] ->
  Forall (fun c => snd c = repeat F64.nan rows) df ->
  mean_axis1 df = repeat F64.nan rows.
Proof.
  intros Hne Hall. unfold mean_axis1.
  assert (Hn : nrows df = rows).
  { destruct df as [|c df]; [congruence|].
    apply Forall_cons_iff in Hall as [H _]. simpl. now rewrite H, repeat_length. }
  rewrite Hn.
  rewrite (map_ext_in _ (fun _ => F64.nan)).
  - now rewrite map_const, length_seq.
  - intros i Hi. apply in_seq in Hi.
    rewrite (map_ext_in _ (fun _ => F64.nan)).
    + rewrite map_const. apply nanmean_all_nan.
    + intros c Hc. rewrite Forall_forall in Hall. rewrite (Hall c Hc).
      apply nth_repeat.
Qed.

Section NoSubruns.

Variable Instr : Type.
Variable expose : Instr -> (list float * list float) * Instr.

Lemma measure_loop_no_subruns (init_df : Pd.DataFrame) (rows : nat) :
  convert init_df (Np.Scalar F64.nan) = Ok (repeat F64.nan rows) ->
  forall (remaining n : nat) (instr : Instr) (inten power : Pd.DataFrame),
    measure_loop expose remaining n 0 init_df instr inten power
    = (Ok (inten ++ meas_columns n (repeat (repeat F64.nan rows, F64.nan)
                                           remaining),
           power ++ power_columns n (repeat (repeat F64.nan rows, F64.nan)
                                            remaining)),
       instr).
Proof.
  intros Hc. induction remaining as [|remaining IH];
    intros n instr inten power.
  - simpl. now rewrite !app_nil_r.
  - cbn [measure_loop]. unfold collect_intensities. cbn [subrun_loop].
    change (Np.mean_axis0 []) with (Ok (Np.Scalar F64.nan)). cbn [bind].
    change (Np.mean []) with F64.nan. rewrite Hc, IH.
    unfold meas_columns, power_columns. cbn [repeat List.length seq combine map].
    now rewrite <- !app_assoc.
Qed.

End NoSubruns.

(** X15.  With the number of subruns at zero a collection goes through
    without touching the instruments: it returns the tables, and every
    column of the spectrum table but the wavelength, the mean column
    included, is NaN from the first row to the last. *)
Theorem collect_multi_no_subruns :
  forall (Instr : Type) (expose : Instr -> (list float * list float) * Instr)
         (number_of_meas : nat) (init_df : Pd.DataFrame) (instr : Instr)
         (dark irradcal delta_x wavelength : list float),
    1 <= number_of_meas ->
    Pd.get init_df "dark" = Ok dark ->
    Pd.get init_df "irradcal" = Ok irradcal ->
    Pd.get init_df "delta_x" = Ok delta_x ->
    Pd.get init_df "wavelength" = Ok wavelength ->
    List.length dark = List.length wavelength ->
    List.length irradcal = List.length wavelength ->
    List.length delta_x = List.length wavelength ->
    exists df df_power,
      collect_multi expose number_of_meas 0 init_df instr
      = (Ok (df, df_power), instr) /\
      List.length df = number_of_meas + 2 /\
      forall c, In c df -> fst c <> "wavelength" ->
                snd c = repeat F64.nan (List.length wavelength).
Proof.
  intros Instr expose n init_df instr dark irr dx wl Hn Gd Gi Gx Gw Ld Li Lx.
  pose proof (convert_scalar_nan _ _ _ _ _ Gd Gi Gx Gw Ld Li Lx) as Hc.
  unfold collect_multi.
  rewrite (measure_loop_no_subruns Instr expose init_df _ Hc). cbn [app].
  destruct n as [|n]; [lia|].
  set (cols := meas_columns 0 _).
  assert (Hall : Forall (fun c => snd c = repeat F64.nan (List.length wl)) cols).
  { unfold cols, meas_columns. rewrite Forall_map. apply Forall_forall.
    intros [j [col p]] Hin. apply in_combine_r in Hin.
    apply repeat_spec in Hin. now injection Hin as <- _. }
  assert (Hlen : List.length cols = S n).
  { unfold cols, meas_columns.
    now rewrite length_map, length_combine, length_seq, !repeat_length,
      Nat.min_id. }
  destruct cols as [|c0 cols'] eqn:Ec; [discriminate|].
  rewrite Gw. cbn [bind]. do 2 eexists. split; [reflexivity|]. split.
  - cbn [List.length]. rewrite length_app. simpl in *. lia.
  - intros c [<-|Hin] Hne; [now simpl in Hne|].
    apply in_app_or in Hin as [Hin|[<-|[]]].
    + rewrite Forall_forall in Hall. now apply Hall.
    + cbn [snd]. apply mean_axis1_all_nan; [discriminate|exact Hall].
Qed.

Lemma collect_multi_no_subruns_example :
  exists df df_power,
    collect_multi replay 2 0 init_df_example tape_two_measurements
    = (Ok (df, df_power), tape_two_measurements) /\
    List.length df = 2 + 2 /\
    forall c, In c df -> fst c <> "wavelength" ->
              snd c = repeat F64.nan (List.length axis_example).
Proof.
  apply (collect_multi_no_subruns Tape replay 2 init_df_example
           tape_two_measurements dark_example factors_example
           [F64.of_Z 2; (F64.of_Z 5 / F64.of_Z 2)%f64;
            (F64.of_Z 7 / F64.of_Z 2)%f64; F64.of_Z 4]
           axis_example); try reflexivity.
  lia.
Defined.

(** * Further properties of the files *)

Section Loading.

Variable repr : float -> string.
Variable parse : string -> float.

Lemma load_power_two_lines (l0 l1 : Line) (rest : File) :
  load_power parse (l0 :: l1 :: rest) = load_power parse [l0; l1].
Proof.
  unfold load_power, read_csv.
  replace (keep_lines (fun x => negb (existsb (Nat.eqb x) [0; 1])) 0
                      (l0 :: l1 :: rest))
    with [l0; l1]; [reflexivity|].
  cbn [keep_lines existsb Nat.eqb orb negb].
  rewrite keep_lines_all; [reflexivity|].
  intros m Hm. destruct m as [|[|m]]; try lia. reflexivity.
Qed.

(** X16.  A collection appended to a file that already holds two lines
    or more is invisible to the power read: the power table loaded from
    the file is the one its first two lines held before; the powers of
    the new collection are in the file and are never read. *)
Theorem appended_power_table_is_not_read :
  forall (existing : File) (df_power df : Pd.DataFrame),
    2 <= List.length existing ->
    load_power parse (save repr existing df_power df)
    = load_power parse existing.
Proof.
  intros existing df_power df Hlen. unfold save.
  destruct existing as [|l0 [|l1 rest]]; try (simpl in Hlen; lia).
  cbn [app].
  transitivity (load_power parse [l0; l1]);
    [apply load_power_two_lines | symmetry; apply load_power_two_lines].
Qed.

(** X17.  A file of three lines or fewer holds no spectrum table, and an
    empty file no power table: loading raises the [ValueError] of an
    empty read, it does not return an empty table. *)
Theorem short_file_cannot_be_loaded :
  forall (file : File),
    List.length file <= 3 ->
    load_spectrum parse file = Err ValueError /\
    load_power parse [] = Err ValueError.
Proof.
  intros file Hlen. split; [|reflexivity].
  unfold load_spectrum, read_csv.
  destruct file as [|l0 [|l1 [|l2 [|l3 file]]]]; try reflexivity.
  simpl in Hlen. lia.
Qed.

End Loading.

Lemma appended_power_table_example :
  load_power exact_parse
    (save exact_repr
          (save exact_repr [] df_power_single df_blank_single)
          df_blank_power_example df_blank_example)
  = load_power exact_parse
      (save exact_repr [] df_power_single df_blank_single).
Proof.
  apply (appended_power_table_is_not_read exact_repr exact_parse
           (save exact_repr [] df_power_single df_blank_single)
           df_blank_power_example df_blank_example).
  vm_compute. lia.
Defined.

Lemma short_file_example :
  load_spectrum exact_parse
    (to_csv exact_repr df_power_single ++ [[]]) = Err ValueError /\
  load_power exact_parse [] = Err ValueError.
Proof.
  apply (short_file_cannot_be_loaded exact_parse
           (to_csv exact_repr df_power_single ++ [[]])).
  vm_compute. lia.
Defined.

(** * Properties of the polling loop *)

Ltac loop_cases H :=
  repeat match type of H with
         | context [match ?x with _ => _ end] =>
             lazymatch x with
             | context [match _ with _ => _ end] => fail
             | _ => destruct x eqn:?
             end
         end.

(** X18.  One pass serves one request at most, by priority, and forgets
    the others: a pass that ends without an exception leaves the three
    request flags cleared and the live-view flag as it was; the table of
    the initialization frame changes only when a dark spectrum was
    requested, the blank tables only when a blank was requested and no
    dark spectrum, the sample tables only when a sample was requested and
    neither of the other two. *)
Theorem collect_data_loop_serves_one_request :
  forall (repr : float -> string) (parse : string -> float)
         (Instr : Type) (expose : Instr -> (list float * list float) * Instr)
         (g g' : Gui Instr) (r : result unit),
    collect_data_loop repr parse expose g = (r, g') ->
    (r = Ok tt ->
     collect_dark_bool g' = false /\ collect_blank_bool g' = false /\
     collect_sample_bool g' = false /\
     live_view_bool g' = live_view_bool g) /\
    (collect_dark_bool g = false ->
     initialize_frame_df g' = initialize_frame_df g) /\
    (collect_dark_bool g = true \/ collect_blank_bool g = false ->
     df_blank g' = df_blank g /\ df_blank_power g' = df_blank_power g) /\
    (collect_dark_bool g = true \/ collect_blank_bool g = true \/
     collect_sample_bool g = false ->
     df_sample g' = df_sample g /\ df_sample_power g' = df_sample_power g).
Proof.
  intros repr parse Instr expose g g' r H.
  unfold collect_data_loop, dark_spec_method, collect_blank_method,
    collect_sample_method in H.
  destruct (collect_dark_bool g) eqn:Hd, (collect_blank_bool g) eqn:Hb,
    (collect_sample_bool g) eqn:Hs, (live_view_bool g) eqn:Hl;
    cbn [orb] in H; loop_cases H;
    repeat match goal with
           | E : (_, _) = (_, _) |- _ => inversion E; clear E; subst
           end;
    cbn; rewrite ?Hd, ?Hb, ?Hs, ?Hl;
    repeat split; intros; try reflexivity; try assumption;
    try discriminate;
    repeat match goal with
           | D : _ \/ _ |- _ => destruct D
           end; discriminate.
Qed.

Lemma collect_data_loop_serves_one_request_example :
  (Ok tt = Ok tt ->
   collect_dark_bool
     (snd (collect_data_loop exact_repr exact_parse replay
             (collect_blank_bool_true
                (collect_dark_bool_true gui_started_example)))) = false /\
   collect_blank_bool
     (snd (collect_data_loop exact_repr exact_parse replay
             (collect_blank_bool_true
                (collect_dark_bool_true gui_started_example)))) = false /\
   collect_sample_bool
     (snd (collect_data_loop exact_repr exact_parse replay
             (collect_blank_bool_true
                (collect_dark_bool_true gui_started_example)))) = false /\
   live_view_bool
     (snd (collect_data_loop exact_repr exact_parse replay
             (collect_blank_bool_true
                (collect_dark_bool_true gui_started_example))))
   = live_view_bool
       (collect_blank_bool_true
          (collect_dark_bool_true gui_started_example))) /\
  df_blank
    (snd (collect_data_loop exact_repr exact_parse replay
            (collect_blank_bool_true
               (collect_dark_bool_true gui_started_example)))) = None.
Proof.
  pose proof (collect_data_loop_serves_one_request
                exact_repr exact_parse Tape replay
                (collect_blank_bool_true
                   (collect_dark_bool_true gui_started_example))
                (snd (collect_data_loop exact_repr exact_parse replay
                        (collect_blank_bool_true
                           (collect_dark_bool_true gui_started_example))))
                (Ok tt)) as H.
  destruct H as (Hflags & _ & Hblank & _); [vm_compute; reflexivity|].
  split; [exact Hflags|].
  destruct Hblank as [Hb _]; [left; reflexivity|].
  rewrite Hb. reflexivity.
Defined.

(** ** A collection before the dark spectrum *)

Lemma collect_multi_without_dark (Instr : Type)
      (expose : Instr -> (list float * list float) * Instr)
      (number_of_meas number_of_subruns : nat)
      (init_df : Pd.DataFrame) (instr : Instr) (e0 : exn) :
  Pd.get init_df "dark" = Err e0 ->
  exists e instr',
    collect_multi expose number_of_meas number_of_subruns init_df instr
    = (Err e, instr').
Proof.
  intros Hdark.
  destruct (collect_multi expose number_of_meas number_of_subruns init_df instr)
    as [[[df df_power]|e] instr'] eqn:H; [|now exists e, instr'].
  exfalso. revert H. unfold collect_multi.
  destruct (measure_loop _ _ _ _ _ _ _ _) as [[[inten power]|e] instr1] eqn:Hm;
    [|discriminate].
  destruct (measure_loop_layout expose number_of_subruns init_df
              _ _ _ _ _ _ _ _ Hm)
    as (cols & Hlen & Hi & _ & Hf & _).
  simpl in Hi. subst inten number_of_meas.
  destruct cols as [|c0 cols]; [discriminate|]. intros _.
  inversion Hf as [|r c rs cs (avg & _ & Hc) _]; subst.
  destruct (convert_needs_columns _ _ _ Hc) as (dark & irradcal & delta_x & wavelength & Hd & _).
  congruence.
Qed.

(** X19.  A blank or a sample requested before the dark spectrum was
    stored ends the loop: the pass raises, no further pass is scheduled,
    the request flags stay set and no table has changed; only the
    instruments have moved on. *)
Theorem collection_before_dark_ends_loop :
  forall (repr : float -> string) (parse : string -> float)
         (Instr : Type) (expose : Instr -> (list float * list float) * Instr)
         (g : Gui Instr),
    Pd.get (initialize_frame_df g) "dark" = Err KeyError ->
    collect_dark_bool g = false ->
    collect_blank_bool g = true \/ collect_sample_bool g = true ->
    exists e instr',
      collect_data_loop repr parse expose g
      = (Err e, set_instruments instr' g).
Proof.
  intros repr parse Instr expose g Hdark Hd Hreq.
  destruct (collect_multi_without_dark Instr expose (entry_number_meas g)
              (entry_subruns g) (initialize_frame_df g) (instruments g)
              KeyError Hdark) as (e & instr' & Hm).
  exists e, instr'.
  unfold collect_data_loop, collect_blank_method, collect_sample_method.
  rewrite Hd, Hm.
  destruct (collect_blank_bool g) eqn:Hb; [reflexivity|].
  destruct Hreq as [Hreq|Hreq]; [discriminate|].
  now rewrite Hreq.
Qed.

Lemma collection_before_dark_example :
  exists e instr',
    collect_data_loop exact_repr exact_parse replay
      (collect_blank_bool_true gui_started_example)
    = (Err e, set_instruments instr'
                (collect_blank_bool_true gui_started_example)).
Proof.
  apply (collection_before_dark_ends_loop exact_repr exact_parse Tape replay
           (collect_blank_bool_true gui_started_example)).
  - vm_compute. reflexivity.
  - vm_compute. reflexivity.
  - left. vm_compute. reflexivity.
Defined.

(** * From the collection to the yield *)

Lemma tables_agree_labels (close : float -> float -> Prop)
      (a b : Pd.DataFrame) :
  tables_agree close a b -> Pd.labels a = Pd.labels b.
Proof.
  unfold tables_agree, Pd.labels.
  induction 1 as [|ca cb a b [Hl _] _ IH]; simpl; [reflexivity|].
  now rewrite Hl, IH.
Qed.

Lemma tables_agree_lengths (close : float -> float -> Prop)
      (a b : Pd.DataFrame) (n : nat) :
  tables_agree close a b ->
  Forall (fun c => List.length (snd c) = n) b ->
  Forall (fun c => List.length (snd c) = n) a.
Proof.
  unfold tables_agree.
  induction 1 as [|ca cb a b [_ Hc] _ IH]; intros Hb; constructor.
  - apply Forall_cons_iff in Hb as [Hn _].
    now rewrite (Forall2_length Hc).
  - apply IH. now apply Forall_cons_iff in Hb as [_ Hb].
Qed.

Lemma get_in_labels {A} (t : list (string * A)) (l : string) :
  In l (Pd.labels t) -> exists v, Pd.get t l = Ok v.
Proof.
  induction t as [|[n v] t IH]; simpl; [intros []|].
  intros [->|Hin].
  - rewrite String.eqb_refl. now exists v.
  - destruct (String.eqb n l); [now exists v|now apply IH].
Qed.

Lemma first_row_ok (df : Pd.DataFrame) :
  Forall (fun c => List.length (snd c) = 1) df ->
  exists powers,
    Pd.first_row df = Ok powers /\ List.length powers = List.length df.
Proof.
  induction df as [|[n c] df IH]; intros H.
  - now exists [].
  - apply Forall_cons_iff in H as [Hc H]. simpl in Hc.
    destruct (IH H) as (ps & Hps & Hlen).
    destruct c as [|v c]; [discriminate|].
    exists (v :: ps). simpl. rewrite Hps. simpl. now rewrite Hlen.
Qed.

Lemma meas_columns_not_wavelength (n : nat) (cols : list (list float * float)) :
  filter (fun l => negb (String.eqb l "wavelength"))
         (Pd.labels (meas_columns n cols))
  = Pd.labels (meas_columns n cols).
Proof.
  apply filter_all. unfold Pd.labels, meas_columns.
  rewrite map_map. apply Forall_map. apply Forall_forall.
  intros jc _. reflexivity.
Qed.

(** The tables of a collection as the analysis frame loads them: the
    wavelength column first and every column as long as it, the mean
    column among the others, and one power for each of the others. *)
Lemma collected_tables_loaded (repr : float -> string)
      (parse : string -> float) (Instr : Type)
      (expose : Instr -> (list float * list float) * Instr)
      (number_of_meas number_of_subruns : nat)
      (init_df : Pd.DataFrame) (instr instr' : Instr)
      (collected collected_power df df_power : Pd.DataFrame) :
  collect_multi expose number_of_meas number_of_subruns init_df instr
  = (Ok (collected, collected_power), instr') ->
  load_spectrum parse (save repr [] collected_power collected) = Ok df ->
  load_power parse (save repr [] collected_power collected) = Ok df_power ->
  exists wavelength powers,
    Pd.get df "wavelength" = Ok wavelength /\
    Forall (fun c => List.length (snd c) = List.length wavelength) df /\
    In mean_label (Pd.labels (data_columns df)) /\
    Pd.loc0 df_power = Ok powers /\
    List.length powers = List.length (data_columns df).
Proof.
  intros Hc Hs Hp.
  destruct (collect_multi_shape _ _ _ _ _ _ _ _ _ Hc)
    as (Hdc & Hrect & Hpc & Hp1).
  destruct (save_load_tables repr parse (fun _ _ => True)
              collected_power collected Hpc Hp1 Hdc Hrect)
    as (df' & df_power' & Hs' & Hp' & As & Ap).
  { apply Forall_forall. intros c _. apply Forall_forall. now intros. }
  { apply Forall_forall. intros c _. apply Forall_forall. now intros. }
  rewrite Hs in Hs'. rewrite Hp in Hp'.
  injection Hs' as <-. injection Hp' as <-.
  pose proof (tables_agree_labels _ _ _ As) as Ldf.
  pose proof (tables_agree_labels _ _ _ Ap) as Lpw.
  pose proof (tables_agree_lengths _ _ _ _ As Hrect) as Rdf.
  pose proof (tables_agree_lengths _ _ _ _ Ap Hp1) as Rpw.
  revert Hc. unfold collect_multi.
  destruct (measure_loop _ _ _ _ _ _ _ _) as [[[inten power]|e] instr1] eqn:Hm;
    [|discriminate].
  destruct (measure_loop_layout expose number_of_subruns init_df
              _ _ _ _ _ _ _ _ Hm)
    as (cols & Hlen & Hi & Hpo & _ & _).
  simpl in Hi, Hpo. subst inten power number_of_meas.
  destruct cols as [|c0 cols]; [discriminate|].
  cbn [meas_columns List.length seq combine map].
  destruct (Pd.get init_df "wavelength") as [wl|] eqn:Hwl; [|discriminate].
  cbn [bind]. intros [= Hcol Hpow _].
  fold (meas_columns 0 (c0 :: cols)) in Hcol.
  assert (Ld : Pd.labels df
               = "wavelength"
                 :: Pd.labels (meas_columns 0 (c0 :: cols)) ++ [mean_label]).
  { rewrite Ldf, <- Hcol. unfold Pd.labels. simpl.
    now rewrite map_app. }
  assert (Lc : Pd.labels (data_columns df)
               = Pd.labels (meas_columns 0 (c0 :: cols)) ++ [mean_label]).
  { rewrite labels_data_columns, Ld. cbn [filter String.eqb Ascii.eqb
      Bool.eqb negb]. rewrite filter_app, meas_columns_not_wavelength.
    reflexivity. }
  destruct df as [|[l0 w] df]; [discriminate|].
  injection Ld as -> Ld.
  assert (Hn : List.length w = nrows collected).
  { apply Forall_cons_iff in Rdf as [H _]. exact H. }
  destruct (first_row_ok df_power Rpw) as (powers & Hpw & Hpl).
  exists w, powers.
  split; [reflexivity|]. split; [|split; [|split]].
  - now rewrite Hn.
  - rewrite Lc. apply in_or_app. right. now left.
  - destruct df_power; [|exact Hpw].
    exfalso. rewrite <- Hpow in Lpw. simpl in Lpw. discriminate Lpw.
  - rewrite Hpl.
    transitivity (List.length (Pd.labels df_power));
      [unfold Pd.labels; now rewrite length_map|].
    transitivity (List.length (Pd.labels (data_columns (("wavelength", w) :: df))));
      [|unfold Pd.labels; now rewrite length_map].
    rewrite Lpw, Lc, <- Hpow. unfold Pd.labels, meas_columns. simpl.
    repeat (rewrite length_map || rewrite length_app). reflexivity.
Qed.

(** Region integration on such tables over two windows of at least two
    points: it returns, and both columns have a mean entry. *)
Lemma counts_region_on_loaded (df df_power : Pd.DataFrame)
      (wavelength powers : list float) (ll lh fl fh : Z) :
  Pd.get df "wavelength" = Ok wavelength ->
  Forall (fun c => List.length (snd c) = List.length wavelength) df ->
  In mean_label (Pd.labels (data_columns df)) ->
  Pd.loc0 df_power = Ok powers ->
  List.length powers = List.length (data_columns df) ->
  2 <= List.length (window ll lh wavelength wavelength) ->
  2 <= List.length (window fl fh wavelength wavelength) ->
  exists c ve vf,
    counts_region df df_power ll lh fl fh = Ok c /\
    Pd.get (excit_total_counts c) mean_label = Ok ve /\
    Pd.get (fluor_total_counts c) mean_label = Ok vf.
Proof.
  intros Hwl Hrect Hmean Hpw Hlen Hl Hf.
  destruct (signal_norm_ok df powers ll lh wavelength Hwl Hrect Hlen Hl)
    as (dxl & _ & Sl).
  destruct (signal_norm_ok df powers fl fh wavelength Hwl Hrect Hlen Hf)
    as (dxf & _ & Sf).
  assert (Hc : counts_region df df_power ll lh fl fh
               = Ok {| excit_total_counts :=
                         normalized_areas ll lh wavelength dxl
                                          (data_columns df) powers;
                       fluor_total_counts :=
                         normalized_areas fl fh wavelength dxf
                                          (data_columns df) powers |}).
  { unfold counts_region. rewrite Hpw. cbn [bind]. now rewrite Sl, Sf. }
  destruct (counts_region_labels _ _ _ _ _ _ _ _ Hwl Hc) as [Le Lf].
  destruct (get_in_labels (excit_total_counts _) mean_label
              ltac:(rewrite Le; exact Hmean)) as (ve & Hve).
  destruct (get_in_labels (fluor_total_counts _) mean_label
              ltac:(rewrite Lf; exact Hmean)) as (vf & Hvf).
  eexists _, ve, vf. split; [exact Hc|]. split; assumption.
Qed.

Lemma collect_blank_method_ok (repr : float -> string)
      (parse : string -> float) (Instr : Type)
      (expose : Instr -> (list float * list float) * Instr)
      (g g' : Gui Instr) :
  collect_blank_method repr parse expose g = (Ok tt, g') ->
  exists collected collected_power instr' df df_power,
    collect_multi expose (entry_number_meas g) (entry_subruns g)
                  (initialize_frame_df g) (instruments g)
    = (Ok (collected, collected_power), instr') /\
    load_spectrum parse (save repr [] collected_power collected) = Ok df /\
    load_power parse (save repr [] collected_power collected) = Ok df_power /\
    g' = set_df_blank_power df_power
           (set_df_blank df (set_instruments instr' g)).
Proof.
  unfold collect_blank_method.
  destruct (collect_multi _ _ _ _ _)
    as [[[collected collected_power]|e] instr'] eqn:Hc; [|discriminate].
  cbv zeta.
  destruct (load_spectrum parse (save repr [] collected_power collected))
    as [df|e] eqn:Hs; [|discriminate].
  destruct (load_power parse (save repr [] collected_power collected))
    as [df_power|e] eqn:Hp; [|discriminate].
  intros [= <-]. exists collected, collected_power, instr', df, df_power.
  repeat split; assumption.
Qed.

Lemma collect_sample_method_ok (repr : float -> string)
      (parse : string -> float) (Instr : Type)
      (expose : Instr -> (list float * list float) * Instr)
      (g g' : Gui Instr) :
  collect_sample_method repr parse expose g = (Ok tt, g') ->
  exists collected collected_power instr' df df_power,
    collect_multi expose (entry_number_meas g) (entry_subruns g)
                  (initialize_frame_df g) (instruments g)
    = (Ok (collected, collected_power), instr') /\
    load_spectrum parse (save repr [] collected_power collected) = Ok df /\
    load_power parse (save repr [] collected_power collected) = Ok df_power /\
    g' = set_df_sample_power df_power
           (set_df_sample df (set_instruments instr' g)).
Proof.
  unfold collect_sample_method.
  destruct (collect_multi _ _ _ _ _)
    as [[[collected collected_power]|e] instr'] eqn:Hc; [|discriminate].
  cbv zeta.
  destruct (load_spectrum parse (save repr [] collected_power collected))
    as [df|e] eqn:Hs; [|discriminate].
  destruct (load_power parse (save repr [] collected_power collected))
    as [df_power|e] eqn:Hp; [|discriminate].
  intros [= <-]. exists collected, collected_power, instr', df, df_power.
  repeat split; assumption.
Qed.

(** X20.  From the two collections to the yield: a pass that serves a
    blank request and a later pass that serves a sample request, both
    ending normally, leave in the analysis frame four tables on which,
    for every choice of bounds that puts at least two wavelengths of
    either spectrum table in each window, both region integrations of
    [calculate_plqy] succeed and its four numbers are computed; the only
    exception it can then raise is one of the plot. *)
Theorem collected_files_can_be_analysed :
  forall (pow : float -> float -> float)
         (update_plot : Pd.DataFrame -> Pd.DataFrame -> Z -> Z -> Z -> Z ->
                        PLQY -> result unit)
         (repr : float -> string) (parse : string -> float)
         (Instr : Type) (expose : Instr -> (list float * list float) * Instr)
         (g1 g2 g3 : Gui Instr),
    collect_dark_bool g1 = false ->
    collect_blank_bool g1 = true ->
    collect_data_loop repr parse expose g1 = (Ok tt, g2) ->
    collect_data_loop repr parse expose (collect_sample_bool_true g2)
    = (Ok tt, g3) ->
    exists blank blank_power sample sample_power wl_blank wl_sample,
      df_blank g3 = Some blank /\
      df_blank_power g3 = Some blank_power /\
      df_sample g3 = Some sample /\
      df_sample_power g3 = Some sample_power /\
      Pd.get blank "wavelength" = Ok wl_blank /\
      Pd.get sample "wavelength" = Ok wl_sample /\
      forall (ll lh fl fh : Z),
        2 <= List.length (window ll lh wl_blank wl_blank) ->
        2 <= List.length (window fl fh wl_blank wl_blank) ->
        2 <= List.length (window ll lh wl_sample wl_sample) ->
        2 <= List.length (window fl fh wl_sample wl_sample) ->
        exists ba sa p,
          counts_region blank blank_power ll lh fl fh = Ok ba /\
          counts_region sample sample_power ll lh fl fh = Ok sa /\
          plqy_of_counts pow ba sa = Ok p /\
          calculate_plqy pow update_plot
                         blank blank_power sample sample_power ll lh fl fh
          = (let* drawn := update_plot blank sample ll lh fl fh p in Ok p).
Proof.
  intros pow update_plot repr parse Instr expose g1 g2 g3 Hd Hb H1 H2.
  unfold collect_data_loop in H1. rewrite Hd, Hb in H1. cbn [orb] in H1.
  destruct (collect_blank_method repr parse expose g1) as [[[]|e] g1'] eqn:Hm;
    [|discriminate].
  injection H1 as <-.
  destruct (collect_blank_method_ok _ _ _ _ _ _ Hm)
    as (cb & cbp & i_b & blank & blank_power & Cb & Sb & Pb & ->).
  unfold collect_data_loop in H2. cbn in H2.
  destruct (collect_sample_method repr parse expose _) as [[[]|e] g2'] eqn:Hn;
    [|discriminate].
  injection H2 as <-.
  destruct (collect_sample_method_ok _ _ _ _ _ _ Hn)
    as (cs & csp & i_s & sample & sample_power & Cs & Ss & Ps & ->).
  destruct (collected_tables_loaded _ _ _ _ _ _ _ _ _ _ _ _ _ Cb Sb Pb)
    as (wb & pb & Wb & Rb & Mb & Lb & Nb).
  destruct (collected_tables_loaded _ _ _ _ _ _ _ _ _ _ _ _ _ Cs Ss Ps)
    as (ws & ps & Ws & Rs & Ms & Ls & Ns).
  exists blank, blank_power, sample, sample_power, wb, ws.
  repeat split; try assumption.
  intros ll lh fl fh Hbl Hbf Hsl Hsf.
  destruct (counts_region_on_loaded _ _ _ _ ll lh fl fh Wb Rb Mb Lb Nb Hbl Hbf)
    as (ba & be & bf & Hba & Hbe & Hbfl).
  destruct (counts_region_on_loaded _ _ _ _ ll lh fl fh Ws Rs Ms Ls Ns Hsl Hsf)
    as (sa & se & sf & Hsa & Hse & Hsfl).
  destruct (plqy_of_counts_eq pow ba sa be bf se sf Hbe Hbfl Hse Hsfl)
    as (sd & _ & Hp).
  exists ba, sa. eexists. split; [exact Hba|]. split; [exact Hsa|].
  split; [exact Hp|].
  unfold calculate_plqy. rewrite Hba, Hsa. cbn [bind]. rewrite Hp.
  reflexivity.
Qed.

Lemma collected_files_example :
  exists blank blank_power sample sample_power wl_blank wl_sample,
    df_blank gui_sample_collected_example = Some blank /\
    df_blank_power gui_sample_collected_example = Some blank_power /\
    df_sample gui_sample_collected_example = Some sample /\
    df_sample_power gui_sample_collected_example = Some sample_power /\
    Pd.get blank "wavelength" = Ok wl_blank /\
    Pd.get sample "wavelength" = Ok wl_sample /\
    forall (ll lh fl fh : Z),
      2 <= List.length (window ll lh wl_blank wl_blank) ->
      2 <= List.length (window fl fh wl_blank wl_blank) ->
      2 <= List.length (window ll lh wl_sample wl_sample) ->
      2 <= List.length (window fl fh wl_sample wl_sample) ->
      exists ba sa p,
        counts_region blank blank_power ll lh fl fh = Ok ba /\
        counts_region sample sample_power ll lh fl fh = Ok sa /\
        plqy_of_counts pow_rounded ba sa = Ok p /\
        calculate_plqy pow_rounded plot_drawn
                       blank blank_power sample sample_power ll lh fl fh
        = (let* drawn := plot_drawn blank sample ll lh fl fh p in Ok p).
Proof.
  apply (collected_files_can_be_analysed pow_rounded plot_drawn
           exact_repr exact_parse Tape replay
           gui_blank_requested_example gui_blank_collected_example
           gui_sample_collected_example).
  - vm_compute. reflexivity.
  - vm_compute. reflexivity.
  - vm_compute. reflexivity.
  - vm_compute. reflexivity.
Defined.
